(** * GameLad GPU: a shallow embedding of [gb-emu-lib/GPU.cpp]

    The pixel-processing unit of the emulator: the timing state machine
    [Step], the memory arbiter [ReadByte] / [WriteByte], the DMA engine
    [LaunchDMATransfer] and the two scanline renderers.

    Bytes, 16-bit addresses and the [unsigned long] mode clock are integers
    of [Z] with the wrap-around of every narrowing assignment written out.
    The three memories are lists indexed from 0.  The collaborators reached
    through pointers (CPU, MMU, VSync callback) appear as the events a call
    produces, in program order. *)

From Stdlib Require Import ZArith Lia Bool.
From stdpp Require Import base tactics option list list_numbers.

Local Open Scope Z_scope.

(** ** Machine integers *)

Definition to_byte (x : Z) : Z := x mod 256.
Definition to_ushort (x : Z) : Z := x mod 65536.

(** [static_cast<sbyte>] of a byte value. *)
Definition to_sbyte (x : Z) : Z :=
  let b := to_byte x in if 128 <=? b then b - 256 else b.

Definition is_byte (x : Z) : Prop := 0 <= x < 256.

(** Modelled from the spec: the bit macros of [pch.hpp], a header that is not
    among the sources; "bit n is set", "set bit n" and "clear bit n" of a
    register byte. *)
Definition ISBITSET (val bit : Z) : bool := Z.land (Z.shiftr val bit) 1 =? 1.
Definition SETBIT (val bit : Z) : Z := Z.lor val (Z.shiftl 1 bit).
Definition CLEARBIT (val bit : Z) : Z := Z.land val (Z.lnot (Z.shiftl 1 bit)).

(** ** Arrays

    [m_VRAM], [m_OAM] and [m_DisplayPixels] are fixed-size C arrays.  An
    access outside the array has no defined behaviour in the source; here a
    load outside the list yields 0 and a store outside it is dropped.  The
    model follows the source only where every access is in range: the
    properties of the renderers carry the hypotheses that keep the scanline
    among the rows of the framebuffer. *)

Definition load (a : list Z) (i : Z) : Z :=
  if 0 <=? i then default 0 (a !! Z.to_nat i) else 0.

Definition store (a : list Z) (i v : Z) : list Z :=
  if 0 <=? i then <[Z.to_nat i := v]> a else a.

(** ** Constants of [GPU.hpp]

    The header that declares the mode durations and the register addresses
    is not among the sources, and neither is the platform's width of
    [unsigned long]; they are parameters of the development. *)

Record Header : Type := {
  ULONG_BITS : Z;
  ReadingOAMCycles : Z;
  ReadingOAMVRAMCycles : Z;
  HBlankCycles : Z;
  VBlankCycles : Z;
  LCDControl : Z;
  LCDControllerStatus : Z;
  ScrollY : Z;
  ScrollX : Z;
  LCDControllerYCoordinate : Z;
  LYCompare : Z;
  DMATransferAndStartAddress : Z;
  BGPaletteData : Z;
  ObjectPalette0Data : Z;
  ObjectPalette1Data : Z;
  WindowYPosition : Z;
  WindowXPositionMinus7 : Z
}.

Definition to_ulong (h : Header) (x : Z) : Z := x mod 2 ^ ULONG_BITS h.

(** The register addresses a [switch] of the source dispatches on, in the
    order of its [case] labels in [ReadByte]. *)
Definition registers (h : Header) : list Z :=
  [ LCDControl h; LCDControllerStatus h; ScrollY h; ScrollX h;
    LCDControllerYCoordinate h; LYCompare h; WindowYPosition h;
    WindowXPositionMinus7 h; BGPaletteData h; ObjectPalette0Data h;
    ObjectPalette1Data h; DMATransferAndStartAddress h ].

Definition in_VRAM (address : Z) : bool := (0x8000 <=? address) && (address <=? 0x9FFF).
Definition in_OAM (address : Z) : bool := (0xFE00 <=? address) && (address <=? 0xFE9F).

(** What any header the source compiles against provides: durations that an
    [unsigned long] holds, and [case] labels that are distinct 16-bit
    addresses outside the two memory windows. *)
Record header_ok (h : Header) : Prop := {
  ulong_bits_pos : 0 < ULONG_BITS h;
  oam_cycles_range : 0 <= ReadingOAMCycles h < 2 ^ ULONG_BITS h;
  vram_cycles_range : 0 <= ReadingOAMVRAMCycles h < 2 ^ ULONG_BITS h;
  hblank_cycles_range : 0 <= HBlankCycles h < 2 ^ ULONG_BITS h;
  vblank_cycles_range : 0 <= VBlankCycles h < 2 ^ ULONG_BITS h;
  registers_distinct : NoDup (registers h);
  registers_outside :
    Forall (fun a => 0 <= a < 65536 /\ in_VRAM a = false /\ in_OAM a = false)
           (registers h)
}.

(** Modelled from the spec: the constants of the absent [GPU.hpp], as one
    instance for the examples.  The three scanline modes last 80, 172 and 204
    clocks, 456 clocks a line, and VBlank counts 456 clocks per line (the
    comment above [Step] in the source gives the same figures); the
    registers are at FF40 to FF4B as the comments of the source name them
    (FF40 LCDC, FF41 STAT); [unsigned long] has 32 bits. *)
Definition DMG : Header := {|
  ULONG_BITS := 32;
  ReadingOAMCycles := 80;
  ReadingOAMVRAMCycles := 172;
  HBlankCycles := 204;
  VBlankCycles := 456;
  LCDControl := 0xFF40;
  LCDControllerStatus := 0xFF41;
  ScrollY := 0xFF42;
  ScrollX := 0xFF43;
  LCDControllerYCoordinate := 0xFF44;
  LYCompare := 0xFF45;
  DMATransferAndStartAddress := 0xFF46;
  BGPaletteData := 0xFF47;
  ObjectPalette0Data := 0xFF48;
  ObjectPalette1Data := 0xFF49;
  WindowYPosition := 0xFF4A;
  WindowXPositionMinus7 := 0xFF4B
|}.

(** The mode numbers, as the STAT comment of the source lists them. *)
Definition ModeHBlank : Z := 0.
Definition ModeVBlank : Z := 1.
Definition ModeReadingOAM : Z := 2.
Definition ModeReadingOAMVRAM : Z := 3.

(** The four shades, lightest first. *)
Definition GBColors : list Z := [0xEB; 0xC4; 0x60; 0x00].

(** ** State *)

Record GPU : Type := {
  m_CPU : bool;               (* the CPU pointer is not null *)
  m_pVSyncCallback : bool;    (* the callback pointer is not null *)
  m_ModeClock : Z;
  m_LCDControl : Z;
  m_LCDControllerStatus : Z;
  m_ScrollY : Z;
  m_ScrollX : Z;
  m_LCDControllerYCoordinate : Z;
  m_LYCompare : Z;
  m_WindowYPosition : Z;
  m_WindowXPositionMinus7 : Z;
  m_BGPaletteData : Z;
  m_ObjectPalette0Data : Z;
  m_ObjectPalette1Data : Z;
  m_VRAM : list Z;
  m_OAM : list Z;
  m_DisplayPixels : list Z
}.

Definition set_ModeClock (s : GPU) (v : Z) : GPU :=
  {| m_CPU := m_CPU s; m_pVSyncCallback := m_pVSyncCallback s;
     m_ModeClock := v; m_LCDControl := m_LCDControl s;
     m_LCDControllerStatus := m_LCDControllerStatus s;
     m_ScrollY := m_ScrollY s; m_ScrollX := m_ScrollX s;
     m_LCDControllerYCoordinate := m_LCDControllerYCoordinate s;
     m_LYCompare := m_LYCompare s; m_WindowYPosition := m_WindowYPosition s;
     m_WindowXPositionMinus7 := m_WindowXPositionMinus7 s;
     m_BGPaletteData := m_BGPaletteData s;
     m_ObjectPalette0Data := m_ObjectPalette0Data s;
     m_ObjectPalette1Data := m_ObjectPalette1Data s;
     m_VRAM := m_VRAM s; m_OAM := m_OAM s;
     m_DisplayPixels := m_DisplayPixels s |}.

Definition set_LCDControl (s : GPU) (v : Z) : GPU :=
  {| m_CPU := m_CPU s; m_pVSyncCallback := m_pVSyncCallback s;
     m_ModeClock := m_ModeClock s; m_LCDControl := v;
     m_LCDControllerStatus := m_LCDControllerStatus s;
     m_ScrollY := m_ScrollY s; m_ScrollX := m_ScrollX s;
     m_LCDControllerYCoordinate := m_LCDControllerYCoordinate s;
     m_LYCompare := m_LYCompare s; m_WindowYPosition := m_WindowYPosition s;
     m_WindowXPositionMinus7 := m_WindowXPositionMinus7 s;
     m_BGPaletteData := m_BGPaletteData s;
     m_ObjectPalette0Data := m_ObjectPalette0Data s;
     m_ObjectPalette1Data := m_ObjectPalette1Data s;
     m_VRAM := m_VRAM s; m_OAM := m_OAM s;
     m_DisplayPixels := m_DisplayPixels s |}.

Definition set_LCDControllerStatus (s : GPU) (v : Z) : GPU :=
  {| m_CPU := m_CPU s; m_pVSyncCallback := m_pVSyncCallback s;
     m_ModeClock := m_ModeClock s; m_LCDControl := m_LCDControl s;
     m_LCDControllerStatus := v;
     m_ScrollY := m_ScrollY s; m_ScrollX := m_ScrollX s;
     m_LCDControllerYCoordinate := m_LCDControllerYCoordinate s;
     m_LYCompare := m_LYCompare s; m_WindowYPosition := m_WindowYPosition s;
     m_WindowXPositionMinus7 := m_WindowXPositionMinus7 s;
     m_BGPaletteData := m_BGPaletteData s;
     m_ObjectPalette0Data := m_ObjectPalette0Data s;
     m_ObjectPalette1Data := m_ObjectPalette1Data s;
     m_VRAM := m_VRAM s; m_OAM := m_OAM s;
     m_DisplayPixels := m_DisplayPixels s |}.

Definition set_ScrollY (s : GPU) (v : Z) : GPU :=
  {| m_CPU := m_CPU s; m_pVSyncCallback := m_pVSyncCallback s;
     m_ModeClock := m_ModeClock s; m_LCDControl := m_LCDControl s;
     m_LCDControllerStatus := m_LCDControllerStatus s;
     m_ScrollY := v; m_ScrollX := m_ScrollX s;
     m_LCDControllerYCoordinate := m_LCDControllerYCoordinate s;
     m_LYCompare := m_LYCompare s; m_WindowYPosition := m_WindowYPosition s;
     m_WindowXPositionMinus7 := m_WindowXPositionMinus7 s;
     m_BGPaletteData := m_BGPaletteData s;
     m_ObjectPalette0Data := m_ObjectPalette0Data s;
     m_ObjectPalette1Data := m_ObjectPalette1Data s;
     m_VRAM := m_VRAM s; m_OAM := m_OAM s;
     m_DisplayPixels := m_DisplayPixels s |}.

Definition set_ScrollX (s : GPU) (v : Z) : GPU :=
  {| m_CPU := m_CPU s; m_pVSyncCallback := m_pVSyncCallback s;
     m_ModeClock := m_ModeClock s; m_LCDControl := m_LCDControl s;
     m_LCDControllerStatus := m_LCDControllerStatus s;
     m_ScrollY := m_ScrollY s; m_ScrollX := v;
     m_LCDControllerYCoordinate := m_LCDControllerYCoordinate s;
     m_LYCompare := m_LYCompare s; m_WindowYPosition := m_WindowYPosition s;
     m_WindowXPositionMinus7 := m_WindowXPositionMinus7 s;
     m_BGPaletteData := m_BGPaletteData s;
     m_ObjectPalette0Data := m_ObjectPalette0Data s;
     m_ObjectPalette1Data := m_ObjectPalette1Data s;
     m_VRAM := m_VRAM s; m_OAM := m_OAM s;
     m_DisplayPixels := m_DisplayPixels s |}.

Definition set_LCDControllerYCoordinate (s : GPU) (v : Z) : GPU :=
  {| m_CPU := m_CPU s; m_pVSyncCallback := m_pVSyncCallback s;
     m_ModeClock := m_ModeClock s; m_LCDControl := m_LCDControl s;
     m_LCDControllerStatus := m_LCDControllerStatus s;
     m_ScrollY := m_ScrollY s; m_ScrollX := m_ScrollX s;
     m_LCDControllerYCoordinate := v;
     m_LYCompare := m_LYCompare s; m_WindowYPosition := m_WindowYPosition s;
     m_WindowXPositionMinus7 := m_WindowXPositionMinus7 s;
     m_BGPaletteData := m_BGPaletteData s;
     m_ObjectPalette0Data := m_ObjectPalette0Data s;
     m_ObjectPalette1Data := m_ObjectPalette1Data s;
     m_VRAM := m_VRAM s; m_OAM := m_OAM s;
     m_DisplayPixels := m_DisplayPixels s |}.

Definition set_LYCompare (s : GPU) (v : Z) : GPU :=
  {| m_CPU := m_CPU s; m_pVSyncCallback := m_pVSyncCallback s;
     m_ModeClock := m_ModeClock s; m_LCDControl := m_LCDControl s;
     m_LCDControllerStatus := m_LCDControllerStatus s;
     m_ScrollY := m_ScrollY s; m_ScrollX := m_ScrollX s;
     m_LCDControllerYCoordinate := m_LCDControllerYCoordinate s;
     m_LYCompare := v; m_WindowYPosition := m_WindowYPosition s;
     m_WindowXPositionMinus7 := m_WindowXPositionMinus7 s;
     m_BGPaletteData := m_BGPaletteData s;
     m_ObjectPalette0Data := m_ObjectPalette0Data s;
     m_ObjectPalette1Data := m_ObjectPalette1Data s;
     m_VRAM := m_VRAM s; m_OAM := m_OAM s;
     m_DisplayPixels := m_DisplayPixels s |}.

Definition set_WindowYPosition (s : GPU) (v : Z) : GPU :=
  {| m_CPU := m_CPU s; m_pVSyncCallback := m_pVSyncCallback s;
     m_ModeClock := m_ModeClock s; m_LCDControl := m_LCDControl s;
     m_LCDControllerStatus := m_LCDControllerStatus s;
     m_ScrollY := m_ScrollY s; m_ScrollX := m_ScrollX s;
     m_LCDControllerYCoordinate := m_LCDControllerYCoordinate s;
     m_LYCompare := m_LYCompare s; m_WindowYPosition := v;
     m_WindowXPositionMinus7 := m_WindowXPositionMinus7 s;
     m_BGPaletteData := m_BGPaletteData s;
     m_ObjectPalette0Data := m_ObjectPalette0Data s;
     m_ObjectPalette1Data := m_ObjectPalette1Data s;
     m_VRAM := m_VRAM s; m_OAM := m_OAM s;
     m_DisplayPixels := m_DisplayPixels s |}.

Definition set_WindowXPositionMinus7 (s : GPU) (v : Z) : GPU :=
  {| m_CPU := m_CPU s; m_pVSyncCallback := m_pVSyncCallback s;
     m_ModeClock := m_ModeClock s; m_LCDControl := m_LCDControl s;
     m_LCDControllerStatus := m_LCDControllerStatus s;
     m_ScrollY := m_ScrollY s; m_ScrollX := m_ScrollX s;
     m_LCDControllerYCoordinate := m_LCDControllerYCoordinate s;
     m_LYCompare := m_LYCompare s; m_WindowYPosition := m_WindowYPosition s;
     m_WindowXPositionMinus7 := v;
     m_BGPaletteData := m_BGPaletteData s;
     m_ObjectPalette0Data := m_ObjectPalette0Data s;
     m_ObjectPalette1Data := m_ObjectPalette1Data s;
     m_VRAM := m_VRAM s; m_OAM := m_OAM s;
     m_DisplayPixels := m_DisplayPixels s |}.

Definition set_BGPaletteData (s : GPU) (v : Z) : GPU :=
  {| m_CPU := m_CPU s; m_pVSyncCallback := m_pVSyncCallback s;
     m_ModeClock := m_ModeClock s; m_LCDControl := m_LCDControl s;
     m_LCDControllerStatus := m_LCDControllerStatus s;
     m_ScrollY := m_ScrollY s; m_ScrollX := m_ScrollX s;
     m_LCDControllerYCoordinate := m_LCDControllerYCoordinate s;
     m_LYCompare := m_LYCompare s; m_WindowYPosition := m_WindowYPosition s;
     m_WindowXPositionMinus7 := m_WindowXPositionMinus7 s;
     m_BGPaletteData := v;
     m_ObjectPalette0Data := m_ObjectPalette0Data s;
     m_ObjectPalette1Data := m_ObjectPalette1Data s;
     m_VRAM := m_VRAM s; m_OAM := m_OAM s;
     m_DisplayPixels := m_DisplayPixels s |}.

Definition set_ObjectPalette0Data (s : GPU) (v : Z) : GPU :=
  {| m_CPU := m_CPU s; m_pVSyncCallback := m_pVSyncCallback s;
     m_ModeClock := m_ModeClock s; m_LCDControl := m_LCDControl s;
     m_LCDControllerStatus := m_LCDControllerStatus s;
     m_ScrollY := m_ScrollY s; m_ScrollX := m_ScrollX s;
     m_LCDControllerYCoordinate := m_LCDControllerYCoordinate s;
     m_LYCompare := m_LYCompare s; m_WindowYPosition := m_WindowYPosition s;
     m_WindowXPositionMinus7 := m_WindowXPositionMinus7 s;
     m_BGPaletteData := m_BGPaletteData s;
     m_ObjectPalette0Data := v;
     m_ObjectPalette1Data := m_ObjectPalette1Data s;
     m_VRAM := m_VRAM s; m_OAM := m_OAM s;
     m_DisplayPixels := m_DisplayPixels s |}.

Definition set_ObjectPalette1Data (s : GPU) (v : Z) : GPU :=
  {| m_CPU := m_CPU s; m_pVSyncCallback := m_pVSyncCallback s;
     m_ModeClock := m_ModeClock s; m_LCDControl := m_LCDControl s;
     m_LCDControllerStatus := m_LCDControllerStatus s;
     m_ScrollY := m_ScrollY s; m_ScrollX := m_ScrollX s;
     m_LCDControllerYCoordinate := m_LCDControllerYCoordinate s;
     m_LYCompare := m_LYCompare s; m_WindowYPosition := m_WindowYPosition s;
     m_WindowXPositionMinus7 := m_WindowXPositionMinus7 s;
     m_BGPaletteData := m_BGPaletteData s;
     m_ObjectPalette0Data := m_ObjectPalette0Data s;
     m_ObjectPalette1Data := v;
     m_VRAM := m_VRAM s; m_OAM := m_OAM s;
     m_DisplayPixels := m_DisplayPixels s |}.

Definition set_VRAM (s : GPU) (v : list Z) : GPU :=
  {| m_CPU := m_CPU s; m_pVSyncCallback := m_pVSyncCallback s;
     m_ModeClock := m_ModeClock s; m_LCDControl := m_LCDControl s;
     m_LCDControllerStatus := m_LCDControllerStatus s;
     m_ScrollY := m_ScrollY s; m_ScrollX := m_ScrollX s;
     m_LCDControllerYCoordinate := m_LCDControllerYCoordinate s;
     m_LYCompare := m_LYCompare s; m_WindowYPosition := m_WindowYPosition s;
     m_WindowXPositionMinus7 := m_WindowXPositionMinus7 s;
     m_BGPaletteData := m_BGPaletteData s;
     m_ObjectPalette0Data := m_ObjectPalette0Data s;
     m_ObjectPalette1Data := m_ObjectPalette1Data s;
     m_VRAM := v; m_OAM := m_OAM s;
     m_DisplayPixels := m_DisplayPixels s |}.

Definition set_OAM (s : GPU) (v : list Z) : GPU :=
  {| m_CPU := m_CPU s; m_pVSyncCallback := m_pVSyncCallback s;
     m_ModeClock := m_ModeClock s; m_LCDControl := m_LCDControl s;
     m_LCDControllerStatus := m_LCDControllerStatus s;
     m_ScrollY := m_ScrollY s; m_ScrollX := m_ScrollX s;
     m_LCDControllerYCoordinate := m_LCDControllerYCoordinate s;
     m_LYCompare := m_LYCompare s; m_WindowYPosition := m_WindowYPosition s;
     m_WindowXPositionMinus7 := m_WindowXPositionMinus7 s;
     m_BGPaletteData := m_BGPaletteData s;
     m_ObjectPalette0Data := m_ObjectPalette0Data s;
     m_ObjectPalette1Data := m_ObjectPalette1Data s;
     m_VRAM := m_VRAM s; m_OAM := v;
     m_DisplayPixels := m_DisplayPixels s |}.

Definition set_DisplayPixels (s : GPU) (v : list Z) : GPU :=
  {| m_CPU := m_CPU s; m_pVSyncCallback := m_pVSyncCallback s;
     m_ModeClock := m_ModeClock s; m_LCDControl := m_LCDControl s;
     m_LCDControllerStatus := m_LCDControllerStatus s;
     m_ScrollY := m_ScrollY s; m_ScrollX := m_ScrollX s;
     m_LCDControllerYCoordinate := m_LCDControllerYCoordinate s;
     m_LYCompare := m_LYCompare s; m_WindowYPosition := m_WindowYPosition s;
     m_WindowXPositionMinus7 := m_WindowXPositionMinus7 s;
     m_BGPaletteData := m_BGPaletteData s;
     m_ObjectPalette0Data := m_ObjectPalette0Data s;
     m_ObjectPalette1Data := m_ObjectPalette1Data s;
     m_VRAM := m_VRAM s; m_OAM := m_OAM s;
     m_DisplayPixels := v |}.

(** A state the C++ object can be in: every [byte] member holds a byte, the
    clock an [unsigned long], and the arrays have their declared sizes. *)
Record wf (h : Header) (s : GPU) : Prop := {
  wf_clock : 0 <= m_ModeClock s < 2 ^ ULONG_BITS h;
  wf_control : is_byte (m_LCDControl s);
  wf_status : is_byte (m_LCDControllerStatus s);
  wf_scy : is_byte (m_ScrollY s);
  wf_scx : is_byte (m_ScrollX s);
  wf_ly : is_byte (m_LCDControllerYCoordinate s);
  wf_lyc : is_byte (m_LYCompare s);
  wf_wy : is_byte (m_WindowYPosition s);
  wf_wx : is_byte (m_WindowXPositionMinus7 s);
  wf_bgp : is_byte (m_BGPaletteData s);
  wf_obp0 : is_byte (m_ObjectPalette0Data s);
  wf_obp1 : is_byte (m_ObjectPalette1Data s);
  wf_vram : Z.of_nat (length (m_VRAM s)) = 8192 /\ Forall is_byte (m_VRAM s);
  wf_oam : Z.of_nat (length (m_OAM s)) = 160 /\ Forall is_byte (m_OAM s);
  wf_pixels :
    Z.of_nat (length (m_DisplayPixels s)) = 160 * 144 /\ Forall is_byte (m_DisplayPixels s)
}.

(** ** Register bits *)

Definition IsLCDDisplayEnabled (s : GPU) : bool := ISBITSET (m_LCDControl s) 7.
Definition WindowTileMapDisplaySelect (s : GPU) : bool := ISBITSET (m_LCDControl s) 6.
Definition WindowDisplayEnable (s : GPU) : bool := ISBITSET (m_LCDControl s) 5.
Definition BGWindowTileDataSelect (s : GPU) : bool := ISBITSET (m_LCDControl s) 4.
Definition BGWTileMapDisplaySelect (s : GPU) : bool := ISBITSET (m_LCDControl s) 3.
Definition OBJSize (s : GPU) : bool := ISBITSET (m_LCDControl s) 2.
Definition OBJDisplayEnable (s : GPU) : bool := ISBITSET (m_LCDControl s) 1.
Definition BGDisplayEnable (s : GPU) : bool := ISBITSET (m_LCDControl s) 0.

Definition LYCoincidenceInterrupt (s : GPU) : bool := ISBITSET (m_LCDControllerStatus s) 6.
Definition OAMInterrupt (s : GPU) : bool := ISBITSET (m_LCDControllerStatus s) 5.
Definition VBlankInterrupt (s : GPU) : bool := ISBITSET (m_LCDControllerStatus s) 4.
Definition HBlankInterrupt (s : GPU) : bool := ISBITSET (m_LCDControllerStatus s) 3.

Definition SETMODE (s : GPU) (mode : Z) : GPU :=
  set_LCDControllerStatus s
    (to_byte (Z.lor (Z.land (m_LCDControllerStatus s) (Z.lnot 0x03)) mode)).

Definition GETMODE (s : GPU) : Z := Z.land (m_LCDControllerStatus s) 0x03.

(** ** Collaborators

    The calls that leave the object, and the arbitrated reads the renderers
    issue, in the order the program makes them. *)

Inductive Interrupt : Type := INT40 | INT48.

Inductive Event : Type :=
| TriggerInterrupt (i : Interrupt)        (* m_CPU->TriggerInterrupt(i) *)
| VSyncCallback                           (* m_pVSyncCallback() *)
| ReadByteCall (address value : Z)        (* a renderer's ReadByte(address) *)
| MMUReadByte (address value : Z).        (* m_MMU->ReadByte(address) *)

(** ** Memory arbiter: reads *)

Definition ReadByte (h : Header) (s : GPU) (address : Z) : Z :=
  if in_VRAM address then
    if IsLCDDisplayEnabled s && (GETMODE s =? ModeReadingOAMVRAM) then 0x00
    else load (m_VRAM s) (address - 0x8000)
  else if in_OAM address then
    if IsLCDDisplayEnabled s
       && ((GETMODE s =? ModeReadingOAM) || (GETMODE s =? ModeReadingOAMVRAM))
    then 0x00
    else load (m_OAM s) (address - 0xFE00)
  else if address =? LCDControl h then m_LCDControl s
  else if address =? LCDControllerStatus h then m_LCDControllerStatus s
  else if address =? ScrollY h then m_ScrollY s
  else if address =? ScrollX h then m_ScrollX s
  else if address =? LCDControllerYCoordinate h then m_LCDControllerYCoordinate s
  else if address =? LYCompare h then m_LYCompare s
  else if address =? WindowYPosition h then m_WindowYPosition s
  else if address =? WindowXPositionMinus7 h then m_WindowXPositionMinus7 s
  else if address =? BGPaletteData h then m_BGPaletteData s
  else if address =? ObjectPalette0Data h then m_ObjectPalette0Data s
  else if address =? ObjectPalette1Data h then m_ObjectPalette1Data s
  else if address =? DMATransferAndStartAddress h then 0x00
  else 0x00.

(** ** Renderers *)

(** A [for] loop over the values [xs] of its counter; the body may change
    the state and issue calls. *)
Fixpoint for_each (xs : list Z) (body : Z -> GPU -> GPU * list Event) (s : GPU)
  : GPU * list Event :=
  match xs with
  | [] => (s, [])
  | x :: rest =>
      let '(s1, t1) := body x s in
      let '(s2, t2) := for_each rest body s1 in
      (s2, t1 ++ t2)
  end.

Definition write_pixel (s : GPU) (index color : Z) : GPU :=
  set_DisplayPixels s (store (m_DisplayPixels s) index color).

(** The body of the column loop of [RenderBackgroundScanline] when the
    background is enabled. *)
Definition RenderBackgroundPixel (h : Header) (palette : list Z)
    (tileNumberMap tileData tileY tileYOffset : Z) (x : Z) (s : GPU)
  : GPU * list Event :=
  let tileX := to_byte (Z.rem (Z.quot (m_ScrollX s + x) 8) 32) in
  let mapPtr := to_ushort (tileNumberMap + (tileY * 32) + tileX) in
  let tileNumber := ReadByte h s mapPtr in
  let tileDataPtr :=
    if BGWindowTileDataSelect s
    then to_ushort (tileData + tileNumber * 0x10)
    else to_ushort (tileData + to_sbyte tileNumber * 0x10) in
  let tileDataPtr := to_ushort (tileDataPtr + to_ushort (tileYOffset * 2)) in
  let b1 := ReadByte h s tileDataPtr in
  let b2 := ReadByte h s (to_ushort (tileDataPtr + 1)) in
  let bit := to_byte (7 - Z.rem (m_ScrollX s + x) 8) in
  let pLo := if ISBITSET b1 bit then 0x01 else 0x00 in
  let pHi := if ISBITSET b2 bit then 0x02 else 0x00 in
  let color := load palette (pLo + pHi) in
  let index := (m_LCDControllerYCoordinate s * 160) + x in
  (write_pixel s index color,
   [ReadByteCall mapPtr tileNumber; ReadByteCall tileDataPtr b1;
    ReadByteCall (to_ushort (tileDataPtr + 1)) b2]).

Definition RenderBackgroundScanline (h : Header) (s : GPU) : GPU * list Event :=
  let palette :=
    [ load GBColors (Z.land (m_BGPaletteData s) 0x03);
      load GBColors (Z.land (Z.shiftr (m_BGPaletteData s) 2) 0x03);
      load GBColors (Z.land (Z.shiftr (m_BGPaletteData s) 4) 0x03);
      load GBColors (Z.land (Z.shiftr (m_BGPaletteData s) 6) 0x03) ] in
  if negb (BGDisplayEnable s) then
    for_each (seqZ 0 160)
      (fun x s =>
         (write_pixel s ((m_LCDControllerYCoordinate s * 160) + x) (load GBColors 0), []))
      s
  else
    let tileNumberMap := if BGWTileMapDisplaySelect s then 0x9C00 else 0x9800 in
    let tileData := if BGWindowTileDataSelect s then 0x8000 else 0x9000 in
    let tileY :=
      to_byte (Z.rem (Z.quot (m_LCDControllerYCoordinate s + m_ScrollY s) 8) 32) in
    let tileYOffset :=
      to_byte (Z.rem (m_LCDControllerYCoordinate s + m_ScrollY s) 8) in
    for_each (seqZ 0 160)
      (RenderBackgroundPixel h palette tileNumberMap tileData tileY tileYOffset) s.

(** The body of the pixel loop of [RenderOBJScanline]: pixel [indexX] of the
    sprite row whose bit planes are [low] and [high]. *)
Definition RenderOBJPixel (spriteFlags : Z) (palette : list Z) (x low high : Z)
    (indexX : Z) (s : GPU) : GPU * list Event :=
  let pixelX := x + indexX in
  if (0 <=? pixelX) && (pixelX <? 160) then
    let bit := to_byte (if ISBITSET spriteFlags 5 then indexX else 7 - indexX) in
    let pixelVal := 0x00 in
    let pixelVal := if ISBITSET high bit then Z.lor pixelVal 0x02 else pixelVal in
    let pixelVal := if ISBITSET low bit then Z.lor pixelVal 0x01 else pixelVal in
    let color := load palette pixelVal in
    if negb (pixelVal =? 0x00) then
      let index := (m_LCDControllerYCoordinate s * 160) + pixelX in
      if negb (ISBITSET spriteFlags 7) then (write_pixel s index color, [])
      else if load (m_DisplayPixels s) index =? 0x00
           then (write_pixel s index color, [])
           else (s, [])
    else (s, [])
  else (s, []).

(** The body of the sprite loop of [RenderOBJScanline]: the entry at byte
    [i] of object memory. *)
Definition RenderOBJSprite (h : Header) (i : Z) (s : GPU) : GPU * list Event :=
  let SPRITESIZEINBYTES := 16 in
  let objY := load (m_OAM s) i in
  let spriteSize := if OBJSize s then 0x10 else 0x08 in
  let height := spriteSize in
  let y := objY - 16 in
  if (y <=? m_LCDControllerYCoordinate s)
     && (m_LCDControllerYCoordinate s <? y + height) then
    let objX := load (m_OAM s) (i + 1) in
    let spriteTileNumber := load (m_OAM s) (i + 2) in
    let spriteFlags := load (m_OAM s) (i + 3) in
    let spriteTileNumber :=
      if spriteSize =? 0x10 then to_byte (Z.land spriteTileNumber 0xFE)
      else spriteTileNumber in
    let paletteNumber := if ISBITSET spriteFlags 4 then 0x01 else 0x00 in
    let x := objX - 8 in
    let tileData := 0x8000 in
    let palette :=
      [ 0x00;
        load GBColors (if paletteNumber =? 0x00
                       then Z.land (Z.shiftr (m_ObjectPalette0Data s) 2) 0x03
                       else Z.land (Z.shiftr (m_ObjectPalette1Data s) 2) 0x03);
        load GBColors (if paletteNumber =? 0x00
                       then Z.land (Z.shiftr (m_ObjectPalette0Data s) 4) 0x03
                       else Z.land (Z.shiftr (m_ObjectPalette1Data s) 4) 0x03);
        load GBColors (if paletteNumber =? 0x00
                       then Z.land (Z.shiftr (m_ObjectPalette0Data s) 6) 0x03
                       else Z.land (Z.shiftr (m_ObjectPalette1Data s) 6) 0x03) ] in
    let tilePointer := to_ushort (tileData + (spriteTileNumber * SPRITESIZEINBYTES)) in
    let tileYOffset :=
      to_byte (if ISBITSET spriteFlags 6
               then (height - 1) - (m_LCDControllerYCoordinate s - y)
               else m_LCDControllerYCoordinate s - y) in
    let tilePointer := to_ushort (tilePointer + (tileYOffset * 2)) in
    let low := ReadByte h s tilePointer in
    let high := ReadByte h s (to_ushort (tilePointer + 1)) in
    let '(s1, t1) :=
      for_each (seqZ 0 8) (RenderOBJPixel spriteFlags palette x low high) s in
    (s1, [ReadByteCall tilePointer low; ReadByteCall (to_ushort (tilePointer + 1)) high]
         ++ t1)
  else (s, []).

(** The counter [i] of the sprite loop takes the values 0, 4, ..., 156. *)
Definition sprite_offsets : list Z := (fun k => 4 * k) <$> seqZ 0 40.

Definition RenderOBJScanline (h : Header) (s : GPU) : GPU * list Event :=
  for_each sprite_offsets (RenderOBJSprite h) s.

Definition RenderScanline (h : Header) (s : GPU) : GPU * list Event :=
  let '(s1, t1) := RenderBackgroundScanline h s in
  (* the window layer is commented out in the source *)
  if OBJDisplayEnable s1 then
    let '(s2, t2) := RenderOBJScanline h s1 in (s2, t1 ++ t2)
  else (s1, t1).

Definition RenderImage (s : GPU) : list Event :=
  if m_pVSyncCallback s then [VSyncCallback] else [].

(** ** Timing state machine *)

(** The [switch (GETMODE)] of [Step], entered with the cycles already added
    to the mode clock. *)
Definition StepMode (h : Header) (s : GPU) : GPU * list Event :=
  if GETMODE s =? ModeReadingOAM then
    if ReadingOAMCycles h <=? m_ModeClock s then
      let s := set_ModeClock s (to_ulong h (m_ModeClock s - ReadingOAMCycles h)) in
      (SETMODE s ModeReadingOAMVRAM, [])
    else (s, [])
  else if GETMODE s =? ModeReadingOAMVRAM then
    if ReadingOAMVRAMCycles h <=? m_ModeClock s then
      let s := set_ModeClock s (to_ulong h (m_ModeClock s - ReadingOAMVRAMCycles h)) in
      let s := SETMODE s ModeHBlank in
      let '(s, t) := RenderScanline h s in
      (s, t ++ (if HBlankInterrupt s && m_CPU s then [TriggerInterrupt INT48] else []))
    else (s, [])
  else if GETMODE s =? ModeHBlank then
    if HBlankCycles h <=? m_ModeClock s then
      let s := set_ModeClock s (to_ulong h (m_ModeClock s - HBlankCycles h)) in
      let s := set_LCDControllerYCoordinate s
                 (to_byte (m_LCDControllerYCoordinate s + 1)) in
      if m_LCDControllerYCoordinate s =? 144 then
        let s := SETMODE s ModeVBlank in
        (s, RenderImage s
            ++ (if m_CPU s
                then TriggerInterrupt INT40
                     :: (if VBlankInterrupt s then [TriggerInterrupt INT48] else [])
                else []))
      else (SETMODE s ModeReadingOAM, [])
    else (s, [])
  else if GETMODE s =? ModeVBlank then
    if VBlankCycles h <=? m_ModeClock s then
      let s := set_ModeClock s (to_ulong h (m_ModeClock s - VBlankCycles h)) in
      let s := set_LCDControllerYCoordinate s
                 (to_byte (m_LCDControllerYCoordinate s + 1)) in
      if m_LCDControllerYCoordinate s =? 154 then
        let s := SETMODE s ModeReadingOAM in
        (set_LCDControllerYCoordinate s 0x00, [])
      else (s, [])
    else (s, [])
  else (s, []).

(** The coincidence comparison that ends [Step]. *)
Definition StepCoincidence (s : GPU) : GPU * list Event :=
  if m_LYCompare s =? m_LCDControllerYCoordinate s then
    let s := set_LCDControllerStatus s (to_byte (SETBIT (m_LCDControllerStatus s) 2)) in
    (s, if LYCoincidenceInterrupt s && m_CPU s then [TriggerInterrupt INT48] else [])
  else
    (set_LCDControllerStatus s (to_byte (CLEARBIT (m_LCDControllerStatus s) 2)), []).

Definition Step (h : Header) (s : GPU) (cycles : Z) : GPU * list Event :=
  if negb (IsLCDDisplayEnabled s) then
    let s := set_LCDControllerYCoordinate s 153 in
    let s := set_ModeClock s (to_ulong h (VBlankCycles h)) in
    (SETMODE s ModeVBlank, [])
  else
    let s := set_ModeClock s (to_ulong h (m_ModeClock s + cycles)) in
    let '(s1, t1) := StepMode h s in
    let '(s2, t2) := StepCoincidence s1 in
    (s2, t1 ++ t2).

(** ** DMA engine and writes *)

Section WithMMU.

(** The memory unit behind [m_MMU]: a read may depend on, and change, the
    unit's own state, and may consult the GPU it is wired to. *)
Context {MMU : Type} (MMU_ReadByte : MMU -> GPU -> Z -> Z * MMU).

(** The copy loop of [LaunchDMATransfer] over the values of [offset]. *)
Fixpoint dma_loop (source : Z) (offsets : list Z) (s : GPU) (m : MMU)
  : GPU * MMU * list Event :=
  match offsets with
  | [] => (s, m, [])
  | offset :: rest =>
      let address := to_ushort (Z.lor source offset) in
      let '(v, m1) := MMU_ReadByte m s address in
      let v := to_byte v in
      let s1 := set_OAM s (store (m_OAM s) offset v) in
      let '(s2, m2, t) := dma_loop source rest s1 m1 in
      (s2, m2, MMUReadByte address v :: t)
  end.

Definition LaunchDMATransfer (s : GPU) (m : MMU) (address : Z)
  : GPU * MMU * list Event :=
  let source := to_ushort (to_ushort address * 0x0100) in
  dma_loop source (seqZ 0x00 0xA0) s m.

(** [WriteByte] returns its [bool], the state of the GPU and of the memory
    unit after the call, and the calls it made. *)
Definition WriteByte (h : Header) (s : GPU) (m : MMU) (address val : Z)
  : bool * GPU * MMU * list Event :=
  if in_VRAM address then
    if IsLCDDisplayEnabled s && (GETMODE s =? ModeReadingOAMVRAM)
    then (false, s, m, [])
    else (true, set_VRAM s (store (m_VRAM s) (address - 0x8000) val), m, [])
  else if in_OAM address then
    if IsLCDDisplayEnabled s
       && ((GETMODE s =? ModeReadingOAM) || (GETMODE s =? ModeReadingOAMVRAM))
    then (false, s, m, [])
    else (true, set_OAM s (store (m_OAM s) (address - 0xFE00) val), m, [])
  else if address =? LCDControl h then (true, set_LCDControl s val, m, [])
  else if address =? LCDControllerStatus h then
    (true,
     set_LCDControllerStatus s
       (to_byte (Z.lor (Z.land val 0xF8) (Z.land (m_LCDControllerStatus s) 0x07))),
     m, [])
  else if address =? ScrollY h then (true, set_ScrollY s val, m, [])
  else if address =? ScrollX h then (true, set_ScrollX s val, m, [])
  else if address =? LCDControllerYCoordinate h then
    (true, set_LCDControllerYCoordinate s 0, m, [])
  else if address =? LYCompare h then (true, set_LYCompare s val, m, [])
  else if address =? WindowYPosition h then (true, set_WindowYPosition s val, m, [])
  else if address =? WindowXPositionMinus7 h then
    (true, set_WindowXPositionMinus7 s val, m, [])
  else if address =? BGPaletteData h then (true, set_BGPaletteData s val, m, [])
  else if address =? ObjectPalette0Data h then
    (true, set_ObjectPalette0Data s val, m, [])
  else if address =? ObjectPalette1Data h then
    (true, set_ObjectPalette1Data s val, m, [])
  else if address =? DMATransferAndStartAddress h then
    let '(s1, m1, t) := LaunchDMATransfer s m val in (true, s1, m1, t)
  else (false, s, m, []).

End WithMMU.

Definition PreBoot (s : GPU) : GPU :=
  let s := set_LCDControllerYCoordinate s 0x91 in
  let s := set_ScrollY s 0x00 in
  let s := set_ScrollX s 0x00 in
  let s := set_LYCompare s 0x00 in
  let s := set_BGPaletteData s 0xFC in
  let s := set_ObjectPalette0Data s 0xFF in
  let s := set_ObjectPalette1Data s 0xFF in
  let s := set_WindowYPosition s 0x00 in
  set_WindowXPositionMinus7 s 0x00.

(** ** Frame sink *)

Definition set_pVSyncCallback (s : GPU) (v : bool) : GPU :=
  {| m_CPU := m_CPU s; m_pVSyncCallback := v;
     m_ModeClock := m_ModeClock s; m_LCDControl := m_LCDControl s;
     m_LCDControllerStatus := m_LCDControllerStatus s;
     m_ScrollY := m_ScrollY s; m_ScrollX := m_ScrollX s;
     m_LCDControllerYCoordinate := m_LCDControllerYCoordinate s;
     m_LYCompare := m_LYCompare s; m_WindowYPosition := m_WindowYPosition s;
     m_WindowXPositionMinus7 := m_WindowXPositionMinus7 s;
     m_BGPaletteData := m_BGPaletteData s;
     m_ObjectPalette0Data := m_ObjectPalette0Data s;
     m_ObjectPalette1Data := m_ObjectPalette1Data s;
     m_VRAM := m_VRAM s; m_OAM := m_OAM s;
     m_DisplayPixels := m_DisplayPixels s |}.

(** [pCallback] tells whether the pointer handed over is not null. *)
Definition SetVSyncCallback (s : GPU) (pCallback : bool) : GPU :=
  set_pVSyncCallback s pCallback.

Definition GetCurrentFrame (s : GPU) : list Z := m_DisplayPixels s.

(** ** Construction *)

(** The constructor [GPU::GPU].  [pCPU] tells whether the CPU pointer is not
    null.  The source gives no initial value to the status register, to
    video memory and to object memory: [SETMODE] sets the two mode bits of
    whatever byte the status register holds, and the memories keep what they
    hold.  These leftovers are the arguments [status], [vram] and [oam].
    What the framebuffer holds before [memset] fills it is never looked at;
    its size, which the absent header declares, is the one [wf] gives it. *)
Definition GPU_new (pCPU : bool) (status : Z) (vram oam : list Z) : GPU :=
  let s := {|
    m_CPU := pCPU; m_pVSyncCallback := false; m_ModeClock := 0;
    m_LCDControl := 0x00; m_LCDControllerStatus := status;
    m_ScrollY := 0x00; m_ScrollX := 0x00; m_LCDControllerYCoordinate := 0x00;
    m_LYCompare := 0x00; m_WindowYPosition := 0x00; m_WindowXPositionMinus7 := 0x00;
    m_BGPaletteData := 0x00; m_ObjectPalette0Data := 0x00; m_ObjectPalette1Data := 0x00;
    m_VRAM := vram; m_OAM := oam; m_DisplayPixels := [] |} in
  let s := SETMODE s ModeVBlank in
  set_DisplayPixels s (replicate (Z.to_nat (160 * 144)) 0x00).


(** * Vocabulary of the specification *)

(** [same_but_pixels s s']: the two states differ in the framebuffer at most. *)
Definition same_but_pixels (s s' : GPU) : Prop :=
  s' = set_DisplayPixels s (m_DisplayPixels s').

(** Video memory is closed to the bus: the display is on and the mode is
    VRAM transfer. *)
Definition VRAM_blocked (s : GPU) : bool :=
  IsLCDDisplayEnabled s && (GETMODE s =? ModeReadingOAMVRAM).

(** Object memory is closed to the bus: the display is on and the mode is
    OAM search or VRAM transfer. *)
Definition OAM_blocked (s : GPU) : bool :=
  IsLCDDisplayEnabled s
  && ((GETMODE s =? ModeReadingOAM) || (GETMODE s =? ModeReadingOAMVRAM)).

(** The cycle-duration threshold of a mode. *)
Definition mode_threshold (h : Header) (mode : Z) : Z :=
  if mode =? ModeReadingOAM then ReadingOAMCycles h
  else if mode =? ModeReadingOAMVRAM then ReadingOAMVRAMCycles h
  else if mode =? ModeHBlank then HBlankCycles h
  else VBlankCycles h.

(** How many times a trace asks the CPU for interrupt [i]. *)
Fixpoint requests (i : Interrupt) (t : list Event) : nat :=
  match t with
  | [] => 0
  | TriggerInterrupt INT40 :: rest =>
      (match i with INT40 => 1 | INT48 => 0 end + requests i rest)%nat
  | TriggerInterrupt INT48 :: rest =>
      (match i with INT40 => 0 | INT48 => 1 end + requests i rest)%nat
  | _ :: rest => requests i rest
  end.

(** The call ends HBlank on the last visible line: display on, mode HBlank,
    the clock reaches the HBlank threshold, and the incremented scanline
    index is 144. *)
Definition enters_VBlank (h : Header) (s : GPU) (cycles : Z) : bool :=
  IsLCDDisplayEnabled s
  && (GETMODE s =? ModeHBlank)
  && (HBlankCycles h <=? to_ulong h (m_ModeClock s + cycles))
  && (to_byte (m_LCDControllerYCoordinate s + 1) =? 144).

(** A renderer's read that went through the arbiter in state [s]. *)
Definition arbitrated_read (h : Header) (s : GPU) (e : Event) : Prop :=
  match e with
  | ReadByteCall address value => value = ReadByte h s address
  | _ => False
  end.


(** The addresses a DMA transfer started with value [V] reads, in order. *)
Definition dma_addresses (V : Z) : list Z := (fun offset => V * 256 + offset) <$> seqZ 0 160.

(** ** The memory unit during a transfer *)

Section MemoryUnit.

Context {MMU : Type} (MMU_ReadByte : MMU -> GPU -> Z -> Z * MMU).

(** The bytes the memory unit returns when it is asked for the [addresses]
    in order, and the unit after the last answer.  Every answer may change
    the unit, and the unit sees the GPU as the transfer has left it so far:
    the bytes returned before are already in object memory, from entry [k]
    on. *)
Fixpoint returned_bytes (s : GPU) (m : MMU) (k : nat) (addresses : list Z)
  : list Z * MMU :=
  match addresses with
  | [] => ([], m)
  | address :: rest =>
      let answer := MMU_ReadByte m s address in
      let v := to_byte answer.1 in
      let after := returned_bytes (set_OAM s (<[k := v]> (m_OAM s))) answer.2 (S k) rest in
      (v :: after.1, after.2)
  end.

End MemoryUnit.

(** What a write does, by address and by the state of the gates. *)
Inductive WriteOutcome : Type :=
| Dropped | StoredVRAM | StoredOAM | StoredRegister | ScanlineReset | DMALaunched.

Definition write_outcome (h : Header) (s : GPU) (address : Z) : WriteOutcome :=
  if in_VRAM address then (if VRAM_blocked s then Dropped else StoredVRAM)
  else if in_OAM address then (if OAM_blocked s then Dropped else StoredOAM)
  else if bool_decide (address = LCDControllerYCoordinate h) then ScanlineReset
  else if bool_decide (address = DMATransferAndStartAddress h) then DMALaunched
  else if bool_decide (address ∈ registers h) then StoredRegister
  else Dropped.

Definition takes_effect (o : WriteOutcome) : bool :=
  match o with Dropped => false | _ => true end.

(** ** Sample states *)

Definition blank (n : Z) : list Z := replicate (Z.to_nat n) 0.

Definition sample (cpu vsync : bool) (control status ly lyc clock : Z) : GPU := {|
  m_CPU := cpu; m_pVSyncCallback := vsync; m_ModeClock := clock;
  m_LCDControl := control; m_LCDControllerStatus := status;
  m_ScrollY := 0; m_ScrollX := 0; m_LCDControllerYCoordinate := ly;
  m_LYCompare := lyc; m_WindowYPosition := 0; m_WindowXPositionMinus7 := 0;
  m_BGPaletteData := 0xFC; m_ObjectPalette0Data := 0xFF; m_ObjectPalette1Data := 0xFF;
  m_VRAM := blank 8192; m_OAM := blank 160; m_DisplayPixels := blank (160 * 144) |}.

(** A scene for the renderers, one clock short of the end of VRAM transfer
    on line 0.  The first sprite sits in the top-left corner with attribute
    byte [flags]; its tile, tile 0, has a first row of colour index 1, which
    object palette 0 maps to shade 1.  The tile map is all zero, so with
    tile data at [0x8000] the background shows the same tile. *)
Definition sprite_scene (control bgp flags : Z) : GPU := {|
  m_CPU := true; m_pVSyncCallback := true; m_ModeClock := 170;
  m_LCDControl := control; m_LCDControllerStatus := 0x03;
  m_ScrollY := 0; m_ScrollX := 0; m_LCDControllerYCoordinate := 0;
  m_LYCompare := 0; m_WindowYPosition := 0; m_WindowXPositionMinus7 := 0;
  m_BGPaletteData := bgp; m_ObjectPalette0Data := 0xE4; m_ObjectPalette1Data := 0xE4;
  m_VRAM := [0xFF; 0x00] ++ blank 8190;
  m_OAM := [16; 8; 0; flags] ++ blank 156;
  m_DisplayPixels := blank (160 * 144) |}.

(** A memory unit whose every byte holds the low byte of its address. *)
Definition echo_ReadByte (m : unit) (s : GPU) (address : Z) : Z * unit :=
  (Z.land address 0xFF, m).

(** ** Further vocabulary *)

(** The scanline index agrees with the mode: lines 144 to 153 in VBlank,
    lines 0 to 143 in the three modes of a visible line. *)
Definition timing_inv (s : GPU) : Prop :=
  if GETMODE s =? ModeVBlank
  then 144 <= m_LCDControllerYCoordinate s <= 153
  else 0 <= m_LCDControllerYCoordinate s <= 143.

(** The call ends VRAM transfer: display on, mode VRAM transfer, and the
    clock reaches the threshold of that mode. *)
Definition enters_HBlank (h : Header) (s : GPU) (cycles : Z) : bool :=
  IsLCDDisplayEnabled s
  && (GETMODE s =? ModeReadingOAMVRAM)
  && (ReadingOAMVRAMCycles h <=? to_ulong h (m_ModeClock s + cycles)).

(** The clock reaches the threshold of the mode the call starts in. *)
Definition reaches_threshold (h : Header) (s : GPU) (cycles : Z) : bool :=
  mode_threshold h (GETMODE s) <=? to_ulong h (m_ModeClock s + cycles).

(** The mode and scanline index that follow [mode] and [ly] when a mode ends. *)
Definition next_mode (mode ly : Z) : Z * Z :=
  if mode =? ModeReadingOAM then (ModeReadingOAMVRAM, ly)
  else if mode =? ModeReadingOAMVRAM then (ModeHBlank, ly)
  else if mode =? ModeHBlank then
    if to_byte (ly + 1) =? 144 then (ModeVBlank, 144) else (ModeReadingOAM, to_byte (ly + 1))
  else
    if to_byte (ly + 1) =? 154 then (ModeReadingOAM, 0) else (ModeVBlank, to_byte (ly + 1)).

(** How many times a trace calls the VSync callback. *)
Fixpoint callbacks (t : list Event) : nat :=
  match t with
  | [] => 0
  | VSyncCallback :: rest => S (callbacks rest)
  | _ :: rest => callbacks rest
  end.

Definition b2n (b : bool) : nat := if b then 1 else 0.

(** One of the four shades of the display. *)
Definition is_shade (c : Z) : Prop := c ∈ GBColors.

(** [repainted p p' ly k]: framebuffer [p'] is [p] with nothing changed
    outside row [ly], and a shade in each of the first [k] columns of that
    row. *)
Definition repainted (p p' : list Z) (ly k : Z) : Prop :=
  length p' = length p
  /\ (forall j, ~ (ly * 160 <= j < ly * 160 + 160) -> load p' j = load p j)
  /\ (forall x, 0 <= x < k -> is_shade (load p' (ly * 160 + x))).

(** The tile map and the tile data that the control register selects for
    the background, as the source's comment gives them: bit 3 picks the map
    at [0x9800] or [0x9C00], bit 4 the data at [0x8800] or [0x8000]. *)
Definition in_tile_map (s : GPU) (address : Z) : Prop :=
  if BGWTileMapDisplaySelect s then 0x9C00 <= address <= 0x9FFF
  else 0x9800 <= address <= 0x9BFF.

Definition in_tile_data (s : GPU) (address : Z) : Prop :=
  if BGWindowTileDataSelect s then 0x8000 <= address <= 0x8FFF
  else 0x8800 <= address <= 0x97FF.

(** A renderer's read at an address that satisfies [P]. *)
Definition reads_within (P : Z -> Prop) (e : Event) : Prop :=
  match e with
  | ReadByteCall address _ => P address
  | _ => False
  end.

(** The shade of the background at column [x] of the current scanline, as
    video memory gives it: the entry of the selected tile map under the
    scrolled position, the row of that tile in the selected tile data
    (numbered from [0x8000], or as a signed number around [0x9000]), the two
    bit planes of the row, and the background palette.  Positions in video
    memory are counted from [0x8000]. *)
Definition background_shade (s : GPU) (x : Z) : Z :=
  let px := (m_ScrollX s + x) mod 256 in
  let py := (m_LCDControllerYCoordinate s + m_ScrollY s) mod 256 in
  let map := if BGWTileMapDisplaySelect s then 0x1C00 else 0x1800 in
  let number := load (m_VRAM s) (map + 32 * (py / 8) + px / 8) in
  let tile :=
    if BGWindowTileDataSelect s then 16 * number
    else 0x1000 + 16 * (if number <? 128 then number else number - 256) in
  let row := tile + 2 * (py mod 8) in
  let lo := Z.b2z (Z.testbit (load (m_VRAM s) row) (7 - px mod 8)) in
  let hi := Z.b2z (Z.testbit (load (m_VRAM s) (row + 1)) (7 - px mod 8)) in
  load GBColors (Z.land (Z.shiftr (m_BGPaletteData s) (2 * (2 * hi + lo))) 0x03).

(** A scene with two sprites on top of each other in the top-left corner:
    the first and the second object entry show the tile of [sprite_scene],
    the first through object palette 0 (shade 1 for colour 1), the second
    through object palette 1 (shade 2 for colour 1).  The other 38 entries
    are off the screen.  The display and the sprites are on, the background
    is off, the mode is HBlank on line 0. *)
Definition two_sprite_scene : GPU := {|
  m_CPU := true; m_pVSyncCallback := true; m_ModeClock := 0;
  m_LCDControl := 0x82; m_LCDControllerStatus := 0x00;
  m_ScrollY := 0; m_ScrollX := 0; m_LCDControllerYCoordinate := 0;
  m_LYCompare := 0; m_WindowYPosition := 0; m_WindowXPositionMinus7 := 0;
  m_BGPaletteData := 0xE4; m_ObjectPalette0Data := 0xE4; m_ObjectPalette1Data := 0x1B;
  m_VRAM := [0xFF; 0x00] ++ blank 8190;
  m_OAM := [16; 8; 0; 0x00; 16; 8; 0; 0x10] ++ blank 152;
  m_DisplayPixels := blank (160 * 144) |}.

(** * Properties *)

(** ** Bits of a register byte *)

Lemma ISBITSET_testbit (val bit : Z) : 0 <= bit -> ISBITSET val bit = Z.testbit val bit.
Proof.
  intros Hb. unfold ISBITSET.
  change 1 with (Z.ones 1) at 1. rewrite Z.land_ones by lia.
  change (2 ^ 1) with 2. rewrite <- Z.bit0_eqb, Z.shiftr_spec by lia.
  done.
Qed.

Lemma testbit_to_byte (v n : Z) : n < 8 -> Z.testbit (to_byte v) n = Z.testbit v n.
Proof. intros Hn. unfold to_byte. change 256 with (2 ^ 8). by apply Z.mod_pow2_bits_low. Qed.

Lemma to_byte_range (v : Z) : is_byte (to_byte v).
Proof. unfold is_byte, to_byte. apply Z.mod_pos_bound. lia. Qed.

Lemma to_byte_small (v : Z) : is_byte v -> to_byte v = v.
Proof. unfold is_byte, to_byte. intros. by apply Z.mod_small. Qed.

Lemma testbit_small (m k n : Z) : 0 <= m < 2 ^ k -> 0 <= k <= n -> Z.testbit m n = false.
Proof.
  intros Hm Hk. apply Z.testbit_false; [lia|].
  rewrite Z.div_small; [done|]. split; [lia|].
  apply Z.lt_le_trans with (2 ^ k); [lia|]. apply Z.pow_le_mono_r; lia.
Qed.

(** The mode field read after [SETMODE] is the mode written. *)
Lemma GETMODE_SETMODE (s : GPU) (mode : Z) :
  0 <= mode < 4 -> GETMODE (SETMODE s mode) = mode.
Proof.
  intros Hm. unfold GETMODE, SETMODE. cbn [m_LCDControllerStatus set_LCDControllerStatus].
  apply Z.bits_inj'. intros n Hn.
  rewrite Z.land_spec. change 3 with (Z.ones 2) at 2.
  rewrite Z.testbit_ones_nonneg by lia.
  destruct (Z.ltb_spec n 2) as [Hlt|Hge].
  - rewrite testbit_to_byte by lia.
    rewrite Z.lor_spec, Z.land_spec, Z.lnot_spec by lia.
    change 3 with (Z.ones 2). rewrite Z.testbit_ones_nonneg by lia.
    destruct (Z.ltb_spec n 2); [|lia].
    cbn. rewrite andb_false_r, andb_true_r. done.
  - rewrite andb_false_r. symmetry. apply (testbit_small mode 2); [done | lia].
Qed.

(** [SETMODE] leaves bits 2 to 7 of the status byte as they were. *)
Lemma ISBITSET_SETMODE (s : GPU) (mode bit : Z) :
  0 <= mode < 4 -> 2 <= bit < 8 ->
  ISBITSET (m_LCDControllerStatus (SETMODE s mode)) bit
  = ISBITSET (m_LCDControllerStatus s) bit.
Proof.
  intros Hm Hb. rewrite !ISBITSET_testbit by lia.
  unfold SETMODE. cbn [m_LCDControllerStatus set_LCDControllerStatus].
  rewrite testbit_to_byte by lia.
  rewrite Z.lor_spec, Z.land_spec, Z.lnot_spec by lia.
  change 3 with (Z.ones 2). rewrite Z.testbit_ones_nonneg by lia.
  destruct (Z.ltb_spec bit 2); [lia|].
  rewrite (testbit_small mode 2) by lia.
  cbn. by rewrite andb_true_r, orb_false_r.
Qed.

Lemma GETMODE_range (s : GPU) : 0 <= GETMODE s < 4.
Proof.
  unfold GETMODE. change 3 with (Z.ones 2). rewrite Z.land_ones by lia.
  apply Z.mod_pos_bound. lia.
Qed.

Lemma ISBITSET_SETBIT (st bit : Z) :
  0 <= bit < 8 ->
  ISBITSET (to_byte (SETBIT st 2)) bit = if bit =? 2 then true else ISBITSET st bit.
Proof.
  intros Hb. rewrite !ISBITSET_testbit by lia. rewrite testbit_to_byte by lia.
  unfold SETBIT. rewrite Z.lor_spec. change (Z.shiftl 1 2) with (2 ^ 2).
  rewrite Z.pow2_bits_eqb by lia. rewrite (Z.eqb_sym 2 bit).
  destruct (bit =? 2); [apply orb_true_r | apply orb_false_r].
Qed.

Lemma ISBITSET_CLEARBIT (st bit : Z) :
  0 <= bit < 8 ->
  ISBITSET (to_byte (CLEARBIT st 2)) bit = if bit =? 2 then false else ISBITSET st bit.
Proof.
  intros Hb. rewrite !ISBITSET_testbit by lia. rewrite testbit_to_byte by lia.
  unfold CLEARBIT. rewrite Z.land_spec, Z.lnot_spec by lia.
  change (Z.shiftl 1 2) with (2 ^ 2).
  rewrite Z.pow2_bits_eqb by lia. rewrite (Z.eqb_sym 2 bit).
  destruct (bit =? 2); [apply andb_false_r | apply andb_true_r].
Qed.

(** Neither outcome of the coincidence comparison touches the mode field. *)
Lemma mode_bits_SETBIT (st : Z) : Z.land (to_byte (SETBIT st 2)) 0x03 = Z.land st 0x03.
Proof.
  apply Z.bits_inj'. intros n Hn. rewrite !Z.land_spec.
  change 3 with (Z.ones 2). rewrite Z.testbit_ones_nonneg by lia.
  destruct (Z.ltb_spec n 2); [|by rewrite !andb_false_r].
  rewrite testbit_to_byte by lia. unfold SETBIT.
  rewrite Z.lor_spec. change (Z.shiftl 1 2) with (2 ^ 2).
  rewrite Z.pow2_bits_eqb by lia.
  destruct (Z.eqb_spec 2 n); [lia|]. by rewrite orb_false_r.
Qed.

Lemma mode_bits_CLEARBIT (st : Z) : Z.land (to_byte (CLEARBIT st 2)) 0x03 = Z.land st 0x03.
Proof.
  apply Z.bits_inj'. intros n Hn. rewrite !Z.land_spec.
  change 3 with (Z.ones 2). rewrite Z.testbit_ones_nonneg by lia.
  destruct (Z.ltb_spec n 2); [|by rewrite !andb_false_r].
  rewrite testbit_to_byte by lia. unfold CLEARBIT.
  rewrite Z.land_spec, Z.lnot_spec by lia. change (Z.shiftl 1 2) with (2 ^ 2).
  rewrite Z.pow2_bits_eqb by lia.
  destruct (Z.eqb_spec 2 n); [lia|]. by rewrite andb_true_r.
Qed.

(** ** What the renderers leave alone *)

Lemma same_but_pixels_refl (s : GPU) : same_but_pixels s s.
Proof. by destruct s. Qed.

Lemma same_but_pixels_trans (s1 s2 s3 : GPU) :
  same_but_pixels s1 s2 -> same_but_pixels s2 s3 -> same_but_pixels s1 s3.
Proof. unfold same_but_pixels. intros -> ->. done. Qed.

Lemma same_but_pixels_write (s : GPU) (index color : Z) :
  same_but_pixels s (write_pixel s index color).
Proof. done. Qed.

(** A loop keeps what every round of its body keeps, and issues only calls
    that some round issues. *)
Lemma for_each_invariant (I : GPU -> Prop) (Q : Event -> Prop)
    (body : Z -> GPU -> GPU * list Event) (xs : list Z) (s : GPU) :
  I s ->
  (forall x s, x ∈ xs -> I s -> I (body x s).1 /\ Forall Q (body x s).2) ->
  I (for_each xs body s).1 /\ Forall Q (for_each xs body s).2.
Proof.
  revert s. induction xs as [|x xs IH]; intros s Hs Hbody; cbn.
  - by split.
  - destruct (body x s) as [s1 t1] eqn:E1.
    destruct (for_each xs body s1) as [s2 t2] eqn:E2.
    destruct (Hbody x s) as [Hs1 Ht1]; [left | done |]. rewrite E1 in Hs1, Ht1.
    destruct (IH s1) as [Hs2 Ht2]; [done | |].
    { intros y s' Hy. apply Hbody. by right. }
    rewrite E2 in Hs2, Ht2. cbn in *. split; [done|]. by apply Forall_app.
Qed.

Lemma RenderOBJPixel_same (flags : Z) (palette : list Z) (x low high indexX : Z) (s : GPU) :
  same_but_pixels s (RenderOBJPixel flags palette x low high indexX s).1
  /\ (RenderOBJPixel flags palette x low high indexX s).2 = [].
Proof.
  unfold RenderOBJPixel.
  repeat match goal with |- context [if ?b then _ else _] => destruct b end;
    cbn; split; auto using same_but_pixels_refl, same_but_pixels_write.
Qed.

Lemma same_but_pixels_fields (s s' : GPU) :
  same_but_pixels s s' ->
  m_CPU s' = m_CPU s /\ m_pVSyncCallback s' = m_pVSyncCallback s
  /\ m_ModeClock s' = m_ModeClock s /\ m_LCDControl s' = m_LCDControl s
  /\ m_LCDControllerStatus s' = m_LCDControllerStatus s
  /\ m_ScrollY s' = m_ScrollY s /\ m_ScrollX s' = m_ScrollX s
  /\ m_LCDControllerYCoordinate s' = m_LCDControllerYCoordinate s
  /\ m_LYCompare s' = m_LYCompare s
  /\ m_BGPaletteData s' = m_BGPaletteData s
  /\ m_ObjectPalette0Data s' = m_ObjectPalette0Data s
  /\ m_ObjectPalette1Data s' = m_ObjectPalette1Data s
  /\ m_VRAM s' = m_VRAM s /\ m_OAM s' = m_OAM s.
Proof. intros ->. cbn. repeat split. Qed.

Lemma ReadByte_same (h : Header) (s s' : GPU) (address : Z) :
  same_but_pixels s s' -> ReadByte h s' address = ReadByte h s address.
Proof. intros ->. done. Qed.


(** Rendering a scanline changes the framebuffer only, and every call it
    makes is a read through the arbiter of the state it started in. *)
Lemma RenderScanline_frame (h : Header) (s : GPU) :
  same_but_pixels s (RenderScanline h s).1
  /\ Forall (arbitrated_read h s) (RenderScanline h s).2.
Proof.
  unfold RenderScanline.
  assert (Hbg : same_but_pixels s (RenderBackgroundScanline h s).1
                /\ Forall (arbitrated_read h s) (RenderBackgroundScanline h s).2).
  { unfold RenderBackgroundScanline. destruct (negb _).
    - apply for_each_invariant; [apply same_but_pixels_refl|].
      intros x s' _ Hs'. split; [|done].
      eapply same_but_pixels_trans; [done | apply same_but_pixels_write].
    - apply for_each_invariant; [apply same_but_pixels_refl|].
      intros x s' _ Hs'. split.
      + eapply same_but_pixels_trans; [done | apply same_but_pixels_write].
      + unfold RenderBackgroundPixel. cbn [snd].
        repeat apply Forall_cons_2; try apply Forall_nil_2;
          cbn [arbitrated_read]; by rewrite (ReadByte_same h s s'). }
  destruct (RenderBackgroundScanline h s) as [s1 t1]. cbn [fst snd] in Hbg.
  destruct Hbg as [Hs1 Ht1].
  destruct (OBJDisplayEnable s1); [|done].
  assert (Hobj : same_but_pixels s1 (RenderOBJScanline h s1).1
                 /\ Forall (arbitrated_read h s) (RenderOBJScanline h s1).2).
  { unfold RenderOBJScanline.
    apply for_each_invariant; [apply same_but_pixels_refl|].
    intros i s' _ Hs'.
    assert (Hss' : same_but_pixels s s') by by eapply same_but_pixels_trans.
    unfold RenderOBJSprite. destruct (_ && _); [|done].
    match goal with
    | |- context [for_each ?xs ?body s'] =>
        pose proof (for_each_invariant (same_but_pixels s') (fun _ => False) body xs s'
                      (same_but_pixels_refl s')) as Hloop;
        destruct (for_each xs body s') as [s2 t2]
    end.
    destruct Hloop as [Hs2 Ht2].
    { intros x s'' _ Hs''.
      match goal with
      | |- context [RenderOBJPixel ?f ?p ?x0 ?lo ?hi x s''] =>
          destruct (RenderOBJPixel_same f p x0 lo hi x s'') as [Hp1 Hp2]
      end.
      split; [by eapply same_but_pixels_trans | by rewrite Hp2]. }
    cbn [fst snd] in *. split; [by eapply same_but_pixels_trans|].
    repeat apply Forall_cons_2;
      try (cbn [arbitrated_read]; by rewrite (ReadByte_same h s s')).
    eapply Forall_impl; [exact Ht2 | done]. }
  destruct (RenderOBJScanline h s1) as [s2 t2]. cbn [fst snd] in *.
  destruct Hobj as [Hs2 Ht2]. split.
  - by eapply same_but_pixels_trans.
  - by apply Forall_app.
Qed.

(** ** Where the renderers read

    In a well-formed state every address a renderer reads lies in video
    memory, and with the gate open the read returns the byte stored there. *)

Lemma to_ushort_small v : 0 <= v < 65536 -> to_ushort v = v.
Proof. intros. by apply Z.mod_small. Qed.

Lemma load_byte (a : list Z) (i : Z) : Forall is_byte a -> is_byte (load a i).
Proof.
  intros Ha. unfold load. destruct (0 <=? i); [|unfold is_byte; lia].
  destruct (a !! Z.to_nat i) as [v|] eqn:E; cbn; [|unfold is_byte; lia].
  eapply Forall_lookup_1 in E; eauto.
Qed.

Lemma ReadByte_VRAM h s a :
  in_VRAM a = true -> VRAM_blocked s = false ->
  ReadByte h s a = load (m_VRAM s) (a - 0x8000).
Proof. unfold ReadByte, VRAM_blocked. by intros -> ->. Qed.

Lemma to_sbyte_range v : is_byte v -> -128 <= to_sbyte v < 128.
Proof.
  intros Hv. unfold to_sbyte. rewrite to_byte_small by done. unfold is_byte in Hv.
  destruct (Z.leb_spec 128 v); lia.
Qed.

Lemma in_VRAM_true a : 0x8000 <= a <= 0x9FFF -> in_VRAM a = true.
Proof. unfold in_VRAM. intros. apply andb_true_intro. split; apply Z.leb_le; lia. Qed.






(** ** The mode switch *)

Lemma StepMode_OAM h s :
  GETMODE s = ModeReadingOAM ->
  StepMode h s =
    if ReadingOAMCycles h <=? m_ModeClock s then
      (SETMODE (set_ModeClock s (to_ulong h (m_ModeClock s - ReadingOAMCycles h)))
               ModeReadingOAMVRAM, [])
    else (s, []).
Proof. unfold StepMode. by intros ->. Qed.

Lemma StepMode_VRAM h s :
  GETMODE s = ModeReadingOAMVRAM ->
  StepMode h s =
    if ReadingOAMVRAMCycles h <=? m_ModeClock s then
      let s0 := SETMODE (set_ModeClock s (to_ulong h (m_ModeClock s - ReadingOAMVRAMCycles h)))
                        ModeHBlank in
      let '(s1, t) := RenderScanline h s0 in
      (s1, t ++ (if HBlankInterrupt s1 && m_CPU s1 then [TriggerInterrupt INT48] else []))
    else (s, []).
Proof. unfold StepMode. by intros ->. Qed.

Lemma StepMode_HBlank h s :
  GETMODE s = ModeHBlank ->
  StepMode h s =
    if HBlankCycles h <=? m_ModeClock s then
      let s0 := set_LCDControllerYCoordinate
                  (set_ModeClock s (to_ulong h (m_ModeClock s - HBlankCycles h)))
                  (to_byte (m_LCDControllerYCoordinate s + 1)) in
      if to_byte (m_LCDControllerYCoordinate s + 1) =? 144 then
        (SETMODE s0 ModeVBlank,
         RenderImage s
           ++ (if m_CPU s
               then TriggerInterrupt INT40
                    :: (if VBlankInterrupt (SETMODE s0 ModeVBlank)
                        then [TriggerInterrupt INT48] else [])
               else []))
      else (SETMODE s0 ModeReadingOAM, [])
    else (s, []).
Proof. unfold StepMode. by intros ->. Qed.

Lemma StepMode_VBlank h s :
  GETMODE s = ModeVBlank ->
  StepMode h s =
    if VBlankCycles h <=? m_ModeClock s then
      let s0 := set_LCDControllerYCoordinate
                  (set_ModeClock s (to_ulong h (m_ModeClock s - VBlankCycles h)))
                  (to_byte (m_LCDControllerYCoordinate s + 1)) in
      if to_byte (m_LCDControllerYCoordinate s + 1) =? 154 then
        (set_LCDControllerYCoordinate (SETMODE s0 ModeReadingOAM) 0x00, [])
      else (s0, [])
    else (s, []).
Proof. unfold StepMode. by intros ->. Qed.

Lemma to_ulong_small h v : 0 <= v < 2 ^ ULONG_BITS h -> to_ulong h v = v.
Proof. intros. by apply Z.mod_small. Qed.

Lemma to_ulong_range h v : header_ok h -> 0 <= to_ulong h v < 2 ^ ULONG_BITS h.
Proof.
  intros Hh. apply Z.mod_pos_bound. apply Z.pow_pos_nonneg; [lia|].
  pose proof (ulong_bits_pos h Hh). lia.
Qed.

Lemma GETMODE_cases s :
  GETMODE s = ModeReadingOAM \/ GETMODE s = ModeReadingOAMVRAM
  \/ GETMODE s = ModeHBlank \/ GETMODE s = ModeVBlank.
Proof.
  pose proof (GETMODE_range s).
  unfold ModeReadingOAM, ModeReadingOAMVRAM, ModeHBlank, ModeVBlank. lia.
Qed.

Lemma StepMode_clock h s :
  header_ok h -> 0 <= m_ModeClock s < 2 ^ ULONG_BITS h ->
  let s' := (StepMode h s).1 in
  m_ModeClock s' < mode_threshold h (GETMODE s')
  <-> m_ModeClock s < mode_threshold h (GETMODE s) + mode_threshold h (GETMODE s').
Proof.
  intros Hh Hc.
  pose proof (oam_cycles_range h Hh). pose proof (vram_cycles_range h Hh).
  pose proof (hblank_cycles_range h Hh). pose proof (vblank_cycles_range h Hh).
  destruct (GETMODE_cases s) as [Hm|[Hm|[Hm|Hm]]].
  - rewrite (StepMode_OAM h s Hm).
    destruct (Z.leb_spec (ReadingOAMCycles h) (m_ModeClock s)); cbn [fst].
    + rewrite GETMODE_SETMODE by (unfold ModeReadingOAMVRAM; lia).
      rewrite Hm. cbn. rewrite to_ulong_small by lia. lia.
    + rewrite Hm. cbn. lia.
  - rewrite (StepMode_VRAM h s Hm).
    destruct (Z.leb_spec (ReadingOAMVRAMCycles h) (m_ModeClock s)); cbn [fst].
    + cbv zeta.
      match goal with |- context [RenderScanline h ?s0] =>
        pose proof (RenderScanline_frame h s0) as [Hsame _];
        destruct (RenderScanline h s0) as [s1 t1] end.
      cbn [fst] in *.
      destruct (same_but_pixels_fields _ _ Hsame)
        as (_ & _ & Eclk & _ & Est & _).
      unfold GETMODE at 1 3. rewrite Est, Eclk.
      fold (GETMODE (SETMODE (set_ModeClock s
              (to_ulong h (m_ModeClock s - ReadingOAMVRAMCycles h))) ModeHBlank)).
      rewrite GETMODE_SETMODE by (unfold ModeHBlank; lia).
      rewrite Hm. cbn. rewrite to_ulong_small by lia. lia.
    + rewrite Hm. cbn. lia.
  - rewrite (StepMode_HBlank h s Hm).
    destruct (Z.leb_spec (HBlankCycles h) (m_ModeClock s)); cbn [fst].
    + cbv zeta. destruct (_ =? 144); cbn [fst];
        rewrite GETMODE_SETMODE by (unfold ModeVBlank, ModeReadingOAM; lia);
        rewrite Hm; cbn; rewrite to_ulong_small by lia; lia.
    + rewrite Hm. cbn. lia.
  - rewrite (StepMode_VBlank h s Hm).
    destruct (Z.leb_spec (VBlankCycles h) (m_ModeClock s)); cbn [fst].
    + cbv zeta. destruct (_ =? 154); cbn [fst].
      * change (GETMODE (set_LCDControllerYCoordinate ?x 0))
          with (GETMODE x).
        rewrite GETMODE_SETMODE by (unfold ModeReadingOAM; lia).
        rewrite Hm; cbn; rewrite to_ulong_small by lia; lia.
      * change (GETMODE (set_LCDControllerYCoordinate (set_ModeClock s ?c) ?y))
          with (GETMODE s).
        rewrite Hm; cbn; rewrite to_ulong_small by lia; lia.
    + rewrite Hm. cbn. lia.
Qed.

Lemma StepCoincidence_spec (s : GPU) :
  let s' := (StepCoincidence s).1 in
  m_ModeClock s' = m_ModeClock s
  /\ m_LCDControllerYCoordinate s' = m_LCDControllerYCoordinate s
  /\ m_LYCompare s' = m_LYCompare s
  /\ m_CPU s' = m_CPU s
  /\ m_DisplayPixels s' = m_DisplayPixels s
  /\ GETMODE s' = GETMODE s
  /\ ISBITSET (m_LCDControllerStatus s') 2
     = (m_LYCompare s =? m_LCDControllerYCoordinate s)
  /\ (forall bit, 3 <= bit < 8 ->
        ISBITSET (m_LCDControllerStatus s') bit = ISBITSET (m_LCDControllerStatus s) bit)
  /\ (StepCoincidence s).2
     = if (m_LYCompare s =? m_LCDControllerYCoordinate s)
          && LYCoincidenceInterrupt s && m_CPU s
       then [TriggerInterrupt INT48] else [].
Proof.
  unfold StepCoincidence, LYCoincidenceInterrupt.
  destruct (m_LYCompare s =? m_LCDControllerYCoordinate s);
    cbn [fst snd m_LCDControllerStatus set_LCDControllerStatus m_CPU andb].
  - repeat split.
    + unfold GETMODE. cbn. apply mode_bits_SETBIT.
    + by rewrite ISBITSET_SETBIT by lia.
    + intros bit Hb. rewrite ISBITSET_SETBIT by lia.
      destruct (Z.eqb_spec bit 2); [lia | done].
    + rewrite ISBITSET_SETBIT by lia. done.
  - repeat split.
    + unfold GETMODE. cbn. apply mode_bits_CLEARBIT.
    + by rewrite ISBITSET_CLEARBIT by lia.
    + intros bit Hb. rewrite ISBITSET_CLEARBIT by lia.
      destruct (Z.eqb_spec bit 2); [lia | done].
Qed.

Lemma requests_app i t1 t2 : requests i (t1 ++ t2) = (requests i t1 + requests i t2)%nat.
Proof.
  induction t1 as [|e t1 IH]; [done|]. cbn.
  destruct e as [[]| | |]; rewrite IH; lia.
Qed.

Lemma requests_reads (h : Header) (s : GPU) (i : Interrupt) (t : list Event) :
  Forall (arbitrated_read h s) t -> requests i t = 0%nat.
Proof.
  induction 1 as [|e t He _ IH]; [done|]. by destruct e.
Qed.

(** The VBlank interrupt is requested by the mode switch only when HBlank
    ends on line 143, and then once, if there is a CPU to request it from. *)
Lemma StepMode_INT40 h s :
  requests INT40 (StepMode h s).2
  = if (GETMODE s =? ModeHBlank) && (HBlankCycles h <=? m_ModeClock s)
       && (to_byte (m_LCDControllerYCoordinate s + 1) =? 144) && m_CPU s
    then 1%nat else 0%nat.
Proof.
  destruct (GETMODE_cases s) as [Hm|[Hm|[Hm|Hm]]].
  - rewrite (StepMode_OAM h s Hm), Hm. by destruct (_ <=? _).
  - rewrite (StepMode_VRAM h s Hm), Hm. cbn [Z.eqb ModeReadingOAMVRAM ModeHBlank andb].
    destruct (_ <=? _); [|done]. cbv zeta.
    match goal with |- context [RenderScanline h ?s0] =>
      pose proof (RenderScanline_frame h s0) as [_ Hr];
      destruct (RenderScanline h s0) as [s1 t1] end.
    cbn [fst snd] in *. rewrite requests_app, (requests_reads _ _ _ _ Hr).
    by destruct (_ && _).
  - rewrite (StepMode_HBlank h s Hm), Hm. cbn [Z.eqb ModeHBlank andb].
    destruct (_ <=? _); [|done]. cbv zeta. destruct (_ =? 144); [|done].
    cbn [snd andb]. rewrite requests_app. unfold RenderImage.
    destruct (m_pVSyncCallback s), (m_CPU s); try done;
      by destruct (VBlankInterrupt _).
  - rewrite (StepMode_VBlank h s Hm), Hm. cbn [Z.eqb ModeVBlank ModeHBlank andb].
    destruct (_ <=? _); [|done]. cbv zeta. by destruct (_ =? 154).
Qed.

(** ** Sample states are well formed *)

Lemma DMG_ok : header_ok DMG.
Proof.
  split; unfold registers; cbn; try lia.
  - repeat (apply NoDup_cons; split; [rewrite ?elem_of_cons, elem_of_nil; lia|]).
    apply NoDup_nil_2.
  - repeat (apply Forall_cons_2; [repeat split; lia|]). apply Forall_nil_2.
Qed.

Lemma blank_wf (n : Z) : 0 <= n -> Z.of_nat (length (blank n)) = n /\ Forall is_byte (blank n).
Proof.
  intros Hn. unfold blank. split.
  - rewrite length_replicate. lia.
  - apply Forall_replicate. unfold is_byte. lia.
Qed.

Lemma sample_wf (cpu vsync : bool) (control status ly lyc clock : Z) :
  is_byte control -> is_byte status -> is_byte ly -> is_byte lyc ->
  0 <= clock < 2 ^ 32 ->
  wf DMG (sample cpu vsync control status ly lyc clock).
Proof.
  unfold is_byte. intros.
  split; cbn [sample m_ModeClock m_LCDControl m_LCDControllerStatus m_ScrollY
    m_ScrollX m_LCDControllerYCoordinate m_LYCompare m_WindowYPosition
    m_WindowXPositionMinus7 m_BGPaletteData m_ObjectPalette0Data m_ObjectPalette1Data
    m_VRAM m_OAM m_DisplayPixels DMG ULONG_BITS];
    first [ apply blank_wf; lia | unfold is_byte; lia ].
Qed.

(** ** Array accesses *)

Lemma load_lookup (a : list Z) (i : Z) :
  0 <= i < Z.of_nat (length a) -> a !! Z.to_nat i = Some (load a i).
Proof.
  intros Hi. unfold load. destruct (Z.leb_spec 0 i); [|lia].
  destruct (lookup_lt_is_Some_2 a (Z.to_nat i)) as [v Hv]; [lia|]. by rewrite Hv.
Qed.

Lemma store_insert (a : list Z) (i v : Z) : 0 <= i -> store a i v = <[Z.to_nat i := v]> a.
Proof. intros Hi. unfold store. destruct (Z.leb_spec 0 i); [done | lia]. Qed.

Lemma load_store (a : list Z) (i v : Z) :
  0 <= i < Z.of_nat (length a) -> load (store a i v) i = v.
Proof.
  intros Hi. unfold load, store. destruct (Z.leb_spec 0 i); [|lia].
  rewrite list_lookup_insert_eq by lia. done.
Qed.

Lemma in_VRAM_range a : in_VRAM a = true -> 0x8000 <= a <= 0x9FFF.
Proof. unfold in_VRAM. intros [?%Z.leb_le ?%Z.leb_le]%andb_true_iff. lia. Qed.

Lemma in_OAM_range a : in_OAM a = true -> 0xFE00 <= a <= 0xFE9F.
Proof. unfold in_OAM. intros [?%Z.leb_le ?%Z.leb_le]%andb_true_iff. lia. Qed.

Lemma in_OAM_not_VRAM a : in_OAM a = true -> in_VRAM a = false.
Proof.
  intros H%in_OAM_range. unfold in_VRAM. apply andb_false_iff. right.
  apply Z.leb_gt. lia.
Qed.

Lemma lor_offset (V offset : Z) :
  0 <= V -> 0 <= offset < 256 -> Z.lor (V * 256) offset = V * 256 + offset.
Proof.
  intros HV Ho. rewrite <- Z.add_lor_land.
  assert (Z.land (V * 256) offset = 0) as ->; [|lia].
  apply Z.bits_inj'. intros n Hn. rewrite Z.land_spec, Z.bits_0.
  destruct (Z.lt_ge_cases n 8).
  - change 256 with (2 ^ 8). by rewrite Z.mul_pow2_bits_low.
  - rewrite (testbit_small offset 8 n) by lia. apply andb_false_r.
Qed.

(** Unpack [header_ok]: the twelve register addresses are pairwise different
    and lie outside both memory windows. *)
Ltac register_facts Hh :=
  let Hnd := fresh "Hnd" in
  let Hout := fresh "Hout" in
  pose proof (registers_distinct _ Hh) as Hnd;
  pose proof (registers_outside _ Hh) as Hout;
  unfold registers in Hnd, Hout;
  repeat match goal with
         | H : Forall _ (_ :: _) |- _ => apply Forall_cons in H as [(? & ? & ?) H]
         | H : NoDup (_ :: _) |- _ => apply NoDup_cons in H as [? H]
         | H : _ ∉ _ :: _ |- _ => apply not_elem_of_cons in H as [? H]
         end.

(** The loop that blanks a scanline: every column in [xs] of line [ly] ends
    up holding [color], and nothing else changes. *)
Lemma blank_line_loop (color : Z) (xs : list Z) :
  forall s : GPU,
    let ly := m_LCDControllerYCoordinate s in
    let r := for_each xs
               (fun x s => (write_pixel s ((m_LCDControllerYCoordinate s * 160) + x) color, []))
               s in
    0 <= ly -> Forall (fun x => 0 <= x /\ ly * 160 + x < Z.of_nat (length (m_DisplayPixels s))) xs ->
    r.2 = [] /\ same_but_pixels s r.1
    /\ length (m_DisplayPixels r.1) = length (m_DisplayPixels s)
    /\ (forall x, x ∈ xs -> m_DisplayPixels r.1 !! Z.to_nat (ly * 160 + x) = Some color)
    /\ (forall j : nat, (forall x, x ∈ xs -> j <> Z.to_nat (ly * 160 + x)) ->
          m_DisplayPixels r.1 !! j = m_DisplayPixels s !! j)
    /\ (forall j : nat, m_DisplayPixels s !! j = Some color ->
          m_DisplayPixels r.1 !! j = Some color).
Proof.
  induction xs as [|x xs IH]; intros s ly r Hly Hxs; subst r.
  - cbn. repeat split; try done. apply same_but_pixels_refl. intros x Hx. by apply elem_of_nil in Hx.
  - apply Forall_cons in Hxs as [[Hx0 Hx1] Hxs].
    cbn [for_each].
    set (s1 := write_pixel s (m_LCDControllerYCoordinate s * 160 + x) color).
    specialize (IH s1).
    change (m_LCDControllerYCoordinate s1) with (m_LCDControllerYCoordinate s) in IH.
    fold ly in IH.
    assert (Hpix : m_DisplayPixels s1 = <[Z.to_nat (ly * 160 + x) := color]> (m_DisplayPixels s)).
    { subst s1. cbn. apply store_insert. lia. }
    destruct IH as (Ht & Hsame & Hlen & Hin & Hout & Hkeep); [done | |].
    { rewrite Hpix, length_insert. done. }
    destruct (for_each xs _ s1) as [s2 t2]. cbn [fst snd] in *.
    subst t2. rewrite Hpix, length_insert in Hlen.
    split; [done|]. split.
    { apply (same_but_pixels_trans s s1 s2); [|done]. subst s1. apply same_but_pixels_write. }
    split; [done|]. repeat split.
    + intros y [->|Hy]%elem_of_cons; [|by apply Hin].
      apply Hkeep. rewrite Hpix. apply list_lookup_insert_eq. subst ly. lia.
    + intros j Hj. rewrite Hout.
      * rewrite Hpix. apply list_lookup_insert_ne. intros E. eapply Hj; [left | done].
      * intros y Hy. apply Hj. by right.
    + intros j Hj. apply Hkeep. rewrite Hpix.
      destruct (decide (j = Z.to_nat (ly * 160 + x))) as [->|Hne].
      * apply list_lookup_insert_eq. subst ly. lia.
      * by rewrite list_lookup_insert_ne.
Qed.

Lemma RenderOBJPixel_behind (flags : Z) (palette : list Z) (x low high indexX : Z) (s : GPU) :
  ISBITSET flags 7 = true ->
  0 <= x + indexX < 160 ->
  let bit := to_byte (if ISBITSET flags 5 then indexX else 7 - indexX) in
  let pixelVal := Z.lor (if ISBITSET high bit then 0x02 else 0x00)
                        (if ISBITSET low bit then 0x01 else 0x00) in
  let index := m_LCDControllerYCoordinate s * 160 + (x + indexX) in
  pixelVal <> 0 ->
  (RenderOBJPixel flags palette x low high indexX s).1
  = if load (m_DisplayPixels s) index =? 0x00
    then write_pixel s index (load palette pixelVal)
    else s.
Proof.
  intros Hprio Hx bit pixelVal index Hval. unfold RenderOBJPixel.
  destruct (Z.leb_spec 0 (x + indexX)); [|lia].
  destruct (Z.ltb_spec (x + indexX) 160); [|lia].
  cbn [andb]. rewrite Hprio. cbn [negb]. fold bit.
  assert (Hpv : (if ISBITSET low bit
                 then Z.lor (if ISBITSET high bit then Z.lor 0 2 else 0) 1
                 else if ISBITSET high bit then Z.lor 0 2 else 0) = pixelVal).
  { subst pixelVal. by destruct (ISBITSET low bit), (ISBITSET high bit). }
  rewrite Hpv. fold index.
  destruct (Z.eqb_spec pixelVal 0); [done|]. cbn [negb].
  by destruct (_ =? 0).
Qed.

(** * The claims *)

(** ** The sprite renderer's priority test *)

Lemma sprite_scene_wf (control bgp flags : Z) :
  is_byte control -> is_byte bgp -> is_byte flags -> wf DMG (sprite_scene control bgp flags).
Proof.
  unfold is_byte. intros Hc Hb Hf.
  assert (Hmem : forall (front : list Z) (n : Z),
            0 <= n -> Forall is_byte front ->
            Z.of_nat (length (front ++ blank n)) = Z.of_nat (length front) + n
            /\ Forall is_byte (front ++ blank n)).
  { intros front n Hn Hfront. destruct (blank_wf n Hn) as [Hl Hbl]. split.
    - rewrite length_app, Nat2Z.inj_add, Hl. done.
    - by apply Forall_app. }
  split; cbn [sprite_scene m_ModeClock m_LCDControl m_LCDControllerStatus m_ScrollY
    m_ScrollX m_LCDControllerYCoordinate m_LYCompare m_WindowYPosition
    m_WindowXPositionMinus7 m_BGPaletteData m_ObjectPalette0Data m_ObjectPalette1Data
    m_VRAM m_OAM m_DisplayPixels DMG ULONG_BITS];
    try (unfold is_byte; lia).
  - destruct (Hmem [0xFF; 0x00] 8190) as [Hl Hbytes]; [lia | |].
    { repeat apply Forall_cons_2; try apply Forall_nil_2; unfold is_byte; lia. }
    split; [by rewrite Hl | exact Hbytes].
  - destruct (Hmem [16; 8; 0; flags] 156) as [Hl Hbytes]; [lia | |].
    { repeat apply Forall_cons_2; try apply Forall_nil_2; unfold is_byte; lia. }
    split; [by rewrite Hl | exact Hbytes].
  - apply blank_wf. lia.
Qed.

(** Claim C1, evaluated on [sprite_scene] through the [Step] that ends VRAM
    transfer and renders line 0.  With the background off the background
    renderer fills the line with shade index 0, the lightest shade [0xEB]
    (first run, sprites off).  A sprite pixel of colour index 1 whose
    priority flag (attribute bit 7) is set is then not written: the
    framebuffer keeps [0xEB] although it holds shade index 0 (second run).
    With the flag clear the same pixel is written with shade [0xC4] (third
    run).  Over a background pixel of shade index 3, the darkest shade
    [0x00] (fourth run), the pixel with the flag set is written (fifth
    run): the code tests the framebuffer byte against [0x00], not against
    shade index 0. *)
Theorem Step_sprite_behind_white :
  wf DMG (sprite_scene 0x82 0xE4 0x80)
  /\ load GBColors 0 = 0xEB /\ load GBColors 3 = 0x00
  /\ take 8 (m_DisplayPixels (Step DMG (sprite_scene 0x80 0xE4 0x80) 4).1)
     = replicate 8 0xEB
  /\ take 8 (m_DisplayPixels (Step DMG (sprite_scene 0x82 0xE4 0x80) 4).1)
     = replicate 8 0xEB
  /\ take 8 (m_DisplayPixels (Step DMG (sprite_scene 0x82 0xE4 0x00) 4).1)
     = replicate 8 0xC4
  /\ take 8 (m_DisplayPixels (Step DMG (sprite_scene 0x91 0x0C 0x80) 4).1)
     = replicate 8 0x00
  /\ take 8 (m_DisplayPixels (Step DMG (sprite_scene 0x93 0x0C 0x80) 4).1)
     = replicate 8 0xC4.
Proof.
  split; [apply sprite_scene_wf; unfold is_byte; lia|].
  repeat split; vm_compute; reflexivity.
Qed.

(** ** The timing state machine *)

(** Claim C2, as amended.  After a [Step] with the display enabled, the mode
    clock is below the threshold of the mode active on return exactly when
    the clock plus [cycles], as an [unsigned long], was below the sum of the
    thresholds of the mode active at the call and of the mode active on
    return: the switch subtracts one threshold, once. *)
Theorem Step_mode_clock (h : Header) (s : GPU) (cycles : Z) :
  header_ok h -> IsLCDDisplayEnabled s = true ->
  let s' := (Step h s cycles).1 in
  m_ModeClock s' < mode_threshold h (GETMODE s')
  <-> to_ulong h (m_ModeClock s + cycles)
      < mode_threshold h (GETMODE s) + mode_threshold h (GETMODE s').
Proof.
  intros Hh Hon. unfold Step. rewrite Hon. cbn [negb].
  pose proof (StepMode_clock h (set_ModeClock s (to_ulong h (m_ModeClock s + cycles))) Hh
                (to_ulong_range h _ Hh)) as Hclk.
  destruct (StepMode h _) as [s1 t1]. cbn [fst] in Hclk.
  pose proof (StepCoincidence_spec s1) as (Ec & _ & _ & _ & _ & Em & _).
  destruct (StepCoincidence s1) as [s2 t2]. cbn [fst] in *.
  rewrite Ec, Em. exact Hclk.
Qed.

Lemma Step_mode_clock_witness :
  header_ok DMG /\ IsLCDDisplayEnabled (sample true true 0x80 2 0 0 0) = true
  /\ (m_ModeClock (Step DMG (sample true true 0x80 2 0 0 0) 84).1
      < mode_threshold DMG (GETMODE (Step DMG (sample true true 0x80 2 0 0 0) 84).1)
      <-> to_ulong DMG (m_ModeClock (sample true true 0x80 2 0 0 0) + 84)
          < mode_threshold DMG (GETMODE (sample true true 0x80 2 0 0 0))
            + mode_threshold DMG (GETMODE (Step DMG (sample true true 0x80 2 0 0 0) 84).1)).
Proof.
  split; [exact DMG_ok|]. split; [reflexivity|].
  apply (Step_mode_clock DMG (sample true true 0x80 2 0 0 0) 84 DMG_ok). reflexivity.
Defined.

(** Claim C2 as stated fails: from OAM search with the clock at 0, a call
    with 1000 cycles returns in VRAM transfer, threshold 172, with the clock
    at 920. *)
Lemma Step_mode_clock_overrun :
  wf DMG (sample true true 0x80 2 0 0 0)
  /\ IsLCDDisplayEnabled (sample true true 0x80 2 0 0 0) = true
  /\ GETMODE (Step DMG (sample true true 0x80 2 0 0 0) 1000).1 = ModeReadingOAMVRAM
  /\ m_ModeClock (Step DMG (sample true true 0x80 2 0 0 0) 1000).1 = 920
  /\ ~ (m_ModeClock (Step DMG (sample true true 0x80 2 0 0 0) 1000).1
        < mode_threshold DMG (GETMODE (Step DMG (sample true true 0x80 2 0 0 0) 1000).1)).
Proof.
  split; [apply sample_wf; unfold is_byte; lia|].
  repeat split; vm_compute; congruence.
Qed.

(** Claim C3, as amended.  A [Step] that ends HBlank on scanline 143 leaves
    the machine in VBlank on scanline 144; it calls the frame sink, then,
    if a CPU is attached, requests the VBlank interrupt once, whatever the
    status bits are, followed by an LCD-STAT interrupt exactly when status
    bit 4 is set; the only other request of the call is the one the
    coincidence comparison makes.  With no CPU attached nothing is
    requested.  No other [Step] requests the VBlank interrupt. *)
Theorem Step_VBlank_entry (h : Header) (s : GPU) (cycles : Z) :
  (enters_VBlank h s cycles = true ->
     GETMODE (Step h s cycles).1 = ModeVBlank
     /\ m_LCDControllerYCoordinate (Step h s cycles).1 = 144
     /\ (Step h s cycles).2
        = RenderImage s
          ++ (if m_CPU s
              then TriggerInterrupt INT40
                   :: (if VBlankInterrupt s then [TriggerInterrupt INT48] else [])
              else [])
          ++ (if (m_LYCompare s =? 144) && LYCoincidenceInterrupt s && m_CPU s
              then [TriggerInterrupt INT48] else []))
  /\ requests INT40 (Step h s cycles).2
     = (if enters_VBlank h s cycles && m_CPU s then 1%nat else 0%nat).
Proof.
  unfold enters_VBlank, Step.
  destruct (IsLCDDisplayEnabled s) eqn:Hon; cbn [negb andb fst snd]; [|by split].
  set (s0 := set_ModeClock s (to_ulong h (m_ModeClock s + cycles))).
  split.
  - intros Hent. apply andb_true_iff in Hent as [Hent Hly].
    apply andb_true_iff in Hent as [Hm Hclk]. apply Z.eqb_eq in Hm.
    rewrite (StepMode_HBlank h s0 Hm).
    change (m_ModeClock s0) with (to_ulong h (m_ModeClock s + cycles)).
    change (m_LCDControllerYCoordinate s0) with (m_LCDControllerYCoordinate s).
    rewrite Hclk, Hly. cbv beta iota zeta.
    match goal with |- context [StepCoincidence ?x] =>
      pose proof (StepCoincidence_spec x) as (_ & Ely & _ & _ & _ & Em & _ & _ & Et);
      destruct (StepCoincidence x) as [s2 t2] end.
    cbn [fst snd] in *. apply Z.eqb_eq in Hly.
    split; [|split].
    + rewrite Em. apply GETMODE_SETMODE. unfold ModeVBlank. lia.
    + by rewrite Ely.
    + rewrite Et. rewrite <- app_assoc. f_equal.
      unfold VBlankInterrupt, LYCoincidenceInterrupt.
      rewrite !ISBITSET_SETMODE by (unfold ModeVBlank; lia).
      cbn [m_LYCompare m_LCDControllerYCoordinate m_CPU SETMODE
           set_LCDControllerStatus set_LCDControllerYCoordinate set_ModeClock s0].
      by rewrite Hly.
  - pose proof (StepMode_INT40 h s0) as Hmode.
    destruct (StepMode h s0) as [s1 t1].
    pose proof (StepCoincidence_spec s1) as (_ & _ & _ & _ & _ & _ & _ & _ & Et).
    destruct (StepCoincidence s1) as [s2 t2]. cbn [fst snd] in *.
    rewrite requests_app, Hmode, Et.
    change (m_ModeClock s0) with (to_ulong h (m_ModeClock s + cycles)).
    change (m_LCDControllerYCoordinate s0) with (m_LCDControllerYCoordinate s).
    change (GETMODE s0) with (GETMODE s). change (m_CPU s0) with (m_CPU s).
    destruct (_ && m_CPU s1); cbn; lia.
Qed.

Lemma Step_VBlank_entry_witness :
  enters_VBlank DMG (sample true true 0x80 0x10 143 0 200) 4 = true
  /\ (Step DMG (sample true true 0x80 0x10 143 0 200) 4).2
     = [VSyncCallback; TriggerInterrupt INT40; TriggerInterrupt INT48]
  /\ requests INT40 (Step DMG (sample true true 0x80 0x10 143 0 200) 4).2 = 1%nat.
Proof.
  split; [reflexivity|].
  destruct (Step_VBlank_entry DMG (sample true true 0x80 0x10 143 0 200) 4) as [H1 H2].
  split.
  - destruct (H1 eq_refl) as (_ & _ & ->). reflexivity.
  - rewrite H2. reflexivity.
Defined.

(** Claim C3 as stated fails: with no CPU attached, the call that takes the
    scanline index to 144 enters VBlank and requests no VBlank interrupt. *)
Lemma Step_VBlank_entry_without_CPU :
  wf DMG (sample false true 0x80 0 143 0 200)
  /\ enters_VBlank DMG (sample false true 0x80 0 143 0 200) 4 = true
  /\ m_LCDControllerYCoordinate (Step DMG (sample false true 0x80 0 143 0 200) 4).1 = 144
  /\ GETMODE (Step DMG (sample false true 0x80 0 143 0 200) 4).1 = ModeVBlank
  /\ requests INT40 (Step DMG (sample false true 0x80 0 143 0 200) 4).2 = 0%nat.
Proof.
  split; [apply sample_wf; unfold is_byte; lia|].
  repeat split; vm_compute; congruence.
Qed.

(** Claim C4.  With the display-enable bit clear, [Step] sets the scanline
    index to 153, the mode to VBlank and the mode clock to the VBlank
    threshold, whatever the state and the cycles; it makes no call (no
    read of a renderer, no interrupt request, no frame callback), leaves
    the framebuffer as it was, and leaves status bits 2 to 7, the
    coincidence flag among them, untouched. *)
Theorem Step_display_off (h : Header) (s : GPU) (cycles : Z) :
  header_ok h -> IsLCDDisplayEnabled s = false ->
  let s' := (Step h s cycles).1 in
  m_LCDControllerYCoordinate s' = 153
  /\ GETMODE s' = ModeVBlank
  /\ m_ModeClock s' = VBlankCycles h
  /\ (Step h s cycles).2 = []
  /\ m_DisplayPixels s' = m_DisplayPixels s
  /\ (forall bit, 2 <= bit < 8 ->
        ISBITSET (m_LCDControllerStatus s') bit = ISBITSET (m_LCDControllerStatus s) bit)
  /\ m_LYCompare s' = m_LYCompare s /\ m_LCDControl s' = m_LCDControl s
  /\ m_VRAM s' = m_VRAM s /\ m_OAM s' = m_OAM s.
Proof.
  intros Hh Hoff. unfold Step. rewrite Hoff. cbn [negb fst snd].
  repeat split.
  - apply GETMODE_SETMODE. unfold ModeVBlank. lia.
  - cbn. apply to_ulong_small. apply (vblank_cycles_range h Hh).
  - intros bit Hb. rewrite ISBITSET_SETMODE; [done | unfold ModeVBlank; lia | done].
Qed.

Lemma Step_display_off_witness :
  header_ok DMG /\ IsLCDDisplayEnabled (sample true true 0x00 0x42 5 5 7) = false
  /\ m_LCDControllerYCoordinate (Step DMG (sample true true 0x00 0x42 5 5 7) 4).1 = 153
  /\ GETMODE (Step DMG (sample true true 0x00 0x42 5 5 7) 4).1 = ModeVBlank
  /\ m_ModeClock (Step DMG (sample true true 0x00 0x42 5 5 7) 4).1 = 456
  /\ (Step DMG (sample true true 0x00 0x42 5 5 7) 4).2 = []
  /\ ISBITSET (m_LCDControllerStatus (Step DMG (sample true true 0x00 0x42 5 5 7) 4).1) 2
     = ISBITSET (m_LCDControllerStatus (sample true true 0x00 0x42 5 5 7)) 2.
Proof.
  split; [exact DMG_ok|]. split; [reflexivity|].
  destruct (Step_display_off DMG (sample true true 0x00 0x42 5 5 7) 4 DMG_ok eq_refl)
    as (H1 & H2 & H3 & H4 & _ & H6 & _).
  split; [exact H1|]. split; [exact H2|]. split; [exact H3|]. split; [exact H4|].
  apply H6. lia.
Defined.

(** Claim C5, as amended.  After a [Step] with the display enabled, status
    bit 2 is set exactly when the scanline index equals the compare
    register; after the calls of the mode switch, the call requests one
    LCD-STAT interrupt on account of coincidence exactly when that bit is
    set, status bit 6 is set and a CPU is attached, and nothing otherwise. *)
Theorem Step_coincidence (h : Header) (s : GPU) (cycles : Z) :
  IsLCDDisplayEnabled s = true ->
  let s' := (Step h s cycles).1 in
  let mode_switch :=
    (StepMode h (set_ModeClock s (to_ulong h (m_ModeClock s + cycles)))).2 in
  ISBITSET (m_LCDControllerStatus s') 2
  = (m_LYCompare s' =? m_LCDControllerYCoordinate s')
  /\ (Step h s cycles).2
     = mode_switch
       ++ (if ISBITSET (m_LCDControllerStatus s') 2
              && ISBITSET (m_LCDControllerStatus s') 6 && m_CPU s'
           then [TriggerInterrupt INT48] else []).
Proof.
  intros Hon. unfold Step. rewrite Hon. cbn [negb].
  destruct (StepMode h _) as [s1 t1].
  pose proof (StepCoincidence_spec s1) as (_ & Ely & Elyc & Ecpu & _ & _ & E2 & Ebits & Et).
  destruct (StepCoincidence s1) as [s2 t2]. cbn [fst snd] in *.
  split.
  - by rewrite E2, Ely, Elyc.
  - rewrite Et, E2, Ecpu, (Ebits 6) by lia. done.
Qed.

Lemma Step_coincidence_witness :
  IsLCDDisplayEnabled (sample true true 0x80 0x42 5 5 0) = true
  /\ ISBITSET (m_LCDControllerStatus (Step DMG (sample true true 0x80 0x42 5 5 0) 4).1) 2
     = true
  /\ (Step DMG (sample true true 0x80 0x42 5 5 0) 4).2 = [TriggerInterrupt INT48].
Proof.
  split; [reflexivity|].
  destruct (Step_coincidence DMG (sample true true 0x80 0x42 5 5 0) 4 eq_refl) as [H1 H2].
  split; [rewrite H1; reflexivity | rewrite H2; reflexivity].
Defined.

(** Claim C5 as stated fails: with no CPU attached, the coincidence flag and
    status bit 6 are both set after the call and no interrupt is requested. *)
Lemma Step_coincidence_without_CPU :
  wf DMG (sample false true 0x80 0x42 5 5 0)
  /\ IsLCDDisplayEnabled (sample false true 0x80 0x42 5 5 0) = true
  /\ ISBITSET (m_LCDControllerStatus (Step DMG (sample false true 0x80 0x42 5 5 0) 4).1) 2
     = true
  /\ ISBITSET (m_LCDControllerStatus (Step DMG (sample false true 0x80 0x42 5 5 0) 4).1) 6
     = true
  /\ (Step DMG (sample false true 0x80 0x42 5 5 0) 4).2 = [].
Proof.
  split; [apply sample_wf; unfold is_byte; lia|].
  repeat split; vm_compute; congruence.
Qed.



(** ** The background renderer *)

(** Claim C8.  With the background-display bit clear, rendering the
    background of a visible scanline issues no read, writes shade index 0
    (the lightest shade, [0xEB]) into each of the 160 columns of that
    scanline, and changes nothing else. *)
Theorem RenderBackgroundScanline_disabled (h : Header) (s : GPU) :
  BGDisplayEnable s = false ->
  0 <= m_LCDControllerYCoordinate s < 144 ->
  Z.of_nat (length (m_DisplayPixels s)) = 160 * 144 ->
  let ly := m_LCDControllerYCoordinate s in
  let s' := (RenderBackgroundScanline h s).1 in
  (RenderBackgroundScanline h s).2 = []
  /\ same_but_pixels s s'
  /\ GBColors !! 0%nat = Some 0xEB
  /\ (forall x, 0 <= x < 160 ->
        m_DisplayPixels s' !! Z.to_nat (ly * 160 + x) = Some 0xEB)
  /\ (forall j : nat, ~ (ly * 160 <= Z.of_nat j < ly * 160 + 160) ->
        m_DisplayPixels s' !! j = m_DisplayPixels s !! j).
Proof.
  intros Hbg Hly Hlen ly s'. subst s'. unfold RenderBackgroundScanline. rewrite Hbg.
  cbn [negb].
  pose proof (blank_line_loop (load GBColors 0) (seqZ 0 160) s) as Hloop.
  cbv zeta in Hloop.
  destruct Hloop as (Ht & Hsame & _ & Hin & Hout & _).
  { lia. }
  { apply Forall_forall. intros x Hx%elem_of_seqZ. lia. }
  split; [exact Ht|]. split; [exact Hsame|]. split; [reflexivity|]. split.
  - intros x Hx. apply Hin. apply elem_of_seqZ. lia.
  - intros j Hj. apply Hout. intros x Hx%elem_of_seqZ. fold ly. lia.
Qed.

Lemma RenderBackgroundScanline_disabled_witness :
  BGDisplayEnable (sample true true 0x82 0 7 0 0) = false
  /\ 0 <= m_LCDControllerYCoordinate (sample true true 0x82 0 7 0 0) < 144
  /\ (RenderBackgroundScanline DMG (sample true true 0x82 0 7 0 0)).2 = []
  /\ m_DisplayPixels (RenderBackgroundScanline DMG (sample true true 0x82 0 7 0 0)).1
       !! Z.to_nat (7 * 160 + 159) = Some 0xEB.
Proof.
  split; [reflexivity|]. split; [cbn; lia|].
  destruct (RenderBackgroundScanline_disabled DMG (sample true true 0x82 0 7 0 0))
    as (Ht & _ & _ & Hin & _).
  - reflexivity.
  - cbn. lia.
  - apply blank_wf. lia.
  - split; [exact Ht|]. apply (Hin 159). lia.
Defined.

(** ** The memory arbiter and the DMA engine *)

Lemma triple_components {A B C : Type} (x : A * B * C) (a : A) (b : B) (c : C) :
  x = (a, b, c) -> x.1.1 = a /\ x.1.2 = b /\ x.2 = c.
Proof. by intros ->. Qed.

Section Collaborator.

Context {MMU : Type} (MMU_ReadByte : MMU -> GPU -> Z -> Z * MMU).

(** Claim C6.  At an address of video memory, while the display is on and
    the mode is VRAM transfer a read returns 0 and a write changes nothing
    and returns false; otherwise the read returns the stored byte and the
    write stores its byte, which the next read returns.  At an address of
    object memory the same holds with the gate closed while the display is
    on and the mode is OAM search or VRAM transfer. *)
Theorem memory_gating (h : Header) (s : GPU) (m : MMU) (address val : Z) :
  wf h s ->
  (in_VRAM address = true ->
     (VRAM_blocked s = true ->
        ReadByte h s address = 0
        /\ WriteByte MMU_ReadByte h s m address val = (false, s, m, []))
     /\ (VRAM_blocked s = false ->
           m_VRAM s !! Z.to_nat (address - 0x8000) = Some (ReadByte h s address)
           /\ WriteByte MMU_ReadByte h s m address val
              = (true,
                 set_VRAM s (<[Z.to_nat (address - 0x8000) := val]> (m_VRAM s)), m, [])
           /\ ReadByte h
                (set_VRAM s (<[Z.to_nat (address - 0x8000) := val]> (m_VRAM s)))
                address = val))
  /\ (in_OAM address = true ->
        (OAM_blocked s = true ->
           ReadByte h s address = 0
           /\ WriteByte MMU_ReadByte h s m address val = (false, s, m, []))
        /\ (OAM_blocked s = false ->
              m_OAM s !! Z.to_nat (address - 0xFE00) = Some (ReadByte h s address)
              /\ WriteByte MMU_ReadByte h s m address val
                 = (true,
                    set_OAM s (<[Z.to_nat (address - 0xFE00) := val]> (m_OAM s)), m, [])
              /\ ReadByte h
                   (set_OAM s (<[Z.to_nat (address - 0xFE00) := val]> (m_OAM s)))
                   address = val)).
Proof.
  intros Hwf. destruct (wf_vram h s Hwf) as [Hlv _]. destruct (wf_oam h s Hwf) as [Hlo _].
  split.
  - intros Hin. pose proof (in_VRAM_range _ Hin) as Hr.
    unfold ReadByte, WriteByte. rewrite Hin. fold (VRAM_blocked s).
    split; intros Hb.
    + by rewrite Hb.
    + rewrite Hb. rewrite store_insert by lia. repeat split.
      * apply load_lookup. lia.
      * change (IsLCDDisplayEnabled (set_VRAM s ?v)) with (IsLCDDisplayEnabled s).
        change (GETMODE (set_VRAM s ?v)) with (GETMODE s).
        fold (VRAM_blocked s). rewrite Hb.
        cbn [m_VRAM set_VRAM]. rewrite <- store_insert by lia.
        apply load_store. lia.
  - intros Hin. pose proof (in_OAM_range _ Hin) as Hr.
    unfold ReadByte, WriteByte. rewrite (in_OAM_not_VRAM _ Hin), Hin.
    fold (OAM_blocked s).
    split; intros Hb.
    + by rewrite Hb.
    + rewrite Hb. rewrite store_insert by lia. repeat split.
      * apply load_lookup. lia.
      * change (IsLCDDisplayEnabled (set_OAM s ?v)) with (IsLCDDisplayEnabled s).
        change (GETMODE (set_OAM s ?v)) with (GETMODE s).
        fold (OAM_blocked s). rewrite Hb.
        cbn [m_OAM set_OAM]. rewrite <- store_insert by lia.
        apply load_store. lia.
Qed.

(** The copy loop asks the memory unit for one address per round, in
    order, and leaves each answer in object memory. *)
Lemma dma_loop_returns (source : Z) (n : nat) :
  forall (k : Z) (s : GPU) (m : MMU),
    0 <= k -> k + Z.of_nat n <= Z.of_nat (length (m_OAM s)) ->
    let addresses :=
      (fun offset => to_ushort (Z.lor source offset)) <$> seqZ k (Z.of_nat n) in
    let returned := returned_bytes MMU_ReadByte s m (Z.to_nat k) addresses in
    length returned.1 = n /\ Forall is_byte returned.1
    /\ dma_loop MMU_ReadByte source (seqZ k (Z.of_nat n)) s m
       = (set_OAM s (take (Z.to_nat k) (m_OAM s) ++ returned.1
                     ++ drop (Z.to_nat k + n) (m_OAM s)),
          returned.2,
          zip_with MMUReadByte addresses returned.1).
Proof.
  induction n as [|n IH]; intros k s m Hk Hlen.
  - cbv zeta. change (Z.of_nat 0) with 0. rewrite seqZ_nil by lia.
    cbn [fmap list_fmap returned_bytes fst snd dma_loop zip_with].
    split; [done|]. split; [done|].
    rewrite Nat.add_0_r, app_nil_l, take_drop. by destruct s.
  - cbv zeta. rewrite seqZ_cons by lia. cbn [dma_loop fmap list_fmap returned_bytes].
    destruct (MMU_ReadByte m s (to_ushort (Z.lor source k))) as [v m1] eqn:Hread.
    cbn [fst snd].
    replace (Z.pred (Z.of_nat (S n))) with (Z.of_nat n) by lia.
    set (s1 := set_OAM s (store (m_OAM s) k (to_byte v))).
    assert (Es1 : set_OAM s (<[Z.to_nat k := to_byte v]> (m_OAM s)) = s1).
    { subst s1. by rewrite store_insert by lia. }
    rewrite Es1.
    destruct (IH (Z.succ k) s1 m1) as (Hvl & Hvb & Heq); [lia | |].
    { subst s1. cbn [m_OAM set_OAM]. rewrite store_insert, length_insert by lia. lia. }
    replace (Z.to_nat (Z.succ k)) with (S (Z.to_nat k)) in * by lia.
    set (after := returned_bytes MMU_ReadByte s1 m1 (S (Z.to_nat k)) _) in *.
    split; [cbn; lia|].
    split; [constructor; [apply to_byte_range | done]|].
    rewrite Heq. cbn [zip_with]. f_equal. f_equal.
    subst s1. cbn [m_OAM set_OAM]. unfold set_OAM. cbn. f_equal.
    rewrite store_insert by lia.
    rewrite (take_S_r _ _ (to_byte v)) by (apply list_lookup_insert_eq; lia).
    rewrite take_insert_ge by lia.
    rewrite drop_insert_lt by lia.
    rewrite <- app_assoc. cbn. by rewrite Nat.add_succ_r.
Qed.

(** A transfer started with the byte [V] leaves in object memory the bytes
    the memory unit returned for [V * 256] to [V * 256 + 159], and its calls
    are the reads of these addresses, in order. *)
Lemma LaunchDMATransfer_returns (s : GPU) (m : MMU) (V : Z) :
  is_byte V -> Z.of_nat (length (m_OAM s)) = 160 ->
  let returned := returned_bytes MMU_ReadByte s m 0 (dma_addresses V) in
  length returned.1 = 160%nat /\ Forall is_byte returned.1
  /\ LaunchDMATransfer MMU_ReadByte s m V
     = (set_OAM s returned.1, returned.2,
        zip_with MMUReadByte (dma_addresses V) returned.1).
Proof.
  intros HV Hlen. unfold is_byte in HV.
  assert (Haddr : (fun offset => to_ushort (Z.lor (V * 256) offset)) <$> seqZ 0 (Z.of_nat 160)
                  = dma_addresses V).
  { unfold dma_addresses. apply list_fmap_ext.
    intros i x Hx. apply lookup_seqZ in Hx as [-> Hx].
    rewrite lor_offset by lia. apply to_ushort_small. lia. }
  destruct (dma_loop_returns (V * 256) 160 0 s m) as (Hvl & Hvb & Heq); [lia | lia |].
  rewrite Haddr in Hvl, Hvb, Heq. change (Z.to_nat 0) with 0%nat in Hvl, Hvb, Heq.
  cbv zeta. set (returned := returned_bytes MMU_ReadByte s m 0 (dma_addresses V)) in *.
  split; [done|]. split; [done|].
  assert (Hsrc : to_ushort (to_ushort V * 0x0100) = V * 256).
  { rewrite (to_ushort_small V) by lia. apply to_ushort_small. lia. }
  assert (Hdrop : drop 160 (m_OAM s) = []) by (apply drop_ge; lia).
  unfold LaunchDMATransfer. rewrite Hsrc.
  change 160%Z with (Z.of_nat 160).
  rewrite Heq. f_equal. f_equal. f_equal.
  change (0 + 160)%nat with 160%nat.
  rewrite Hdrop. cbn [take app]. by rewrite app_nil_r.
Qed.

(** Claim C7.  A write of the byte [V] to the DMA-trigger register, in any
    mode and with the display on or off, returns true; its calls are 160
    reads of the memory unit at addresses [V * 256] to [V * 256 + 159] in
    ascending order; object memory then holds the 160 bytes the memory unit
    returned for these addresses, in that order; the memory unit is left as
    its last answer left it, and no other part of the state has changed. *)
Theorem WriteByte_DMA (h : Header) (s : GPU) (m : MMU) (V : Z) :
  header_ok h -> is_byte V -> Z.of_nat (length (m_OAM s)) = 160 ->
  let returned := returned_bytes MMU_ReadByte s m 0 (dma_addresses V) in
  length returned.1 = 160%nat /\ Forall is_byte returned.1
  /\ WriteByte MMU_ReadByte h s m (DMATransferAndStartAddress h) V
     = (true, set_OAM s returned.1, returned.2,
        zip_with MMUReadByte (dma_addresses V) returned.1).
Proof.
  intros Hh HV Hlen.
  destruct (LaunchDMATransfer_returns s m V HV Hlen) as (Hvl & Hvb & Heq).
  cbv zeta. set (returned := returned_bytes MMU_ReadByte s m 0 (dma_addresses V)) in *.
  split; [done|]. split; [done|].
  clear HV Hlen Hvl Hvb.
  register_facts Hh.
  unfold WriteByte.
  repeat match goal with
         | H : in_VRAM (DMATransferAndStartAddress h) = false |- _ => rewrite H; clear H
         | H : in_OAM (DMATransferAndStartAddress h) = false |- _ => rewrite H; clear H
         end.
  repeat match goal with
         | |- context [DMATransferAndStartAddress h =? ?r] =>
             lazymatch r with
             | DMATransferAndStartAddress h => fail
             | _ => destruct (Z.eqb_spec (DMATransferAndStartAddress h) r);
                    [congruence|]
             end
         end.
  rewrite Z.eqb_refl. by rewrite Heq.
Qed.

(** Claim C10.  [WriteByte] returns true exactly when the write takes
    effect, and false exactly when it is dropped, which is the case of a
    gated access to video or object memory and of an address that is no
    register.  A dropped write changes nothing and makes no call.  A write
    that takes effect puts the byte in the entry of video or object memory
    that the address names, where a read finds it; or stores it in the
    register it addresses so that a read of the register returns it (the
    top five bits of it for the status register); or resets the scanline
    index, which then reads 0; or runs the DMA transfer, which leaves in
    object memory the bytes the memory unit returned. *)
Theorem WriteByte_result (h : Header) (s : GPU) (m : MMU) (address val : Z) :
  header_ok h ->
  let '(ok, s', m', t) := WriteByte MMU_ReadByte h s m address val in
  ok = takes_effect (write_outcome h s address)
  /\ match write_outcome h s address with
     | Dropped => s' = s /\ m' = m /\ t = []
     | StoredVRAM =>
         s' = set_VRAM s (<[Z.to_nat (address - 0x8000) := val]> (m_VRAM s))
         /\ (Z.of_nat (length (m_VRAM s)) = 8192 ->
               m_VRAM s' !! Z.to_nat (address - 0x8000) = Some val
               /\ ReadByte h s' address = val)
         /\ m' = m /\ t = []
     | StoredOAM =>
         s' = set_OAM s (<[Z.to_nat (address - 0xFE00) := val]> (m_OAM s))
         /\ (Z.of_nat (length (m_OAM s)) = 160 ->
               m_OAM s' !! Z.to_nat (address - 0xFE00) = Some val
               /\ ReadByte h s' address = val)
         /\ m' = m /\ t = []
     | StoredRegister =>
         ReadByte h s' address
         = (if bool_decide (address = LCDControllerStatus h)
            then to_byte (Z.lor (Z.land val 0xF8) (Z.land (m_LCDControllerStatus s) 0x07))
            else val)
         /\ m_VRAM s' = m_VRAM s /\ m_OAM s' = m_OAM s /\ m' = m /\ t = []
     | ScanlineReset =>
         s' = set_LCDControllerYCoordinate s 0 /\ ReadByte h s' address = 0
         /\ m' = m /\ t = []
     | DMALaunched =>
         (s', m', t) = LaunchDMATransfer MMU_ReadByte s m val
         /\ (is_byte val -> Z.of_nat (length (m_OAM s)) = 160 ->
             let returned := returned_bytes MMU_ReadByte s m 0 (dma_addresses val) in
             s' = set_OAM s returned.1 /\ m' = returned.2
             /\ t = zip_with MMUReadByte (dma_addresses val) returned.1)
     end.
Proof.
  intros Hh.
  assert (Hdma : is_byte val -> Z.of_nat (length (m_OAM s)) = 160 ->
                 let launched := LaunchDMATransfer MMU_ReadByte s m val in
                 let returned := returned_bytes MMU_ReadByte s m 0 (dma_addresses val) in
                 launched.1.1 = set_OAM s returned.1 /\ launched.1.2 = returned.2
                 /\ launched.2 = zip_with MMUReadByte (dma_addresses val) returned.1).
  { intros Hval Hlen.
    pose proof (LaunchDMATransfer_returns s m val Hval Hlen) as Hret.
    cbv zeta in Hret. destruct Hret as (_ & _ & Heq). cbv zeta.
    exact (triple_components _ _ _ _ Heq). }
  cbv zeta in Hdma.
  unfold WriteByte, write_outcome.
  revert Hdma. generalize (LaunchDMATransfer MMU_ReadByte s m val). intros launched Hdma. fold (VRAM_blocked s) (OAM_blocked s).
  destruct (in_VRAM address) eqn:Hv.
  { destruct (VRAM_blocked s) eqn:Hblk; [done|].
    apply in_VRAM_range in Hv as Hr.
    split; [done|]. split; [by rewrite store_insert by lia|].
    split; [|done]. intros Hlen. cbn [m_VRAM set_VRAM]. split.
    - rewrite store_insert by lia. apply list_lookup_insert_eq. lia.
    - rewrite ReadByte_VRAM by done. cbn [m_VRAM set_VRAM]. apply load_store. lia. }
  destruct (in_OAM address) eqn:Ho.
  { destruct (OAM_blocked s) eqn:Hblk; [done|].
    apply in_OAM_range in Ho as Hr.
    split; [done|]. split; [by rewrite store_insert by lia|].
    split; [|done]. intros Hlen. cbn [m_OAM set_OAM]. split.
    - rewrite store_insert by lia. apply list_lookup_insert_eq. lia.
    - unfold ReadByte. rewrite Hv, Ho.
      change (IsLCDDisplayEnabled (set_OAM s ?x) && _) with (OAM_blocked s).
      rewrite Hblk. cbn [m_OAM set_OAM]. apply load_store. lia. }
  register_facts Hh.
  repeat match goal with
         | |- context [address =? ?r] =>
             destruct (Z.eqb_spec address r) as [->|];
             [ repeat (case_bool_decide; try congruence);
               rewrite ?Z.eqb_refl; cbv iota;
               unfold ReadByte;
               repeat match goal with
                      | H : in_VRAM _ = false |- _ => rewrite H; clear H
                      | H : in_OAM _ = false |- _ => rewrite H; clear H
                      end;
               rewrite ?Z.eqb_refl;
               repeat match goal with
                      | |- context [?a =? ?b] =>
                          destruct (Z.eqb_spec a b); [congruence|]
                      end;
               first
                 [ done
                 | destruct launched as [[s1 m1] t1];
                   split; [reflexivity|]; split; [reflexivity|];
                   exact Hdma
                 | exfalso;
                   match goal with
                   | H : ¬ (_ ∈ registers h) |- _ =>
                       apply H; unfold registers;
                       repeat first [apply list_elem_of_here | apply list_elem_of_further]
                   end ]
             | ]
         end.
  repeat (case_bool_decide; try congruence); try done.
  exfalso.
  match goal with H : address ∈ registers h |- _ => unfold registers in H end.
  repeat match goal with
         | H : _ ∈ _ :: _ |- _ => apply elem_of_cons in H as [H|H]; [congruence|]
         end.
  match goal with H : _ ∈ [] |- _ => by apply elem_of_nil in H end.
Qed.

End Collaborator.

Lemma memory_gating_witness :
  wf DMG (sample true true 0x80 3 0 0 0)
  /\ in_VRAM 0x8000 = true
  /\ VRAM_blocked (sample true true 0x80 3 0 0 0) = true
  /\ ReadByte DMG (sample true true 0x80 3 0 0 0) 0x8000 = 0
  /\ WriteByte echo_ReadByte DMG (sample true true 0x80 3 0 0 0) tt 0x8000 7
     = (false, sample true true 0x80 3 0 0 0, tt, []).
Proof.
  assert (Hwf : wf DMG (sample true true 0x80 3 0 0 0))
    by (apply sample_wf; unfold is_byte; lia).
  split; [exact Hwf|]. split; [reflexivity|]. split; [reflexivity|].
  destruct (memory_gating echo_ReadByte DMG (sample true true 0x80 3 0 0 0) tt 0x8000 7 Hwf)
    as [Hvram _].
  destruct (Hvram eq_refl) as [Hblocked _].
  exact (Hblocked eq_refl).
Defined.

Lemma WriteByte_DMA_witness :
  header_ok DMG /\ is_byte 0xF1
  /\ Z.of_nat (length (m_OAM (sample true true 0x80 3 0 0 0))) = 160
  /\ (returned_bytes echo_ReadByte (sample true true 0x80 3 0 0 0) tt 0 (dma_addresses 0xF1)).1
     = seqZ 0 160
  /\ m_OAM (WriteByte echo_ReadByte DMG (sample true true 0x80 3 0 0 0) tt
              (DMATransferAndStartAddress DMG) 0xF1).1.1.2
     = (returned_bytes echo_ReadByte (sample true true 0x80 3 0 0 0) tt 0
          (dma_addresses 0xF1)).1.
Proof.
  assert (Hb : is_byte 0xF1) by (unfold is_byte; lia).
  assert (Hlen : Z.of_nat (length (m_OAM (sample true true 0x80 3 0 0 0))) = 160)
    by (apply blank_wf; lia).
  split; [exact DMG_ok|]. split; [exact Hb|]. split; [exact Hlen|].
  split; [vm_compute; reflexivity|].
  destruct (WriteByte_DMA echo_ReadByte DMG (sample true true 0x80 3 0 0 0) tt 0xF1
              DMG_ok Hb Hlen) as (_ & _ & Heq).
  rewrite Heq. reflexivity.
Defined.

Lemma WriteByte_result_witness :
  header_ok DMG
  /\ (WriteByte echo_ReadByte DMG (sample true true 0x80 3 0 0 0) tt 0x8000 9).1.1.1
     = false
  /\ (WriteByte echo_ReadByte DMG (sample true true 0x80 3 0 0 0) tt 0xFF42 9).1.1.1
     = takes_effect (write_outcome DMG (sample true true 0x80 3 0 0 0) 0xFF42)
  /\ write_outcome DMG (sample true true 0x80 0 0 0 0) 0x8010 = StoredVRAM
  /\ ReadByte DMG (WriteByte echo_ReadByte DMG (sample true true 0x80 0 0 0 0) tt 0x8010 9).1.1.2
       0x8010 = 9.
Proof.
  split; [exact DMG_ok|]. split; [reflexivity|].
  pose proof (WriteByte_result echo_ReadByte DMG (sample true true 0x80 3 0 0 0) tt
                0xFF42 9 DMG_ok) as H.
  destruct (WriteByte echo_ReadByte DMG (sample true true 0x80 3 0 0 0) tt 0xFF42 9)
    as [[[ok s'] m'] t].
  split; [exact (proj1 H)|]. split; [reflexivity|].
  clear H.
  pose proof (WriteByte_result echo_ReadByte DMG (sample true true 0x80 0 0 0 0) tt
                0x8010 9 DMG_ok) as H.
  destruct (WriteByte echo_ReadByte DMG (sample true true 0x80 0 0 0 0) tt 0x8010 9)
    as [[[ok2 s2] m2] t2].
  change (write_outcome DMG (sample true true 0x80 0 0 0 0) 0x8010) with StoredVRAM in H.
  destruct H as (_ & _ & Hread & _).
  apply Hread. apply blank_wf. lia.
Defined.


(** * Further properties *)

(** ** What the mode switch keeps, and where it goes *)

Lemma StepMode_keeps (h : Header) (s : GPU) :
  let s' := (StepMode h s).1 in
  m_CPU s' = m_CPU s /\ m_pVSyncCallback s' = m_pVSyncCallback s
  /\ m_LCDControl s' = m_LCDControl s /\ m_LYCompare s' = m_LYCompare s
  /\ m_ScrollY s' = m_ScrollY s /\ m_ScrollX s' = m_ScrollX s
  /\ m_WindowYPosition s' = m_WindowYPosition s
  /\ m_WindowXPositionMinus7 s' = m_WindowXPositionMinus7 s
  /\ m_BGPaletteData s' = m_BGPaletteData s
  /\ m_ObjectPalette0Data s' = m_ObjectPalette0Data s
  /\ m_ObjectPalette1Data s' = m_ObjectPalette1Data s
  /\ m_VRAM s' = m_VRAM s /\ m_OAM s' = m_OAM s
  /\ (forall bit, 2 <= bit < 8 ->
        ISBITSET (m_LCDControllerStatus s') bit = ISBITSET (m_LCDControllerStatus s) bit).
Proof.
  destruct (GETMODE_cases s) as [Hm|[Hm|[Hm|Hm]]].
  - rewrite (StepMode_OAM h s Hm). destruct (_ <=? _); cbn [fst]; [|by repeat split].
    repeat split. intros bit Hb.
    rewrite ISBITSET_SETMODE; [done | unfold ModeReadingOAMVRAM; lia | done].
  - rewrite (StepMode_VRAM h s Hm). destruct (_ <=? _); cbn [fst]; [|by repeat split].
    cbv zeta.
    match goal with |- context [RenderScanline h ?s0] =>
      pose proof (RenderScanline_frame h s0) as [Hsame _];
      destruct (RenderScanline h s0) as [s1 t1] end.
    cbn [fst] in *.
    unfold same_but_pixels in Hsame. rewrite Hsame.
    repeat split. intros bit Hb.
    change (m_LCDControllerStatus (set_DisplayPixels ?x ?p)) with (m_LCDControllerStatus x).
    rewrite ISBITSET_SETMODE; [done | unfold ModeHBlank; lia | done].
  - rewrite (StepMode_HBlank h s Hm). destruct (_ <=? _); cbn [fst]; [|by repeat split].
    cbv zeta. destruct (_ =? 144); cbn [fst]; repeat split; intros bit Hb;
      (rewrite ISBITSET_SETMODE; [done | unfold ModeVBlank, ModeReadingOAM; lia | done]).
  - rewrite (StepMode_VBlank h s Hm). destruct (_ <=? _); cbn [fst]; [|by repeat split].
    cbv zeta. destruct (_ =? 154); cbn [fst]; repeat split. intros bit Hb.
    change (m_LCDControllerStatus (set_LCDControllerYCoordinate ?x 0))
      with (m_LCDControllerStatus x).
    rewrite ISBITSET_SETMODE; [done | unfold ModeReadingOAM; lia | done].
Qed.

Lemma StepMode_next (h : Header) (s : GPU) :
  let s' := (StepMode h s).1 in
  let reached := mode_threshold h (GETMODE s) <=? m_ModeClock s in
  (GETMODE s', m_LCDControllerYCoordinate s')
  = (if reached then next_mode (GETMODE s) (m_LCDControllerYCoordinate s)
     else (GETMODE s, m_LCDControllerYCoordinate s))
  /\ m_ModeClock s'
     = (if reached then to_ulong h (m_ModeClock s - mode_threshold h (GETMODE s))
        else m_ModeClock s).
Proof.
  destruct (GETMODE_cases s) as [Hm|[Hm|[Hm|Hm]]].
  - rewrite (StepMode_OAM h s Hm), Hm. cbn [mode_threshold Z.eqb ModeReadingOAM].
    unfold mode_threshold, next_mode. cbn.
    destruct (_ <=? _); cbn [fst]; [|by rewrite Hm].
    rewrite GETMODE_SETMODE by (unfold ModeReadingOAMVRAM; lia). done.
  - rewrite (StepMode_VRAM h s Hm), Hm. unfold mode_threshold, next_mode. cbn.
    destruct (_ <=? _); cbn [fst]; [|by rewrite Hm].
    match goal with |- context [RenderScanline h ?s0] =>
      pose proof (RenderScanline_frame h s0) as [Hsame _];
      destruct (RenderScanline h s0) as [s1 t1] end.
    cbn [fst] in *.
    destruct (same_but_pixels_fields _ _ Hsame)
      as (_ & _ & Eclk & _ & Est & _ & _ & Ely & _).
    unfold GETMODE at 1. rewrite Est, Eclk, Ely.
    match goal with |- context [Z.land (m_LCDControllerStatus ?x) 3] =>
      change (Z.land (m_LCDControllerStatus x) 3) with (GETMODE x) end.
    rewrite GETMODE_SETMODE by (unfold ModeHBlank; lia). done.
  - rewrite (StepMode_HBlank h s Hm), Hm. unfold mode_threshold, next_mode. cbn.
    destruct (_ <=? _); cbn [fst]; [|by rewrite Hm].
    destruct (Z.eqb_spec (to_byte (m_LCDControllerYCoordinate s + 1)) 144) as [E|E];
      cbn [fst]; rewrite GETMODE_SETMODE by (unfold ModeVBlank, ModeReadingOAM; lia);
      cbn; by rewrite ?E.
  - rewrite (StepMode_VBlank h s Hm), Hm. unfold mode_threshold, next_mode. cbn.
    destruct (_ <=? _); cbn [fst]; [|by rewrite Hm].
    destruct (Z.eqb_spec (to_byte (m_LCDControllerYCoordinate s + 1)) 154) as [E|E];
      cbn [fst].
    + change (GETMODE (set_LCDControllerYCoordinate ?x 0)) with (GETMODE x).
      rewrite GETMODE_SETMODE by (unfold ModeReadingOAM; lia). done.
    + change (GETMODE (set_LCDControllerYCoordinate (set_ModeClock s ?c) ?y))
        with (GETMODE s). by rewrite Hm.
Qed.

(** Property X1.
    The state machine of [Step]: with the display on, the mode and the
    scanline index stay as they are until the clock reaches the threshold of
    the mode, and then move to the next mode of the cycle, with one
    threshold taken off the clock. *)
Theorem Step_transition (h : Header) (s : GPU) (cycles : Z) :
  IsLCDDisplayEnabled s = true ->
  let s' := (Step h s cycles).1 in
  (GETMODE s', m_LCDControllerYCoordinate s')
  = (if reaches_threshold h s cycles
     then next_mode (GETMODE s) (m_LCDControllerYCoordinate s)
     else (GETMODE s, m_LCDControllerYCoordinate s))
  /\ m_ModeClock s'
     = (if reaches_threshold h s cycles
        then to_ulong h (to_ulong h (m_ModeClock s + cycles) - mode_threshold h (GETMODE s))
        else to_ulong h (m_ModeClock s + cycles)).
Proof.
  intros Hon. unfold Step, reaches_threshold. rewrite Hon. cbn [negb].
  pose proof (StepMode_next h (set_ModeClock s (to_ulong h (m_ModeClock s + cycles))))
    as [Hnext Hclk].
  destruct (StepMode h _) as [s1 t1]. cbn [fst] in *.
  pose proof (StepCoincidence_spec s1) as (Ec & Ely & _ & _ & _ & Em & _).
  destruct (StepCoincidence s1) as [s2 t2]. cbn [fst] in *.
  rewrite Ec, Ely, Em. split; [exact Hnext | exact Hclk].
Qed.

Lemma Step_transition_witness :
  IsLCDDisplayEnabled (sample true true 0x80 0 143 0 200) = true
  /\ GETMODE (Step DMG (sample true true 0x80 0 143 0 200) 4).1 = ModeVBlank
  /\ m_LCDControllerYCoordinate (Step DMG (sample true true 0x80 0 143 0 200) 4).1 = 144
  /\ m_ModeClock (Step DMG (sample true true 0x80 0 143 0 200) 4).1 = 0.
Proof.
  split; [reflexivity|].
  destruct (Step_transition DMG (sample true true 0x80 0 143 0 200) 4 eq_refl) as [H1 H2].
  split; [|split].
  - exact (f_equal fst H1).
  - exact (f_equal snd H1).
  - rewrite H2. reflexivity.
Defined.

(** Property X2.
    [Step] keeps the scanline index in step with the mode, whatever the
    cycles and whether the display is on or off; so the index stays between
    0 and 153, and a scanline is rendered only when it is a visible one. *)
Theorem Step_timing_inv (h : Header) (s : GPU) (cycles : Z) :
  timing_inv s ->
  timing_inv (Step h s cycles).1
  /\ 0 <= m_LCDControllerYCoordinate (Step h s cycles).1 <= 153
  /\ (enters_HBlank h s cycles = true -> 0 <= m_LCDControllerYCoordinate s < 144).
Proof.
  intros Hinv.
  assert (Hrange : forall s0, timing_inv s0 -> 0 <= m_LCDControllerYCoordinate s0 <= 153).
  { intros s0. unfold timing_inv. destruct (_ =? _); lia. }
  assert (Hstep : timing_inv (Step h s cycles).1).
  { unfold Step. destruct (IsLCDDisplayEnabled s) eqn:Hon; cbn [negb fst].
    - pose proof (StepMode_next h (set_ModeClock s (to_ulong h (m_ModeClock s + cycles))))
        as [Hnext _].
      destruct (StepMode h _) as [s1 t1]. cbn [fst] in *.
      pose proof (StepCoincidence_spec s1) as (_ & Ely & _ & _ & _ & Em & _).
      destruct (StepCoincidence s1) as [s2 t2]. cbn [fst] in *.
      unfold timing_inv in *. rewrite Em, Ely.
      change (GETMODE (set_ModeClock s ?c)) with (GETMODE s) in Hnext.
      change (m_LCDControllerYCoordinate (set_ModeClock s ?c))
        with (m_LCDControllerYCoordinate s) in Hnext.
      destruct (_ <=? _).
      + unfold next_mode in Hnext.
        destruct (GETMODE_cases s) as [Hm|[Hm|[Hm|Hm]]]; rewrite Hm in *;
          cbn in Hnext, Hinv.
        * injection Hnext as -> ->. cbn. lia.
        * injection Hnext as -> ->. cbn. lia.
        * rewrite to_byte_small in Hnext by (unfold is_byte; lia).
          destruct (Z.eqb_spec (m_LCDControllerYCoordinate s + 1) 144);
            injection Hnext as -> ->; cbn; lia.
        * rewrite to_byte_small in Hnext by (unfold is_byte; lia).
          destruct (Z.eqb_spec (m_LCDControllerYCoordinate s + 1) 154);
            injection Hnext as -> ->; cbn; lia.
      + injection Hnext as -> ->. exact Hinv.
    - unfold timing_inv. rewrite GETMODE_SETMODE by (unfold ModeVBlank; lia).
      cbn. lia. }
  split; [exact Hstep|]. split; [by apply Hrange|].
  unfold enters_HBlank. intros [[_ Hm%Z.eqb_eq]%andb_true_iff _]%andb_true_iff.
  unfold timing_inv in Hinv. rewrite Hm in Hinv. cbn in Hinv. lia.
Qed.

Lemma Step_timing_inv_witness :
  timing_inv (sample true true 0x80 1 153 0 455)
  /\ timing_inv (Step DMG (sample true true 0x80 1 153 0 455) 1).1
  /\ m_LCDControllerYCoordinate (Step DMG (sample true true 0x80 1 153 0 455) 1).1 = 0.
Proof.
  assert (Hinv : timing_inv (sample true true 0x80 1 153 0 455)).
  { unfold timing_inv. change (GETMODE _ =? ModeVBlank) with true. cbn. lia. }
  split; [exact Hinv|]. split; [|reflexivity].
  exact (proj1 (Step_timing_inv DMG (sample true true 0x80 1 153 0 455) 1 Hinv)).
Defined.

Lemma callbacks_app (t1 t2 : list Event) :
  callbacks (t1 ++ t2) = (callbacks t1 + callbacks t2)%nat.
Proof.
  induction t1 as [|e t1 IH]; [done|]. cbn. destruct e; rewrite IH; lia.
Qed.

Lemma callbacks_reads (h : Header) (s : GPU) (t : list Event) :
  Forall (arbitrated_read h s) t -> callbacks t = 0%nat.
Proof. induction 1 as [|e t He _ IH]; [done|]. by destruct e. Qed.

Lemma reached_VRAM (h : Header) (mode clock : Z) :
  (mode =? ModeReadingOAMVRAM) && (mode_threshold h mode <=? clock)
  = (mode =? ModeReadingOAMVRAM) && (ReadingOAMVRAMCycles h <=? clock).
Proof. by destruct (Z.eqb_spec mode ModeReadingOAMVRAM) as [->|]. Qed.

Lemma reached_HBlank (h : Header) (mode clock : Z) :
  (mode =? ModeHBlank) && (mode_threshold h mode <=? clock)
  = (mode =? ModeHBlank) && (HBlankCycles h <=? clock).
Proof. by destruct (Z.eqb_spec mode ModeHBlank) as [->|]. Qed.

(** The calls of the mode switch, counted by kind. *)
Lemma StepMode_calls (h : Header) (s : GPU) :
  let reached := mode_threshold h (GETMODE s) <=? m_ModeClock s in
  let to_vblank :=
    (GETMODE s =? ModeHBlank) && reached
    && (to_byte (m_LCDControllerYCoordinate s + 1) =? 144) in
  requests INT48 (StepMode h s).2
  = Nat.add
      (b2n ((GETMODE s =? ModeReadingOAMVRAM) && reached && HBlankInterrupt s && m_CPU s))
      (b2n (to_vblank && VBlankInterrupt s && m_CPU s))
  /\ callbacks (StepMode h s).2 = b2n (to_vblank && m_pVSyncCallback s)
  /\ (m_DisplayPixels (StepMode h s).1 <> m_DisplayPixels s ->
      (GETMODE s =? ModeReadingOAMVRAM) && reached = true).
Proof.
  destruct (GETMODE_cases s) as [Hm|[Hm|[Hm|Hm]]].
  - rewrite (StepMode_OAM h s Hm), Hm. unfold mode_threshold. cbn.
    destruct (_ <=? _); cbn; by repeat split.
  - rewrite (StepMode_VRAM h s Hm), Hm. unfold mode_threshold. cbn.
    destruct (_ <=? _); cbn [andb b2n]; [|by repeat split].
    cbv zeta.
    match goal with |- context [RenderScanline h ?s0] =>
      pose proof (RenderScanline_frame h s0) as [Hsame Hr];
      destruct (RenderScanline h s0) as [s1 t1] end.
    cbn [fst snd] in *.
    rewrite requests_app, callbacks_app, (requests_reads _ _ _ _ Hr),
      (callbacks_reads _ _ _ Hr).
    unfold same_but_pixels in Hsame.
    assert (Hb : HBlankInterrupt s1 = HBlankInterrupt s).
    { rewrite Hsame. unfold HBlankInterrupt.
      change (m_LCDControllerStatus (set_DisplayPixels ?x ?p))
        with (m_LCDControllerStatus x).
      rewrite ISBITSET_SETMODE; [done | unfold ModeHBlank; lia | lia]. }
    assert (Hc : m_CPU s1 = m_CPU s) by (by rewrite Hsame).
    rewrite Hb, Hc. split; [|split; [|done]]; by destruct (_ && _).
  - rewrite (StepMode_HBlank h s Hm), Hm. unfold mode_threshold. cbn.
    destruct (_ <=? _); cbn [andb b2n]; [|by repeat split].
    cbv zeta. destruct (_ =? 144); cbn [andb b2n fst snd]; [|by repeat split].
    rewrite requests_app, callbacks_app. unfold RenderImage, VBlankInterrupt.
    rewrite ISBITSET_SETMODE by (unfold ModeVBlank; lia).
    cbn [m_LCDControllerStatus set_LCDControllerYCoordinate set_ModeClock].
    destruct (m_pVSyncCallback s), (m_CPU s), (ISBITSET _ 4); by repeat split.
  - rewrite (StepMode_VBlank h s Hm), Hm. unfold mode_threshold. cbn.
    destruct (_ <=? _); cbn [andb b2n]; [|by repeat split].
    cbv zeta. destruct (_ =? 154); by repeat split.
Qed.

(** Property X3.
    Every LCD-STAT request of a [Step] has one of three causes: the end of
    VRAM transfer with status bit 3 set, the entry into VBlank with status
    bit 4 set, and coincidence with status bit 6 set; each happens once, and
    only if a CPU is attached.  Status bit 5, the OAM interrupt enable, has
    no effect. *)
Theorem Step_STAT_requests (h : Header) (s : GPU) (cycles : Z) :
  requests INT48 (Step h s cycles).2
  = Nat.add
      (Nat.add (b2n (enters_HBlank h s cycles && HBlankInterrupt s && m_CPU s))
               (b2n (enters_VBlank h s cycles && VBlankInterrupt s && m_CPU s)))
      (b2n (IsLCDDisplayEnabled s
            && (m_LYCompare s =? m_LCDControllerYCoordinate (Step h s cycles).1)
            && LYCoincidenceInterrupt s && m_CPU s)).
Proof.
  unfold enters_HBlank, enters_VBlank, Step.
  destruct (IsLCDDisplayEnabled s) eqn:Hon; cbn [negb andb fst snd]; [|done].
  set (s0 := set_ModeClock s (to_ulong h (m_ModeClock s + cycles))).
  pose proof (StepMode_calls h s0) as [Hreq _].
  pose proof (StepMode_keeps h s0) as (Ecpu & _ & _ & Elyc & _ & _ & _ & _ & _ & _ & _ & _ & _ & Ebits).
  destruct (StepMode h s0) as [s1 t1]. cbn [fst snd] in *.
  pose proof (StepCoincidence_spec s1) as (_ & Ely & _ & _ & _ & _ & _ & _ & Et).
  destruct (StepCoincidence s1) as [s2 t2]. cbn [fst snd] in *.
  rewrite requests_app, Hreq, Et, Ely, Elyc, Ecpu.
  unfold LYCoincidenceInterrupt. rewrite (Ebits 6) by lia.
  change (GETMODE s0) with (GETMODE s). change (m_CPU s0) with (m_CPU s).
  change (m_ModeClock s0) with (to_ulong h (m_ModeClock s + cycles)).
  change (m_LCDControllerYCoordinate s0) with (m_LCDControllerYCoordinate s).
  change (HBlankInterrupt s0) with (HBlankInterrupt s).
  change (VBlankInterrupt s0) with (VBlankInterrupt s).
  change (m_LYCompare s0) with (m_LYCompare s).
  change (m_LCDControllerStatus s0) with (m_LCDControllerStatus s).
  f_equal; [f_equal|].
  - by rewrite reached_VRAM.
  - by rewrite reached_HBlank.
  - unfold LYCoincidenceInterrupt.
    destruct ((m_LYCompare s =? m_LCDControllerYCoordinate s1)
              && ISBITSET (m_LCDControllerStatus s) 6 && m_CPU s); reflexivity.
Qed.

(** Property X4.
    The VSync callback is called once by a [Step] that enters VBlank, if a
    callback is registered, and by no other [Step]; after
    [SetVSyncCallback] with a null pointer it is never called. *)
Theorem Step_callbacks (h : Header) (s : GPU) (cycles : Z) :
  callbacks (Step h s cycles).2 = b2n (enters_VBlank h s cycles && m_pVSyncCallback s)
  /\ callbacks (Step h (SetVSyncCallback s false) cycles).2 = 0%nat
  /\ callbacks (Step h (SetVSyncCallback s true) cycles).2 = b2n (enters_VBlank h s cycles).
Proof.
  assert (Hgen : forall s0, callbacks (Step h s0 cycles).2
                            = b2n (enters_VBlank h s0 cycles && m_pVSyncCallback s0)).
  { intros s0. unfold enters_VBlank, Step.
    destruct (IsLCDDisplayEnabled s0) eqn:Hon; cbn [negb andb fst snd]; [|done].
    set (s1 := set_ModeClock s0 (to_ulong h (m_ModeClock s0 + cycles))).
    pose proof (StepMode_calls h s1) as (_ & Hcb & _).
    destruct (StepMode h s1) as [s2 t2]. cbn [fst snd] in *.
    pose proof (StepCoincidence_spec s2) as (_ & _ & _ & _ & _ & _ & _ & _ & Et).
    destruct (StepCoincidence s2) as [s3 t3]. cbn [fst snd] in *.
    rewrite callbacks_app, Hcb, Et.
    change (GETMODE s1) with (GETMODE s0).
    change (m_ModeClock s1) with (to_ulong h (m_ModeClock s0 + cycles)).
    change (m_LCDControllerYCoordinate s1) with (m_LCDControllerYCoordinate s0).
    change (m_pVSyncCallback s1) with (m_pVSyncCallback s0).
    assert (Hz : forall b : bool,
               callbacks (if b then [TriggerInterrupt INT48] else []) = 0%nat)
      by (by intros []).
    rewrite Hz, Nat.add_0_r.
    by rewrite reached_HBlank. }
  split; [apply Hgen|]. split.
  - rewrite Hgen. cbn [SetVSyncCallback set_pVSyncCallback m_pVSyncCallback].
    by rewrite andb_false_r.
  - rewrite Hgen. cbn [SetVSyncCallback set_pVSyncCallback m_pVSyncCallback].
    by rewrite andb_true_r.
Qed.

(** Property X5.
    [Step] leaves alone what the program owns: the control, compare, scroll,
    window and palette registers, video and object memory, the collaborators
    and status bits 3 to 7; and it touches the framebuffer only in a call
    that ends VRAM transfer. *)
Theorem Step_keeps (h : Header) (s : GPU) (cycles : Z) :
  timing_inv s ->
  Z.of_nat (length (GetCurrentFrame s)) = 160 * 144 ->
  let s' := (Step h s cycles).1 in
  m_CPU s' = m_CPU s /\ m_pVSyncCallback s' = m_pVSyncCallback s
  /\ m_LCDControl s' = m_LCDControl s /\ m_LYCompare s' = m_LYCompare s
  /\ m_ScrollY s' = m_ScrollY s /\ m_ScrollX s' = m_ScrollX s
  /\ m_WindowYPosition s' = m_WindowYPosition s
  /\ m_WindowXPositionMinus7 s' = m_WindowXPositionMinus7 s
  /\ m_BGPaletteData s' = m_BGPaletteData s
  /\ m_ObjectPalette0Data s' = m_ObjectPalette0Data s
  /\ m_ObjectPalette1Data s' = m_ObjectPalette1Data s
  /\ m_VRAM s' = m_VRAM s /\ m_OAM s' = m_OAM s
  /\ (forall bit, 3 <= bit < 8 ->
        ISBITSET (m_LCDControllerStatus s') bit = ISBITSET (m_LCDControllerStatus s) bit)
  /\ (enters_HBlank h s cycles = false -> GetCurrentFrame s' = GetCurrentFrame s).
Proof.
  intros _ _. unfold Step, enters_HBlank, GetCurrentFrame.
  destruct (IsLCDDisplayEnabled s) eqn:Hon; cbn [negb andb].
  - set (s0 := set_ModeClock s (to_ulong h (m_ModeClock s + cycles))).
    pose proof (StepMode_keeps h s0) as Hk.
    pose proof (StepMode_calls h s0) as (_ & _ & Hpix).
    destruct (StepMode h s0) as [s1 t1]. cbn [fst snd] in *.
    destruct Hk as (H1 & H2 & H3 & H4 & H5 & H6 & H7 & H8 & H9 & H10 & H11 & H12 & H13 & Hb).
    pose proof (StepCoincidence_spec s1) as (_ & _ & Elyc & Ecpu & Epix & _ & _ & Ebits & _).
    assert (Hs2 : forall s1, (StepCoincidence s1).1
                  = set_LCDControllerStatus s1 (m_LCDControllerStatus (StepCoincidence s1).1)).
    { intros x. unfold StepCoincidence.
      destruct (m_LYCompare x =? m_LCDControllerYCoordinate x); reflexivity. }
    specialize (Hs2 s1).
    destruct (StepCoincidence s1) as [s2 t2]. cbn [fst snd] in *.
    rewrite Hs2. cbn [m_CPU m_pVSyncCallback m_LCDControl m_LYCompare m_ScrollY m_ScrollX
      m_WindowYPosition m_WindowXPositionMinus7 m_BGPaletteData m_ObjectPalette0Data
      m_ObjectPalette1Data m_VRAM m_OAM m_DisplayPixels m_LCDControllerStatus
      set_LCDControllerStatus].
    repeat split; try assumption.
    + intros bit Hbit. rewrite Ebits by done. apply Hb. lia.
    + intros Hno. destruct (decide (m_DisplayPixels s1 = m_DisplayPixels s)) as [E|E];
        [done|].
      apply Hpix in E.
      change (GETMODE s0) with (GETMODE s) in E.
      change (m_ModeClock s0) with (to_ulong h (m_ModeClock s + cycles)) in E.
      rewrite reached_VRAM in E. congruence.
  - cbn [fst]. repeat split. intros bit Hb.
    rewrite ISBITSET_SETMODE; [done | unfold ModeVBlank; lia | lia].
Qed.

(** ** Reads and writes of the register bank *)

(** The bits of the status byte after a write of [val]: bits 0 to 2 are the
    old ones, bits 3 to 7 those of [val]. *)
Lemma status_write_bits (val st bit : Z) :
  0 <= bit < 8 ->
  Z.testbit (to_byte (Z.lor (Z.land val 0xF8) (Z.land st 0x07))) bit
  = if bit <? 3 then Z.testbit st bit else Z.testbit val bit.
Proof.
  intros Hb. rewrite testbit_to_byte by lia.
  rewrite Z.lor_spec, !Z.land_spec.
  assert (Hc : bit = 0 \/ bit = 1 \/ bit = 2 \/ bit = 3 \/ bit = 4 \/ bit = 5
               \/ bit = 6 \/ bit = 7) by lia.
  destruct Hc as [->|[->|[->|[->|[->|[->|[->| ->]]]]]]]; cbn [Z.ltb Z.compare Pos.compare];
    change (Z.testbit 248 0) with false; change (Z.testbit 7 0) with true;
    change (Z.testbit 248 1) with false; change (Z.testbit 7 1) with true;
    change (Z.testbit 248 2) with false; change (Z.testbit 7 2) with true;
    change (Z.testbit 248 3) with true; change (Z.testbit 7 3) with false;
    change (Z.testbit 248 4) with true; change (Z.testbit 7 4) with false;
    change (Z.testbit 248 5) with true; change (Z.testbit 7 5) with false;
    change (Z.testbit 248 6) with true; change (Z.testbit 7 6) with false;
    change (Z.testbit 248 7) with true; change (Z.testbit 7 7) with false;
    rewrite ?andb_true_r, ?andb_false_r, ?orb_false_r, ?orb_false_l; reflexivity.
Qed.

Lemma status_write_mode (val st : Z) :
  Z.land (to_byte (Z.lor (Z.land val 0xF8) (Z.land st 0x07))) 0x03 = Z.land st 0x03.
Proof.
  apply Z.bits_inj'. intros n Hn. rewrite !Z.land_spec.
  change 3 with (Z.ones 2). rewrite Z.testbit_ones_nonneg by lia.
  destruct (Z.ltb_spec n 2); [|by rewrite !andb_false_r].
  rewrite status_write_bits by lia.
  destruct (Z.ltb_spec n 3); [done | lia].
Qed.

Lemma ReadByte_byte (h : Header) (s : GPU) (address : Z) :
  wf h s -> is_byte (ReadByte h s address).
Proof.
  intros Hwf. unfold ReadByte.
  destruct (wf_vram h s Hwf) as [_ Hv]. destruct (wf_oam h s Hwf) as [_ Ho].
  repeat match goal with
         | |- is_byte (if ?b then _ else _) => destruct b
         end;
    try apply Hwf; try (by apply load_byte); unfold is_byte; lia.
Qed.

(** Property X6.
    [ReadByte] returns a byte; at the write-only DMA trigger and at an
    address that is neither memory nor register it returns 0. *)
Theorem ReadByte_range (h : Header) (s : GPU) (address : Z) :
  (wf h s -> is_byte (ReadByte h s address))
  /\ (header_ok h -> in_VRAM address = false -> in_OAM address = false ->
      address = DMATransferAndStartAddress h \/ address ∉ registers h ->
      ReadByte h s address = 0).
Proof.
  split.
  - apply ReadByte_byte.
  - intros Hh Hv Ho Hcase. unfold ReadByte. rewrite Hv, Ho.
    destruct Hcase as [->|Hnot].
    + register_facts Hh.
      repeat match goal with
             | |- context [DMATransferAndStartAddress h =? ?r] =>
                 lazymatch r with
                 | DMATransferAndStartAddress h => fail
                 | _ => destruct (Z.eqb_spec (DMATransferAndStartAddress h) r);
                        [congruence|]
                 end
             end.
      by rewrite Z.eqb_refl.
    + unfold registers in Hnot.
      repeat match goal with
             | H : _ ∉ _ :: _ |- _ => apply not_elem_of_cons in H as [? H]
             end.
      repeat match goal with
             | |- context [address =? ?r] =>
                 destruct (Z.eqb_spec address r); [congruence|]
             end.
      done.
Qed.

Lemma ReadByte_range_witness :
  wf DMG (sample true true 0x80 3 0 0 0)
  /\ is_byte (ReadByte DMG (sample true true 0x80 3 0 0 0) 0xFF41)
  /\ ReadByte DMG (sample true true 0x80 3 0 0 0) 0xFF46 = 0.
Proof.
  assert (Hwf : wf DMG (sample true true 0x80 3 0 0 0))
    by (apply sample_wf; unfold is_byte; lia).
  split; [exact Hwf|].
  destruct (ReadByte_range DMG (sample true true 0x80 3 0 0 0) 0xFF41) as [H1 _].
  destruct (ReadByte_range DMG (sample true true 0x80 3 0 0 0) 0xFF46) as [_ H2].
  split; [exact (H1 Hwf)|].
  apply (H2 DMG_ok eq_refl eq_refl). left. reflexivity.
Defined.

Section RegisterBank.

Context {MMU : Type} (MMU_ReadByte : MMU -> GPU -> Z -> Z * MMU).

(** The DMA loop changes object memory, and nothing else of the GPU. *)
Lemma dma_loop_frame (source : Z) (offsets : list Z) :
  forall (s : GPU) (m : MMU),
    exists oam,
      (dma_loop MMU_ReadByte source offsets s m).1.1 = set_OAM s oam
      /\ length oam = length (m_OAM s)
      /\ (Forall is_byte (m_OAM s) -> Forall is_byte oam).
Proof.
  induction offsets as [|o rest IH]; intros s m; cbn [dma_loop].
  - exists (m_OAM s). split; [by destruct s | done].
  - destruct (MMU_ReadByte m s (to_ushort (Z.lor source o))) as [v m1].
    destruct (IH (set_OAM s (store (m_OAM s) o (to_byte v))) m1) as (oam & Hoam & Hl & Hb).
    destruct (dma_loop MMU_ReadByte source rest _ m1) as [[s2 m2] t].
    cbn [fst m_OAM set_OAM] in *. exists oam. split; [by rewrite Hoam|].
    assert (Hstore : forall a i x, length (store a i x) = length a
                                   /\ (Forall is_byte a -> is_byte x -> Forall is_byte (store a i x))).
    { intros a i x. unfold store. destruct (0 <=? i); [|done].
      split; [apply length_insert | intros; by apply Forall_insert]. }
    destruct (Hstore (m_OAM s) o (to_byte v)) as [Hl' Hb'].
    split; [by rewrite Hl, Hl'|].
    intros Hbytes. apply Hb, Hb'; [done | apply to_byte_range].
Qed.

(** What a write leaves of the state, case by case of its result. *)
Lemma WriteByte_cases (h : Header) (s : GPU) (m : MMU) (address val : Z) :
  let s' := (WriteByte MMU_ReadByte h s m address val).1.1.2 in
  s' = s
  \/ (in_VRAM address = true /\ VRAM_blocked s = false
      /\ s' = set_VRAM s (store (m_VRAM s) (address - 0x8000) val))
  \/ (in_VRAM address = false /\ in_OAM address = true /\ OAM_blocked s = false
      /\ s' = set_OAM s (store (m_OAM s) (address - 0xFE00) val))
  \/ (in_VRAM address = false /\ in_OAM address = false
      /\ ((address = LCDControl h /\ s' = set_LCDControl s val)
          \/ (address = LCDControllerStatus h
              /\ s' = set_LCDControllerStatus s
                        (to_byte (Z.lor (Z.land val 0xF8)
                                        (Z.land (m_LCDControllerStatus s) 0x07))))
          \/ (address = ScrollY h /\ s' = set_ScrollY s val)
          \/ (address = ScrollX h /\ s' = set_ScrollX s val)
          \/ (address = LCDControllerYCoordinate h /\ s' = set_LCDControllerYCoordinate s 0)
          \/ (address = LYCompare h /\ s' = set_LYCompare s val)
          \/ (address = WindowYPosition h /\ s' = set_WindowYPosition s val)
          \/ (address = WindowXPositionMinus7 h /\ s' = set_WindowXPositionMinus7 s val)
          \/ (address = BGPaletteData h /\ s' = set_BGPaletteData s val)
          \/ (address = ObjectPalette0Data h /\ s' = set_ObjectPalette0Data s val)
          \/ (address = ObjectPalette1Data h /\ s' = set_ObjectPalette1Data s val)
          \/ (address = DMATransferAndStartAddress h
              /\ exists oam, s' = set_OAM s oam /\ length oam = length (m_OAM s)
                             /\ (Forall is_byte (m_OAM s) -> Forall is_byte oam)))).
Proof.
  unfold WriteByte. fold (VRAM_blocked s) (OAM_blocked s).
  destruct (in_VRAM address) eqn:Hv.
  { destruct (VRAM_blocked s); cbn; [by left | right; left; by repeat split]. }
  destruct (in_OAM address) eqn:Ho.
  { destruct (OAM_blocked s); cbn; [by left | right; right; left; by repeat split]. }
  repeat match goal with
         | |- context [address =? ?r] =>
             destruct (Z.eqb_spec address r) as [E|_];
             [ do 3 right; split; [done|]; split; [done|]; cbn; tauto | ]
         end.
  destruct (Z.eqb_spec address (DMATransferAndStartAddress h)) as [E|_]; [|by left].
  do 3 right. split; [done|]. split; [done|]. do 11 right. split; [done|].
  unfold LaunchDMATransfer.
  destruct (dma_loop_frame (to_ushort (to_ushort val * 256)) (seqZ 0 160) s m)
    as (oam & Hoam & Hl & Hb).
  destruct (dma_loop MMU_ReadByte _ _ s m) as [[s1 m1] t]. cbn in *. by exists oam.
Qed.

(** Property X7.
    No write through [WriteByte] changes the mode field or the coincidence
    flag of the status register; a write to the status register sets bits 3
    to 7 to those of the byte written. *)
Theorem WriteByte_status_low_bits (h : Header) (s : GPU) (m : MMU) (address val : Z) :
  let s' := (WriteByte MMU_ReadByte h s m address val).1.1.2 in
  GETMODE s' = GETMODE s
  /\ ISBITSET (m_LCDControllerStatus s') 2 = ISBITSET (m_LCDControllerStatus s) 2
  /\ (header_ok h -> address = LCDControllerStatus h ->
      forall bit, 3 <= bit < 8 ->
        ISBITSET (m_LCDControllerStatus s') bit = ISBITSET val bit).
Proof.
  pose proof (WriteByte_cases h s m address val) as Hc. cbv zeta in *.
  set (s' := (WriteByte MMU_ReadByte h s m address val).1.1.2) in *.
  assert (Hst : m_LCDControllerStatus s' = m_LCDControllerStatus s
                \/ (in_VRAM address = false /\ in_OAM address = false
                    /\ address = LCDControllerStatus h
                    /\ m_LCDControllerStatus s'
                       = to_byte (Z.lor (Z.land val 0xF8)
                                        (Z.land (m_LCDControllerStatus s) 0x07)))).
  { destruct Hc as [->|[(_ & _ & ->)|[(_ & _ & _ & ->)|(Hv & Ho & Hc)]]]; try by left.
    destruct Hc as [[_ ->]|[[E ->]|[[_ ->]|[[_ ->]|[[_ ->]|[[_ ->]|[[_ ->]|[[_ ->]|[[_ ->]|[[_ ->]|[[_ ->]|[_ (oam & -> & _)]]]]]]]]]]]]; try by left.
    right. by repeat split. }
  split; [|split].
  - unfold GETMODE. destruct Hst as [->|(_ & _ & _ & ->)]; [done|].
    apply status_write_mode.
  - destruct Hst as [->|(_ & _ & _ & ->)]; [done|].
    rewrite !ISBITSET_testbit by lia. by rewrite status_write_bits by lia.
  - intros Hh -> bit Hb. subst s'. clear Hc Hst.
    assert (Hbits : ISBITSET (to_byte (Z.lor (Z.land val 0xF8)
                                             (Z.land (m_LCDControllerStatus s) 0x07))) bit
                    = ISBITSET val bit).
    { rewrite !ISBITSET_testbit by lia. rewrite status_write_bits by lia.
      destruct (Z.ltb_spec bit 3); [lia | done]. }
    clear Hb. register_facts Hh.
    unfold WriteByte.
    repeat match goal with
           | H : in_VRAM (LCDControllerStatus h) = false |- _ => rewrite H; clear H
           | H : in_OAM (LCDControllerStatus h) = false |- _ => rewrite H; clear H
           end.
    destruct (Z.eqb_spec (LCDControllerStatus h) (LCDControl h)); [congruence|].
    rewrite Z.eqb_refl. exact Hbits.
Qed.

End RegisterBank.

Lemma load_store_ne (a : list Z) (i j v : Z) :
  0 <= i -> 0 <= j -> i <> j -> load (store a i v) j = load a j.
Proof.
  intros Hi Hj Hne. unfold load, store.
  destruct (Z.leb_spec 0 i); [|lia]. destruct (Z.leb_spec 0 j); [|lia].
  rewrite list_lookup_insert_ne by lia. done.
Qed.

Lemma store_wf (a : list Z) (i v : Z) :
  length (store a i v) = length a
  /\ (Forall is_byte a -> is_byte v -> Forall is_byte (store a i v)).
Proof.
  unfold store. destruct (0 <=? i); [|done].
  split; [apply length_insert | intros; by apply Forall_insert].
Qed.

(** A read of memory sees the state through the gate and the array only. *)
Lemma ReadByte_VRAM_congr (h : Header) (s s' : GPU) (b : Z) :
  in_VRAM b = true ->
  m_LCDControl s' = m_LCDControl s -> GETMODE s' = GETMODE s ->
  load (m_VRAM s') (b - 0x8000) = load (m_VRAM s) (b - 0x8000) ->
  ReadByte h s' b = ReadByte h s b.
Proof.
  intros Hb Hc Hm Hl. unfold ReadByte, IsLCDDisplayEnabled. by rewrite Hb, Hc, Hm, Hl.
Qed.

Lemma ReadByte_OAM_congr (h : Header) (s s' : GPU) (b : Z) :
  in_OAM b = true ->
  m_LCDControl s' = m_LCDControl s -> GETMODE s' = GETMODE s ->
  load (m_OAM s') (b - 0xFE00) = load (m_OAM s) (b - 0xFE00) ->
  ReadByte h s' b = ReadByte h s b.
Proof.
  intros Hb Hc Hm Hl. unfold ReadByte, IsLCDDisplayEnabled.
  by rewrite (in_OAM_not_VRAM _ Hb), Hb, Hc, Hm, Hl.
Qed.

Section RegisterBankFrame.

Context {MMU : Type} (MMU_ReadByte : MMU -> GPU -> Z -> Z * MMU).

(** Property X8.
    A write at one address leaves what is read at another: a register reads
    the same after a write anywhere else; a byte of video memory reads the
    same unless the write is to the control register, which moves the gate;
    a byte of object memory reads the same unless the write is to the control
    register or starts a DMA transfer. *)
Theorem WriteByte_elsewhere (h : Header) (s : GPU) (m : MMU) (address val other : Z) :
  address <> other ->
  let s' := (WriteByte MMU_ReadByte h s m address val).1.1.2 in
  (in_VRAM other = false -> in_OAM other = false ->
     ReadByte h s' other = ReadByte h s other)
  /\ (in_VRAM other = true -> address <> LCDControl h ->
        ReadByte h s' other = ReadByte h s other)
  /\ (in_OAM other = true -> address <> LCDControl h ->
        address <> DMATransferAndStartAddress h ->
        ReadByte h s' other = ReadByte h s other).
Proof.
  intros Hne s'.
  pose proof (WriteByte_cases MMU_ReadByte h s m address val) as Hc. cbv zeta in Hc.
  fold s' in Hc. clearbody s'.
  split; [|split].
  - intros Hv Ho. unfold ReadByte. rewrite Hv, Ho.
    destruct Hc as [->|[(_ & _ & ->)|[(_ & _ & _ & ->)|(_ & _ & Hc)]]]; try reflexivity.
    repeat (destruct Hc as [[E ->]|Hc];
            [ repeat match goal with
                     | |- context [other =? ?r] =>
                         destruct (Z.eqb_spec other r); [try congruence; reflexivity|]
                     end; reflexivity | ]).
    destruct Hc as (_ & oam & -> & _). reflexivity.
  - intros Hv Hctl. pose proof (in_VRAM_range _ Hv) as Hr.
    destruct Hc as [->|[(Ha & _ & ->)|[(_ & _ & _ & ->)|(_ & _ & Hc)]]]; try done.
    + apply ReadByte_VRAM_congr; try done. cbn [m_VRAM set_VRAM].
      apply in_VRAM_range in Ha. apply load_store_ne; lia.
    + by apply ReadByte_VRAM_congr.
    + destruct Hc as [[E _]|Hc]; [congruence|].
      destruct Hc as [[_ ->]|Hc].
      { apply ReadByte_VRAM_congr; try done. apply status_write_mode. }
      repeat (destruct Hc as [[_ ->]|Hc]; [by apply ReadByte_VRAM_congr|]).
      destruct Hc as (_ & oam & -> & _). by apply ReadByte_VRAM_congr.
  - intros Ho Hctl Hdma. pose proof (in_OAM_range _ Ho) as Hr.
    destruct Hc as [->|[(_ & _ & ->)|[(_ & Ha & _ & ->)|(_ & _ & Hc)]]]; try done.
    + by apply ReadByte_OAM_congr.
    + apply ReadByte_OAM_congr; try done. cbn [m_OAM set_OAM].
      apply in_OAM_range in Ha. apply load_store_ne; lia.
    + destruct Hc as [[E _]|Hc]; [congruence|].
      destruct Hc as [[_ ->]|Hc].
      { apply ReadByte_OAM_congr; try done. apply status_write_mode. }
      repeat (destruct Hc as [[_ ->]|Hc]; [by apply ReadByte_OAM_congr|]).
      destruct Hc as [E _]. congruence.
Qed.

(** Property X9.
    [WriteByte] of a byte keeps a well-formed state well formed, whatever the
    address and whatever the memory unit returns during a DMA transfer. *)
Theorem WriteByte_wf (h : Header) (s : GPU) (m : MMU) (address val : Z) :
  wf h s -> is_byte val ->
  wf h (WriteByte MMU_ReadByte h s m address val).1.1.2.
Proof.
  intros Hwf Hval.
  pose proof (WriteByte_cases MMU_ReadByte h s m address val) as Hc. cbv zeta in Hc.
  set (s' := (WriteByte MMU_ReadByte h s m address val).1.1.2) in *. clearbody s'.
  destruct (wf_vram h s Hwf) as [Hvl Hvb]. destruct (wf_oam h s Hwf) as [Hol Hob].
  destruct Hc as [->|[(_ & _ & ->)|[(_ & _ & _ & ->)|(_ & _ & Hc)]]]; try done.
  - destruct (store_wf (m_VRAM s) (address - 0x8000) val) as [Hl Hb].
    split; try apply Hwf. cbn [m_VRAM set_VRAM]. split; [by rewrite Hl | by apply Hb].
  - destruct (store_wf (m_OAM s) (address - 0xFE00) val) as [Hl Hb].
    split; try apply Hwf. cbn [m_OAM set_OAM]. split; [by rewrite Hl | by apply Hb].
  - repeat (destruct Hc as [[_ ->]|Hc];
            [ split; try apply Hwf; cbn; first [ exact Hval | apply to_byte_range
                                                | unfold is_byte; lia ] | ]).
    destruct Hc as [_ (oam & -> & Hl & Hb)].
    split; try apply Hwf. cbn [m_OAM set_OAM]. split; [by rewrite Hl | by apply Hb].
Qed.

End RegisterBankFrame.

Lemma WriteByte_elsewhere_witness :
  0xFF42 <> 0xFF43
  /\ ReadByte DMG (WriteByte echo_ReadByte DMG (sample true true 0x80 0 0 0 0) tt
                     0xFF42 9).1.1.2 0xFF43
     = ReadByte DMG (sample true true 0x80 0 0 0 0) 0xFF43.
Proof.
  split; [lia|].
  destruct (WriteByte_elsewhere echo_ReadByte DMG (sample true true 0x80 0 0 0 0) tt
              0xFF42 9 0xFF43 ltac:(lia)) as [H _].
  exact (H eq_refl eq_refl).
Defined.

Lemma WriteByte_wf_witness :
  wf DMG (sample true true 0x80 0 0 0 0) /\ is_byte 0xF1
  /\ wf DMG (WriteByte echo_ReadByte DMG (sample true true 0x80 0 0 0 0) tt 0xFF46 0xF1).1.1.2.
Proof.
  assert (Hwf : wf DMG (sample true true 0x80 0 0 0 0))
    by (apply sample_wf; unfold is_byte; lia).
  assert (Hb : is_byte 0xF1) by (unfold is_byte; lia).
  split; [exact Hwf|]. split; [exact Hb|].
  exact (WriteByte_wf echo_ReadByte DMG (sample true true 0x80 0 0 0 0) tt 0xFF46 0xF1 Hwf Hb).
Defined.

Section PureMemory.

(** A memory unit that is a plain memory: the byte at an address does not
    depend on the GPU, and reading does not change it. *)
Context {MMU : Type} (MMU_ReadByte : MMU -> GPU -> Z -> Z * MMU) (content : Z -> Z).
Hypothesis read_content : forall m s address, MMU_ReadByte m s address = (content address, m).

Lemma dma_loop_content (source : Z) (n : nat) :
  forall (k : Z) (s : GPU) (m : MMU),
    0 <= k -> k + Z.of_nat n <= Z.of_nat (length (m_OAM s)) ->
    (dma_loop MMU_ReadByte source (seqZ k (Z.of_nat n)) s m).1
    = (set_OAM s (take (Z.to_nat k) (m_OAM s)
                  ++ ((fun offset => to_byte (content (to_ushort (Z.lor source offset))))
                        <$> seqZ k (Z.of_nat n))
                  ++ drop (Z.to_nat k + n) (m_OAM s)),
       m).
Proof.
  induction n as [|n IH]; intros k s m Hk Hlen.
  - change (Z.of_nat 0) with 0. rewrite seqZ_nil by lia. cbn.
    rewrite Nat.add_0_r, take_drop. by destruct s.
  - rewrite seqZ_cons by lia. cbn [dma_loop]. rewrite read_content.
    replace (Z.pred (Z.of_nat (S n))) with (Z.of_nat n) by lia.
    set (v := to_byte (content (to_ushort (Z.lor source k)))).
    set (s1 := set_OAM s (store (m_OAM s) k v)).
    pose proof (IH (Z.succ k) s1 m) as Heq.
    destruct (dma_loop MMU_ReadByte source (seqZ (Z.succ k) (Z.of_nat n)) s1 m)
      as [[s2 m2] t].
    cbn [fst] in *. rewrite Heq; [|lia|].
    2: { subst s1. cbn [m_OAM set_OAM]. rewrite store_insert, length_insert by lia. lia. }
    f_equal. subst s1. cbn [m_OAM set_OAM]. unfold set_OAM. cbn. f_equal.
    rewrite store_insert by lia.
    replace (Z.to_nat (Z.succ k)) with (S (Z.to_nat k)) by lia.
    rewrite (take_S_r _ _ v) by (apply list_lookup_insert_eq; lia).
    rewrite take_insert_ge by lia.
    rewrite drop_insert_lt by lia.
    rewrite <- app_assoc. cbn. by rewrite Nat.add_succ_r.
Qed.

(** Property X10.
    A DMA transfer from a plain memory: after a write of [V] to the DMA
    trigger, object memory holds the 160 bytes of the page at [V * 256], the
    memory is as it was, and with the gate open a read of object memory at
    offset [i] returns the byte at [V * 256 + i]. *)
Theorem WriteByte_DMA_copies (h : Header) (s : GPU) (m : MMU) (V : Z) :
  header_ok h -> is_byte V -> Z.of_nat (length (m_OAM s)) = 160 ->
  let r := WriteByte MMU_ReadByte h s m (DMATransferAndStartAddress h) V in
  m_OAM r.1.1.2 = (fun address => to_byte (content address)) <$> dma_addresses V
  /\ r.1.2 = m
  /\ (OAM_blocked s = false ->
      forall i, 0 <= i < 160 ->
        ReadByte h r.1.1.2 (0xFE00 + i) = to_byte (content (V * 256 + i))).
Proof.
  intros Hh HV Hlen r. unfold is_byte in HV.
  assert (Hsrc : to_ushort (to_ushort V * 0x0100) = V * 256).
  { rewrite (to_ushort_small V) by lia. apply to_ushort_small. lia. }
  assert (Hdrop : drop 160 (m_OAM s) = []) by (apply drop_ge; lia).
  pose proof (dma_loop_content (V * 256) 160 0 s m ltac:(lia) ltac:(lia)) as Hloop.
  assert (Haddr : (fun offset => to_byte (content (to_ushort (Z.lor (V * 256) offset))))
                    <$> seqZ 0 160
                  = (fun address => to_byte (content address)) <$> dma_addresses V).
  { unfold dma_addresses. rewrite <- list_fmap_compose. apply list_fmap_ext.
    intros i x Hx. apply lookup_seqZ in Hx as [-> Hx]. cbn.
    rewrite lor_offset by lia. rewrite to_ushort_small by lia. done. }
  assert (Hr : r.1.1.2 = set_OAM s ((fun address => to_byte (content address))
                                      <$> dma_addresses V)
               /\ r.1.2 = m).
  { subst r. clear HV. register_facts Hh. unfold WriteByte.
    repeat match goal with
           | H : in_VRAM (DMATransferAndStartAddress h) = false |- _ => rewrite H; clear H
           | H : in_OAM (DMATransferAndStartAddress h) = false |- _ => rewrite H; clear H
           end.
    repeat match goal with
           | |- context [DMATransferAndStartAddress h =? ?r] =>
               lazymatch r with
               | DMATransferAndStartAddress h => fail
               | _ => destruct (Z.eqb_spec (DMATransferAndStartAddress h) r);
                      [congruence|]
               end
           end.
    rewrite Z.eqb_refl. unfold LaunchDMATransfer. rewrite Hsrc.
    change 160%Z with (Z.of_nat 160) in Hloop. change 160%Z with (Z.of_nat 160).
    destruct (dma_loop MMU_ReadByte (V * 256) (seqZ 0 (Z.of_nat 160)) s m) as [[s1 m1] t].
    cbn [fst snd] in *.
    pose proof (f_equal fst Hloop) as Hs1. pose proof (f_equal snd Hloop) as Hm1.
    cbn [fst snd] in Hs1, Hm1. subst s1 m1. clear Hloop. split; [|done]. f_equal.
    change (Z.to_nat 0 + 160)%nat with 160%nat. change (Z.to_nat 0) with 0%nat.
    rewrite Hdrop. cbn [take app]. rewrite app_nil_r. exact Haddr. }
  destruct Hr as [Hs' Hm']. rewrite Hs'. cbn [m_OAM set_OAM].
  split; [done|]. split; [done|].
  intros Hgate i Hi.
  unfold ReadByte.
  assert (Hv : in_VRAM (0xFE00 + i) = false).
  { unfold in_VRAM. apply andb_false_iff. right. apply Z.leb_gt. lia. }
  assert (Ho : in_OAM (0xFE00 + i) = true).
  { unfold in_OAM. apply andb_true_iff. split; apply Z.leb_le; lia. }
  rewrite Hv, Ho.
  change (IsLCDDisplayEnabled (set_OAM s ?x)) with (IsLCDDisplayEnabled s).
  change (GETMODE (set_OAM s ?x)) with (GETMODE s).
  fold (OAM_blocked s). rewrite Hgate. cbn [m_OAM set_OAM].
  replace (0xFE00 + i - 0xFE00) with i by lia.
  unfold load, dma_addresses. destruct (Z.leb_spec 0 i); [|lia].
  rewrite <- list_fmap_compose, list_lookup_fmap.
  rewrite lookup_seqZ_lt by lia. cbn. repeat f_equal. lia.
Qed.

End PureMemory.

Lemma WriteByte_DMA_copies_witness :
  (forall m s address, echo_ReadByte m s address = (Z.land address 0xFF, m))
  /\ header_ok DMG /\ is_byte 0xF1
  /\ Z.of_nat (length (m_OAM (sample true true 0x80 0 0 0 0))) = 160
  /\ OAM_blocked (sample true true 0x80 0 0 0 0) = false
  /\ ReadByte DMG
       (WriteByte echo_ReadByte DMG (sample true true 0x80 0 0 0 0) tt
          (DMATransferAndStartAddress DMG) 0xF1).1.1.2 (0xFE00 + 5)
     = to_byte (Z.land (0xF1 * 256 + 5) 0xFF).
Proof.
  assert (Hecho : forall (m : unit) (s : GPU) (address : Z),
            echo_ReadByte m s address = (Z.land address 0xFF, m)) by reflexivity.
  assert (Hbyte : is_byte 0xF1) by (unfold is_byte; lia).
  assert (Hlen : Z.of_nat (length (m_OAM (sample true true 0x80 0 0 0 0))) = 160)
    by (apply blank_wf; lia).
  split; [exact Hecho|]. split; [exact DMG_ok|]. split; [exact Hbyte|].
  split; [exact Hlen|]. split; [reflexivity|].
  destruct (WriteByte_DMA_copies echo_ReadByte (fun address => Z.land address 0xFF) Hecho
              DMG (sample true true 0x80 0 0 0 0) tt 0xF1 DMG_ok Hbyte Hlen)
    as (_ & _ & Hread).
  apply (Hread eq_refl 5). lia.
Defined.

Lemma shade_of_index (i : Z) : 0 <= i < 4 -> is_shade (load GBColors i).
Proof.
  intros Hi. unfold is_shade.
  assert (i = 0 \/ i = 1 \/ i = 2 \/ i = 3) as [-> | [-> | [-> | ->]]] by lia;
    unfold GBColors; cbn; rewrite ?elem_of_cons; auto 10.
Qed.

Lemma shade_of_palette (data : Z) : is_shade (load GBColors (Z.land data 0x03)).
Proof.
  apply shade_of_index. change 3 with (Z.ones 2). rewrite Z.land_ones by lia.
  apply Z.mod_pos_bound. lia.
Qed.

Lemma shade_of_entry (a b c d i : Z) :
  (i = 0 -> is_shade a) -> is_shade b -> is_shade c -> is_shade d -> 0 <= i < 4 ->
  is_shade (load [a; b; c; d] i).
Proof.
  intros Ha Hb Hc Hd Hi.
  assert (i = 0 \/ i = 1 \/ i = 2 \/ i = 3) as [-> | [-> | [-> | ->]]] by lia;
    cbn; auto.
Qed.

Lemma shade_is_byte (c : Z) : is_shade c -> is_byte c.
Proof.
  unfold is_shade, GBColors, is_byte. rewrite ?elem_of_cons, elem_of_nil. lia.
Qed.

(** A loop whose counter runs over consecutive values, with an invariant that
    follows the counter. *)
Lemma for_each_counted (I : Z -> GPU -> Prop) (body : Z -> GPU -> GPU * list Event)
    (n : nat) :
  forall (start : Z) (s : GPU),
    I start s ->
    (forall k s, start <= k < start + Z.of_nat n -> I k s -> I (k + 1) (body k s).1) ->
    I (start + Z.of_nat n) (for_each (seqZ start (Z.of_nat n)) body s).1.
Proof.
  induction n as [|n IH]; intros start s Hs Hbody.
  - change (Z.of_nat 0) with 0. rewrite seqZ_nil by lia. cbn. by rewrite Z.add_0_r.
  - rewrite seqZ_cons by lia. cbn [for_each].
    destruct (body start s) as [s1 t1] eqn:E1.
    replace (Z.pred (Z.of_nat (S n))) with (Z.of_nat n) by lia.
    replace (Z.succ start) with (start + 1) by lia.
    destruct (for_each (seqZ (start + 1) (Z.of_nat n)) body s1) as [s2 t2] eqn:E2.
    cbn [fst].
    replace (start + Z.of_nat (S n)) with (start + 1 + Z.of_nat n) by lia.
    replace s2 with (for_each (seqZ (start + 1) (Z.of_nat n)) body s1).1 by (by rewrite E2).
    apply IH.
    + replace s1 with (body start s).1 by (by rewrite E1). apply Hbody; [lia | done].
    + intros k s' Hk. apply Hbody. lia.
Qed.

(** Writing a shade into column [x] of row [ly] extends the repainted part
    of the row when [x] is the next column, and keeps it in any case. *)
Lemma repainted_write (p p' : list Z) (ly k x color : Z) :
  0 <= ly -> Z.of_nat (length p) = 160 * 144 -> ly < 144 ->
  0 <= x < 160 -> is_shade color ->
  repainted p p' ly k ->
  repainted p (store p' (ly * 160 + x) color) ly k
  /\ (x = k -> repainted p (store p' (ly * 160 + x) color) ly (k + 1)).
Proof.
  intros Hly Hlen Hly' Hx Hc (Hl & Hout & Hrow).
  assert (Hstore : forall j, load (store p' (ly * 160 + x) color) j
                             = if bool_decide (j = ly * 160 + x) then color else load p' j).
  { intros j. case_bool_decide as Hj.
    - subst j. apply load_store. lia.
    - unfold load. destruct (Z.leb_spec 0 j); [|done].
      unfold store. destruct (Z.leb_spec 0 (ly * 160 + x)); [|lia].
      rewrite list_lookup_insert_ne by lia. done. }
  split; [|intros ->]; (split; [|split]).
  - rewrite (proj1 (store_wf _ _ _)). done.
  - intros j Hj. rewrite Hstore. case_bool_decide; [lia|]. by apply Hout.
  - intros y Hy. rewrite Hstore. case_bool_decide; [done|]. by apply Hrow.
  - rewrite (proj1 (store_wf _ _ _)). done.
  - intros j Hj. rewrite Hstore. case_bool_decide; [lia|]. by apply Hout.
  - intros y Hy. rewrite Hstore. case_bool_decide; [done|]. apply Hrow. lia.
Qed.

Lemma repainted_refl (p : list Z) (ly : Z) : repainted p p ly 0.
Proof. split; [done|]. split; [done|]. intros x Hx. lia. Qed.

Lemma RenderBackgroundScanline_repaints (h : Header) (s : GPU) :
  0 <= m_LCDControllerYCoordinate s < 144 ->
  Z.of_nat (length (m_DisplayPixels s)) = 160 * 144 ->
  let s' := (RenderBackgroundScanline h s).1 in
  same_but_pixels s s'
  /\ repainted (m_DisplayPixels s) (m_DisplayPixels s') (m_LCDControllerYCoordinate s) 160.
Proof.
  intros Hly Hlen. unfold RenderBackgroundScanline.
  set (I := fun (k : Z) (s' : GPU) =>
              same_but_pixels s s'
              /\ repainted (m_DisplayPixels s) (m_DisplayPixels s')
                   (m_LCDControllerYCoordinate s) k).
  assert (Hstep : forall (k color : Z) (s' : GPU),
            0 <= k < 160 -> is_shade color -> I k s' ->
            I (k + 1) (write_pixel s' (m_LCDControllerYCoordinate s' * 160 + k) color)).
  { intros k color s' Hk Hc [Hsame Hrep]. split.
    - eapply same_but_pixels_trans; [done | apply same_but_pixels_write].
    - destruct (same_but_pixels_fields _ _ Hsame)
        as (_ & _ & _ & _ & _ & _ & _ & -> & _).
      unfold write_pixel. cbn.
      destruct (repainted_write (m_DisplayPixels s) (m_DisplayPixels s')
                  (m_LCDControllerYCoordinate s) k k color) as [_ Hnext];
        [lia | done | lia | done | done | done |].
      by apply Hnext. }
  assert (I0 : I 0 s) by (split; [apply same_but_pixels_refl | apply repainted_refl]).
  destruct (negb (BGDisplayEnable s)).
  - apply (for_each_counted I _ 160 0 s I0).
    intros k s' Hk Hs'. cbn [fst]. apply Hstep; [lia | | done].
    by apply shade_of_index.
  - apply (for_each_counted I _ 160 0 s I0).
    intros k s' Hk Hs'. unfold RenderBackgroundPixel. cbn [fst].
    apply Hstep; [lia | | done].
    apply shade_of_entry; try (intros; apply shade_of_palette).
    destruct (ISBITSET _ _), (ISBITSET _ _); lia.
Qed.

(** What the sprite renderer keeps: the state but for the framebuffer, and a
    row that is repainted in shades. *)
Lemma RenderOBJPixel_repaints (s0 : GPU) (p : list Z) (flags b c d x low high indexX : Z)
    (s : GPU) :
  0 <= m_LCDControllerYCoordinate s0 < 144 ->
  Z.of_nat (length p) = 160 * 144 ->
  is_shade b -> is_shade c -> is_shade d ->
  same_but_pixels s0 s
  /\ repainted p (m_DisplayPixels s) (m_LCDControllerYCoordinate s0) 160 ->
  let s' := (RenderOBJPixel flags [0x00; b; c; d] x low high indexX s).1 in
  same_but_pixels s0 s'
  /\ repainted p (m_DisplayPixels s') (m_LCDControllerYCoordinate s0) 160.
Proof.
  intros Hly Hlen Hb Hc Hd [Hsame Hrep].
  assert (Hwrite : forall pixelVal,
            0 <= x + indexX < 160 -> 0 < pixelVal < 4 ->
            let s' := write_pixel s (m_LCDControllerYCoordinate s * 160 + (x + indexX))
                        (load [0x00; b; c; d] pixelVal) in
            same_but_pixels s0 s'
            /\ repainted p (m_DisplayPixels s') (m_LCDControllerYCoordinate s0) 160).
  { intros pixelVal Hx Hval. split.
    - eapply same_but_pixels_trans; [done | apply same_but_pixels_write].
    - destruct (same_but_pixels_fields _ _ Hsame)
        as (_ & _ & _ & _ & _ & _ & _ & -> & _).
      unfold write_pixel. cbn [m_DisplayPixels set_DisplayPixels].
      apply (repainted_write p (m_DisplayPixels s) (m_LCDControllerYCoordinate s0)
               160 (x + indexX)); [lia | done | lia | done | | done].
      apply shade_of_entry; [lia | done | done | done | lia]. }
  unfold RenderOBJPixel.
  destruct (Z.leb_spec 0 (x + indexX)); [|done].
  destruct (Z.ltb_spec (x + indexX) 160); [|done].
  cbn [andb].
  destruct (ISBITSET high _), (ISBITSET low _);
    try change (Z.lor (Z.lor 0 2) 1) with 3; try change (Z.lor 0 2) with 2;
    try change (Z.lor 0 1) with 1;
    try change (negb (3 =? 0)) with true; try change (negb (2 =? 0)) with true;
    try change (negb (1 =? 0)) with true; try change (negb (0 =? 0)) with false;
    cbv iota; try done;
    (destruct (negb (ISBITSET flags 7));
     [apply Hwrite; lia
     | destruct (load (m_DisplayPixels s) _ =? 0); [apply Hwrite; lia | done]]).
Qed.

Lemma RenderOBJSprite_repaints (h : Header) (s0 : GPU) (p : list Z) (i : Z) (s : GPU) :
  0 <= m_LCDControllerYCoordinate s0 < 144 ->
  Z.of_nat (length p) = 160 * 144 ->
  same_but_pixels s0 s
  /\ repainted p (m_DisplayPixels s) (m_LCDControllerYCoordinate s0) 160 ->
  let s' := (RenderOBJSprite h i s).1 in
  same_but_pixels s0 s'
  /\ repainted p (m_DisplayPixels s') (m_LCDControllerYCoordinate s0) 160.
Proof.
  intros Hly Hlen Hs. unfold RenderOBJSprite.
  destruct (_ && _); [|done].
  match goal with
  | |- context [for_each ?xs ?body ?st] =>
      pose proof (for_each_invariant
                    (fun s' => same_but_pixels s0 s'
                               /\ repainted p (m_DisplayPixels s')
                                    (m_LCDControllerYCoordinate s0) 160)
                    (fun _ => True) body xs st Hs) as Hloop;
      destruct (for_each xs body st) as [s1 t1]
  end.
  cbn [fst] in *. apply Hloop.
  intros x s' _ Hs'. split; [|by apply Forall_true].
  apply RenderOBJPixel_repaints; try done;
    destruct (_ =? 0); apply shade_of_palette.
Qed.

(** ** Rendering a scanline *)

(** Rendering a visible scanline repaints exactly its row. *)
Lemma RenderScanline_repaints (h : Header) (s : GPU) :
  0 <= m_LCDControllerYCoordinate s < 144 ->
  Z.of_nat (length (m_DisplayPixels s)) = 160 * 144 ->
  let s' := (RenderScanline h s).1 in
  same_but_pixels s s'
  /\ repainted (m_DisplayPixels s) (m_DisplayPixels s') (m_LCDControllerYCoordinate s) 160.
Proof.
  intros Hly Hlen. unfold RenderScanline.
  pose proof (RenderBackgroundScanline_repaints h s Hly Hlen) as Hbg.
  destruct (RenderBackgroundScanline h s) as [s1 t1]. cbn [fst] in *.
  destruct (OBJDisplayEnable s1); [|done].
  unfold RenderOBJScanline.
  pose proof (for_each_invariant
                (fun s' => same_but_pixels s s'
                           /\ repainted (m_DisplayPixels s) (m_DisplayPixels s')
                                (m_LCDControllerYCoordinate s) 160)
                (fun _ => True) (RenderOBJSprite h) sprite_offsets s1 Hbg) as Hloop.
  destruct (for_each sprite_offsets (RenderOBJSprite h) s1) as [s2 t2].
  cbn [fst] in *. apply Hloop.
  intros i s' _ Hs'. split; [|by apply Forall_true].
  by apply RenderOBJSprite_repaints.
Qed.

(** Property X11.
    A call of [Step] that ends VRAM transfer repaints exactly the row of the
    current scanline: the framebuffer keeps its size, every pixel outside
    the row is unchanged, and each of the 160 pixels of the row holds one of
    the four shades, whatever the layers that are enabled. *)
Theorem Step_repaints (h : Header) (s : GPU) (cycles : Z) :
  timing_inv s ->
  Z.of_nat (length (GetCurrentFrame s)) = 160 * 144 ->
  enters_HBlank h s cycles = true ->
  repainted (GetCurrentFrame s) (GetCurrentFrame (Step h s cycles).1)
    (m_LCDControllerYCoordinate s) 160.
Proof.
  intros Hinv Hlen Henter. unfold GetCurrentFrame. unfold enters_HBlank in Henter.
  apply andb_true_iff in Henter as [[Hon Hmode]%andb_true_iff Hreach].
  apply Z.eqb_eq in Hmode.
  assert (Hly : 0 <= m_LCDControllerYCoordinate s < 144).
  { unfold timing_inv in Hinv. rewrite Hmode in Hinv. cbn in Hinv. lia. }
  unfold Step. rewrite Hon. cbn [negb].
  set (s0 := set_ModeClock s (to_ulong h (m_ModeClock s + cycles))).
  rewrite (StepMode_VRAM h s0) by exact Hmode.
  change (m_ModeClock s0) with (to_ulong h (m_ModeClock s + cycles)).
  rewrite Hreach. cbv zeta.
  match goal with
  | |- context [RenderScanline h ?st] =>
      pose proof (RenderScanline_repaints h st Hly Hlen) as [_ Hrep];
      destruct (RenderScanline h st) as [s1 t1]
  end.
  cbn [fst] in Hrep.
  pose proof (StepCoincidence_spec s1) as (_ & _ & _ & _ & Epix & _).
  destruct (StepCoincidence s1) as [s2 t2]. cbn [fst] in *.
  rewrite Epix. exact Hrep.
Qed.

Lemma Step_repaints_witness :
  timing_inv (sprite_scene 0x93 0xE4 0x00)
  /\ enters_HBlank DMG (sprite_scene 0x93 0xE4 0x00) 4 = true
  /\ repainted (GetCurrentFrame (sprite_scene 0x93 0xE4 0x00))
       (GetCurrentFrame (Step DMG (sprite_scene 0x93 0xE4 0x00) 4).1) 0 160.
Proof.
  assert (Hinv : timing_inv (sprite_scene 0x93 0xE4 0x00)) by (vm_compute; split; discriminate).
  assert (Hlen : Z.of_nat (length (m_DisplayPixels (sprite_scene 0x93 0xE4 0x00))) = 160 * 144)
    by (apply blank_wf; lia).
  split; [exact Hinv|]. split; [reflexivity|].
  exact (Step_repaints DMG (sprite_scene 0x93 0xE4 0x00) 4 Hinv Hlen eq_refl).
Defined.

(** ** Well-formed states *)

(** The renderers write bytes, and never resize the framebuffer. *)
Lemma RenderScanline_bytes (h : Header) (s : GPU) :
  Forall is_byte (m_DisplayPixels s) ->
  let s' := (RenderScanline h s).1 in
  length (m_DisplayPixels s') = length (m_DisplayPixels s)
  /\ Forall is_byte (m_DisplayPixels s').
Proof.
  intros Hpix.
  set (I := fun s' : GPU =>
              length (m_DisplayPixels s') = length (m_DisplayPixels s)
              /\ Forall is_byte (m_DisplayPixels s')).
  assert (Hwrite : forall s' index color, is_byte color -> I s' ->
                                          I (write_pixel s' index color)).
  { intros s' index color Hc [Hl Hb]. unfold I, write_pixel. cbn.
    destruct (store_wf (m_DisplayPixels s') index color) as [-> Hf]. auto. }
  assert (Hshades : Forall is_byte GBColors).
  { unfold GBColors, is_byte. repeat apply Forall_cons_2; try apply Forall_nil_2; lia. }
  assert (Hentry : forall data, is_byte (load GBColors (Z.land data 0x03))).
  { intros data. by apply load_byte. }
  assert (Hpalette : forall a b c d i, is_byte a -> is_byte b -> is_byte c -> is_byte d ->
                                       is_byte (load [a; b; c; d] i)).
  { intros a b c d i Ha Hb Hc Hd. apply load_byte.
    repeat apply Forall_cons_2; try apply Forall_nil_2; done. }
  assert (I0 : I s) by done.
  unfold RenderScanline.
  assert (Hbg : I (RenderBackgroundScanline h s).1).
  { unfold RenderBackgroundScanline. destruct (negb _).
    - apply (for_each_invariant I (fun _ => True)); [done|].
      intros x s' _ Hs'. split; [|by apply Forall_true]. cbn [fst].
      apply Hwrite; [by apply load_byte | done].
    - apply (for_each_invariant I (fun _ => True)); [done|].
      intros x s' _ Hs'. split; [|by apply Forall_true].
      unfold RenderBackgroundPixel. cbn [fst]. apply Hwrite; [|done].
      apply Hpalette; apply Hentry. }
  destruct (RenderBackgroundScanline h s) as [s1 t1]. cbn [fst] in *.
  destruct (OBJDisplayEnable s1); [|done].
  unfold RenderOBJScanline.
  pose proof (for_each_invariant I (fun _ => True) (RenderOBJSprite h) sprite_offsets s1 Hbg)
    as Hloop.
  destruct (for_each sprite_offsets (RenderOBJSprite h) s1) as [s2 t2].
  cbn [fst] in *. apply Hloop.
  intros i s' _ Hs'. split; [|by apply Forall_true].
  unfold RenderOBJSprite. destruct (_ && _); [|done].
  match goal with
  | |- context [for_each ?xs ?body ?st] =>
      pose proof (for_each_invariant I (fun _ => True) body xs st Hs') as Hpixels;
      destruct (for_each xs body st) as [s3 t3]
  end.
  cbn [fst] in *. apply Hpixels.
  intros x s'' _ Hs''. split; [|by apply Forall_true].
  unfold RenderOBJPixel.
  repeat match goal with |- context [if ?b then _ else _] => destruct b end;
    cbn [fst]; try done;
    (apply Hwrite; [|done]; apply Hpalette; first [apply Hentry | unfold is_byte; lia]).
Qed.

(** Property X12.
    [Step] keeps states well formed: every register stays a byte, the mode
    clock stays an [unsigned long], and the three arrays keep their sizes
    and hold bytes. *)
Theorem Step_wf (h : Header) (s : GPU) (cycles : Z) :
  header_ok h -> wf h s -> timing_inv s -> wf h (Step h s cycles).1.
Proof.
  intros Hh Hwf _. destruct Hwf as [Hclock Hcontrol Hstatus Hscy Hscx Hly Hlyc Hwy Hwx Hbgp
    Hobp0 Hobp1 Hvram Hoam Hpix].
  unfold Step. destruct (IsLCDDisplayEnabled s); cbn [negb].
  - set (s0 := set_ModeClock s (to_ulong h (m_ModeClock s + cycles))).
    pose proof (StepMode_keeps h s0) as Hk.
    assert (Hpix1 : Z.of_nat (length (m_DisplayPixels (StepMode h s0).1)) = 160 * 144
                    /\ Forall is_byte (m_DisplayPixels (StepMode h s0).1)).
    { destruct (GETMODE_cases s0) as [Hm|[Hm|[Hm|Hm]]].
      - rewrite (StepMode_OAM h s0 Hm). destruct (_ <=? _); exact Hpix.
      - rewrite (StepMode_VRAM h s0 Hm). destruct (_ <=? _); [|exact Hpix]. cbv zeta.
        match goal with |- context [RenderScanline h ?st] =>
          pose proof (RenderScanline_bytes h st (proj2 Hpix)) as [Hl Hb];
          destruct (RenderScanline h st) as [s1 t1] end.
        cbn [fst] in *. rewrite Hl. split; [exact (proj1 Hpix) | exact Hb].
      - rewrite (StepMode_HBlank h s0 Hm). destruct (_ <=? _); [|exact Hpix]. cbv zeta.
        destruct (_ =? 144); exact Hpix.
      - rewrite (StepMode_VBlank h s0 Hm). destruct (_ <=? _); [|exact Hpix]. cbv zeta.
        destruct (_ =? 154); exact Hpix. }
    pose proof (StepMode_next h s0) as [Hnext Hclk].
    assert (Hly1 : is_byte (m_LCDControllerYCoordinate (StepMode h s0).1)).
    { apply (f_equal snd) in Hnext. cbn [snd] in Hnext. rewrite Hnext.
      destruct (_ <=? _); [|done]. unfold next_mode.
      repeat match goal with |- context [if ?b then _ else _] => destruct b end;
        cbn [snd]; first [done | apply to_byte_range | unfold is_byte; lia]. }
    assert (Hclk1 : 0 <= m_ModeClock (StepMode h s0).1 < 2 ^ ULONG_BITS h).
    { rewrite Hclk. destruct (_ <=? _); by apply to_ulong_range. }
    destruct (StepMode h s0) as [s1 t1]. cbn [fst snd] in *.
    destruct Hk as (H1 & H2 & H3 & H4 & H5 & H6 & H7 & H8 & H9 & H10 & H11 & H12 & H13 & _).
    assert (Hs2 : (StepCoincidence s1).1
                  = set_LCDControllerStatus s1
                      (to_byte (m_LCDControllerStatus (StepCoincidence s1).1))).
    { unfold StepCoincidence.
      destruct (m_LYCompare s1 =? m_LCDControllerYCoordinate s1);
        cbn [fst m_LCDControllerStatus set_LCDControllerStatus];
        by rewrite (to_byte_small (to_byte _)) by apply to_byte_range. }
    destruct (StepCoincidence s1) as [s2 t2]. cbn [fst snd] in *.
    rewrite Hs2.
    split; cbn [m_ModeClock m_LCDControl m_LCDControllerStatus m_ScrollY m_ScrollX
      m_LCDControllerYCoordinate m_LYCompare m_WindowYPosition m_WindowXPositionMinus7
      m_BGPaletteData m_ObjectPalette0Data m_ObjectPalette1Data m_VRAM m_OAM
      m_DisplayPixels set_LCDControllerStatus];
      rewrite ?H3, ?H4, ?H5, ?H6, ?H7, ?H8, ?H9, ?H10, ?H11, ?H12, ?H13;
      first [assumption | apply to_byte_range].
  - split; cbn; first [assumption | apply to_byte_range | by apply to_ulong_range
                       | unfold is_byte; lia].
Qed.

Lemma Step_wf_witness :
  header_ok DMG /\ wf DMG (sprite_scene 0x93 0xE4 0x00)
  /\ timing_inv (sprite_scene 0x93 0xE4 0x00)
  /\ wf DMG (Step DMG (sprite_scene 0x93 0xE4 0x00) 4).1.
Proof.
  assert (Hwf : wf DMG (sprite_scene 0x93 0xE4 0x00))
    by (apply sprite_scene_wf; unfold is_byte; lia).
  assert (Hinv : timing_inv (sprite_scene 0x93 0xE4 0x00)) by (vm_compute; split; discriminate).
  split; [exact DMG_ok|]. split; [exact Hwf|]. split; [exact Hinv|].
  exact (Step_wf DMG (sprite_scene 0x93 0xE4 0x00) 4 DMG_ok Hwf Hinv).
Defined.

(** ** Boot values *)

(** Each readable register reads as the field behind it. *)
Lemma ReadByte_registers (h : Header) (s : GPU) :
  header_ok h ->
  ReadByte h s (LCDControl h) = m_LCDControl s
  /\ ReadByte h s (LCDControllerStatus h) = m_LCDControllerStatus s
  /\ ReadByte h s (ScrollY h) = m_ScrollY s
  /\ ReadByte h s (ScrollX h) = m_ScrollX s
  /\ ReadByte h s (LCDControllerYCoordinate h) = m_LCDControllerYCoordinate s
  /\ ReadByte h s (LYCompare h) = m_LYCompare s
  /\ ReadByte h s (WindowYPosition h) = m_WindowYPosition s
  /\ ReadByte h s (WindowXPositionMinus7 h) = m_WindowXPositionMinus7 s
  /\ ReadByte h s (BGPaletteData h) = m_BGPaletteData s
  /\ ReadByte h s (ObjectPalette0Data h) = m_ObjectPalette0Data s
  /\ ReadByte h s (ObjectPalette1Data h) = m_ObjectPalette1Data s.
Proof.
  intros Hh. register_facts Hh. unfold ReadByte.
  repeat match goal with H : in_VRAM _ = false |- _ => rewrite H; clear H end.
  repeat match goal with H : in_OAM _ = false |- _ => rewrite H; clear H end.
  rewrite !Z.eqb_refl.
  repeat match goal with
         | |- context [?a =? ?b] => destruct (Z.eqb_spec a b); [congruence|]
         end.
  repeat split.
Qed.

(** Property X13.
    After [PreBoot] the nine registers it sets read as the values a boot ROM
    leaves, every other address reads as before, and a second call changes
    nothing.  The scanline index is 0x91, a line of VBlank, while the mode
    bits are left alone: index and mode agree afterwards exactly when the
    mode was VBlank already. *)
Theorem PreBoot_reads (h : Header) (s : GPU) :
  header_ok h ->
  let s' := PreBoot s in
  ReadByte h s' (LCDControllerYCoordinate h) = 0x91
  /\ ReadByte h s' (ScrollY h) = 0x00 /\ ReadByte h s' (ScrollX h) = 0x00
  /\ ReadByte h s' (LYCompare h) = 0x00
  /\ ReadByte h s' (BGPaletteData h) = 0xFC
  /\ ReadByte h s' (ObjectPalette0Data h) = 0xFF
  /\ ReadByte h s' (ObjectPalette1Data h) = 0xFF
  /\ ReadByte h s' (WindowYPosition h) = 0x00
  /\ ReadByte h s' (WindowXPositionMinus7 h) = 0x00
  /\ (forall address,
        address ∉ [LCDControllerYCoordinate h; ScrollY h; ScrollX h; LYCompare h;
                   BGPaletteData h; ObjectPalette0Data h; ObjectPalette1Data h;
                   WindowYPosition h; WindowXPositionMinus7 h] ->
        ReadByte h s' address = ReadByte h s address)
  /\ PreBoot s' = s'
  /\ (timing_inv s' <-> GETMODE s = ModeVBlank)
  /\ (wf h s -> wf h s').
Proof.
  intros Hh s'.
  assert (Hagain : PreBoot s' = s') by (subst s'; destruct s; vm_compute; reflexivity).
  destruct (ReadByte_registers h s' Hh)
    as (_ & _ & -> & -> & -> & -> & -> & -> & -> & -> & ->).
  do 9 (split; [reflexivity|]).
  split; [|split; [exact Hagain|split]].
  - intros address Hnot.
    repeat match goal with
           | H : _ ∉ _ :: _ |- _ => apply not_elem_of_cons in H as [? H]
           end.
    unfold ReadByte.
    repeat match goal with
           | |- context [address =? ?r] =>
               destruct (Z.eqb_spec address r); [first [congruence | reflexivity]|]
           end.
    reflexivity.
  - unfold timing_inv.
    change (GETMODE s') with (GETMODE s).
    change (m_LCDControllerYCoordinate s') with 0x91.
    destruct (Z.eqb_spec (GETMODE s) ModeVBlank); split; intros; first [done | lia].
  - intros [Hclock Hcontrol Hstatus Hscy Hscx Hly Hlyc Hwy Hwx Hbgp Hobp0 Hobp1 Hvram Hoam Hpix].
    split; cbn; first [assumption | unfold is_byte; lia].
Qed.

Lemma PreBoot_reads_witness :
  header_ok DMG
  /\ ReadByte DMG (PreBoot (sample true true 0x91 0x01 0 0 0)) 0xFF44 = 0x91
  /\ timing_inv (PreBoot (sample true true 0x91 0x01 0 0 0)).
Proof.
  split; [exact DMG_ok|].
  destruct (PreBoot_reads DMG (sample true true 0x91 0x01 0 0 0) DMG_ok)
    as (Hly & _ & _ & _ & _ & _ & _ & _ & _ & _ & _ & Hinv & _).
  split; [exact Hly|]. apply Hinv. reflexivity.
Defined.

(** ** Where the renderers read *)

Lemma land_FE_bound (t : Z) : is_byte t -> 0 <= Z.land t 0xFE <= 254.
Proof.
  intros Ht.
  assert (Hall : forallb (fun t => (0 <=? Z.land t 0xFE) && (Z.land t 0xFE <=? 254))
                   (seqZ 0 256) = true) by (vm_compute; reflexivity).
  rewrite forallb_forall in Hall.
  assert (Hin : In t (seqZ 0 256)).
  { apply list_elem_of_In, elem_of_seqZ. unfold is_byte in Ht. lia. }
  apply Hall in Hin. apply andb_true_iff in Hin as [H1%Z.leb_le H2%Z.leb_le]. lia.
Qed.

Lemma RenderOBJSprite_same (h : Header) (i : Z) (s : GPU) :
  same_but_pixels s (RenderOBJSprite h i s).1.
Proof.
  unfold RenderOBJSprite. destruct (_ && _); [|apply same_but_pixels_refl].
  match goal with
  | |- context [for_each ?xs ?body s] =>
      pose proof (for_each_invariant (same_but_pixels s) (fun _ => True) body xs s
                    (same_but_pixels_refl s)) as Hloop;
      destruct (for_each xs body s) as [s1 t1]
  end.
  cbn [fst] in *. apply Hloop.
  intros x s' _ Hs'. split; [|by apply Forall_true].
  eapply same_but_pixels_trans; [done | apply RenderOBJPixel_same].
Qed.

Lemma for_each_length (body : Z -> GPU -> GPU * list Event) (n : nat) (xs : list Z) :
  (forall x s, length (body x s).2 = n) ->
  forall s, length (for_each xs body s).2 = (n * length xs)%nat.
Proof.
  intros Hbody. induction xs as [|x xs IH]; intros s; cbn; [lia|].
  specialize (Hbody x s). destruct (body x s) as [s1 t1].
  specialize (IH s1). destruct (for_each xs body s1) as [s2 t2].
  cbn [snd] in *. rewrite length_app. lia.
Qed.

Lemma RenderBackgroundPixel_windows h palette map data tileY tileYOff x s0 s :
  wf h s0 -> same_but_pixels s0 s ->
  map = (if BGWTileMapDisplaySelect s0 then 0x9C00 else 0x9800) ->
  data = (if BGWindowTileDataSelect s0 then 0x8000 else 0x9000) ->
  0 <= tileY < 32 -> 0 <= tileYOff < 8 -> 0 <= x < 160 ->
  Forall (reads_within (fun a => in_tile_map s0 a \/ in_tile_data s0 a))
         (RenderBackgroundPixel h palette map data tileY tileYOff x s).2.
Proof.
  intros Hwf Hsame Hmap Hdata HtY HtYO Hx. unfold RenderBackgroundPixel. cbn [snd].
  destruct (same_but_pixels_fields _ _ Hsame)
    as (_ & _ & _ & Ectl & _ & _ & Escx & _).
  pose proof (wf_scx h s0 Hwf) as Hscx. unfold is_byte in Hscx.
  rewrite Escx.
  assert (Hsel : BGWindowTileDataSelect s = BGWindowTileDataSelect s0)
    by (unfold BGWindowTileDataSelect; by rewrite Ectl).
  rewrite !Hsel.
  assert (HtX : 0 <= Z.rem (Z.quot (m_ScrollX s0 + x) 8) 32 < 32).
  { apply Z.rem_bound_pos; [apply Z.quot_pos|]; lia. }
  set (tileX := to_byte _). assert (HtX' : 0 <= tileX < 32).
  { subst tileX. rewrite to_byte_small; [done | unfold is_byte; lia]. }
  clearbody tileX.
  set (mapPtr := to_ushort _).
  assert (HmapPtr : in_tile_map s0 mapPtr).
  { subst mapPtr map. unfold in_tile_map.
    destruct (BGWTileMapDisplaySelect s0); rewrite to_ushort_small; lia. }
  clearbody mapPtr.
  rewrite (ReadByte_same h s0 s mapPtr Hsame).
  pose proof (ReadByte_byte h s0 mapPtr Hwf) as HtN.
  remember (ReadByte h s0 mapPtr) as tileNumber eqn:HtNdef. clear HtNdef.
  pose proof (to_sbyte_range tileNumber HtN) as Hsb.
  unfold is_byte in HtN.
  set (p1 := to_ushort (_ + to_ushort (tileYOff * 2))).
  assert (Hp1 : in_tile_data s0 p1 /\ in_tile_data s0 (to_ushort (p1 + 1))).
  { subst p1 data. unfold in_tile_data. rewrite (to_ushort_small (tileYOff * 2)) by lia.
    destruct (BGWindowTileDataSelect s0).
    - rewrite (to_ushort_small (32768 + _)) by lia.
      rewrite (to_ushort_small (32768 + _ + _)) by lia.
      rewrite to_ushort_small by lia. lia.
    - rewrite (to_ushort_small (36864 + _)) by lia.
      rewrite (to_ushort_small (36864 + _ + _)) by lia.
      rewrite to_ushort_small by lia. lia. }
  clearbody p1. destruct Hp1 as [Hp1 Hp2].
  apply Forall_cons_2; [left; exact HmapPtr|].
  apply Forall_cons_2; [right; exact Hp1|].
  apply Forall_cons_2; [right; exact Hp2|]. apply Forall_nil_2.
Qed.

Lemma RenderOBJSprite_windows h i s0 s :
  wf h s0 -> same_but_pixels s0 s ->
  Forall (reads_within (fun a => 0x8000 <= a <= 0x8FFF)) (RenderOBJSprite h i s).2.
Proof.
  intros Hwf Hsame. unfold RenderOBJSprite.
  destruct (same_but_pixels_fields _ _ Hsame)
    as (_ & _ & _ & Ectl & _ & _ & _ & Ely & _ & _ & _ & _ & _ & Eoam).
  rewrite Eoam, Ely. unfold OBJSize. rewrite Ectl. fold (OBJSize s0).
  destruct (wf_oam h s0 Hwf) as [_ Hoam].
  pose proof (wf_ly h s0 Hwf) as Hly.
  pose proof (load_byte (m_OAM s0) i Hoam) as HobjY.
  pose proof (load_byte (m_OAM s0) (i + 2) Hoam) as Htn.
  pose proof (land_FE_bound _ Htn) as Htn2.
  unfold is_byte in Hly, HobjY, Htn.
  destruct (_ && _) eqn:Hvis; [|done].
  apply andb_true_iff in Hvis as [Hlo%Z.leb_le Hhi%Z.ltb_lt].
  set (tn := if _ =? 16 then _ else _).
  set (yoff := to_byte (if ISBITSET _ 6 then _ else _)).
  assert (Hbound : 0 <= tn * 16 + yoff * 2 <= 0xFFE).
  { subst tn yoff. destruct (OBJSize s0).
    - change (16 =? 16) with true. cbv iota.
      rewrite (to_byte_small (Z.land _ _)) by (unfold is_byte; lia).
      rewrite to_byte_small; [destruct (ISBITSET _ 6); lia|].
      unfold is_byte. destruct (ISBITSET _ 6); lia.
    - change (8 =? 16) with false. cbv iota.
      rewrite to_byte_small; [destruct (ISBITSET _ 6); lia|].
      unfold is_byte. destruct (ISBITSET _ 6); lia. }
  assert (Htn' : 0 <= tn < 256).
  { subst tn. destruct (_ =? 16); [apply to_byte_range | done]. }
  assert (Hyoff : 0 <= yoff < 256) by apply to_byte_range.
  clearbody tn yoff.
  rewrite (to_ushort_small (32768 + tn * 16)) by lia.
  rewrite (to_ushort_small (32768 + tn * 16 + yoff * 2)) by lia.
  rewrite (to_ushort_small (32768 + tn * 16 + yoff * 2 + 1)) by lia.
  match goal with
  | |- context [for_each ?xs ?body s] =>
      pose proof (for_each_invariant (fun _ => True) (fun _ => False) body xs s I) as Hloop;
      destruct (for_each xs body s) as [s1 t1]
  end.
  destruct Hloop as [_ Ht1].
  { intros x s' _ _. split; [done|].
    match goal with
    | |- Forall _ (RenderOBJPixel ?f ?p ?a ?b ?c x s').2 =>
        destruct (RenderOBJPixel_same f p a b c x s') as [_ ->]
    end.
    done. }
  cbn [fst snd].
  repeat apply Forall_cons_2.
  - cbn. lia.
  - cbn. lia.
  - eapply Forall_impl; [exact Ht1 | done].
Qed.

(** Property X14.
    The background renderer reads the tile map and the tile data that the
    control register selects, and nothing else: three reads a column when
    the background is on, none when it is off.  The sprite renderer reads
    the first 4 KiB of video memory only, in both sprite sizes. *)
Theorem render_windows (h : Header) (s : GPU) :
  wf h s ->
  Forall (reads_within (fun a => in_tile_map s a \/ in_tile_data s a))
         (RenderBackgroundScanline h s).2
  /\ length (RenderBackgroundScanline h s).2 = (if BGDisplayEnable s then 480%nat else 0%nat)
  /\ Forall (reads_within (fun a => 0x8000 <= a <= 0x8FFF)) (RenderOBJScanline h s).2.
Proof.
  intros Hwf.
  pose proof (wf_ly h s Hwf) as Hly. pose proof (wf_scy h s Hwf) as Hscy.
  unfold is_byte in Hly, Hscy.
  split; [|split].
  - unfold RenderBackgroundScanline. destruct (negb (BGDisplayEnable s)).
    + apply (for_each_invariant (same_but_pixels s)); [apply same_but_pixels_refl|].
      intros x s' _ Hs'. cbn. split; [|done].
      eapply same_but_pixels_trans; [done | apply same_but_pixels_write].
    + apply (for_each_invariant (same_but_pixels s)); [apply same_but_pixels_refl|].
      intros x s' Hx Hs'. apply elem_of_seqZ in Hx.
      assert (Hq : 0 <= Z.quot (m_LCDControllerYCoordinate s + m_ScrollY s) 8)
        by (apply Z.quot_pos; lia).
      pose proof (Z.rem_bound_pos _ 32 Hq ltac:(lia)) as HtY.
      pose proof (Z.rem_bound_pos (m_LCDControllerYCoordinate s + m_ScrollY s) 8
                    ltac:(lia) ltac:(lia)) as HtYO.
      rewrite !to_byte_small by (unfold is_byte; lia).
      split.
      * unfold RenderBackgroundPixel. cbn [fst].
        eapply same_but_pixels_trans; [done | apply same_but_pixels_write].
      * apply (RenderBackgroundPixel_windows h _ _ _ _ _ x s s'); try done; lia.
  - unfold RenderBackgroundScanline. destruct (BGDisplayEnable s); cbn [negb].
    + rewrite (for_each_length _ 3); [by rewrite length_seqZ | done].
    + rewrite (for_each_length _ 0); [by rewrite length_seqZ | done].
  - unfold RenderOBJScanline.
    apply (for_each_invariant (same_but_pixels s)); [apply same_but_pixels_refl|].
    intros i s' _ Hs'. split.
    + eapply same_but_pixels_trans; [done | apply RenderOBJSprite_same].
    + by apply (RenderOBJSprite_windows h i s s').
Qed.

Lemma render_windows_witness :
  wf DMG (sprite_scene 0x93 0xE4 0x00)
  /\ length (RenderBackgroundScanline DMG (sprite_scene 0x93 0xE4 0x00)).2 = 480%nat.
Proof.
  assert (Hwf : wf DMG (sprite_scene 0x93 0xE4 0x00))
    by (apply sprite_scene_wf; unfold is_byte; lia).
  split; [exact Hwf|].
  destruct (render_windows DMG (sprite_scene 0x93 0xE4 0x00) Hwf) as (_ & Hlen & _).
  exact Hlen.
Defined.

(** ** Switching the display off and on *)

Section DisplaySwitch.

Context {MMU : Type} (MMU_ReadByte : MMU -> GPU -> Z -> Z * MMU).

(** Property X15.
    A [Step] with the display off, a write that switches it on, and the
    next [Step]: the frame restarts on line 0 in OAM search with the cycles
    of that call on the clock; no VBlank interrupt is requested, the frame
    callback is not called, and the framebuffer is untouched. *)
Theorem Step_display_restart (h : Header) (s : GPU) (m : MMU) (val c1 c2 : Z) :
  header_ok h ->
  IsLCDDisplayEnabled s = false ->
  ISBITSET val 7 = true ->
  0 <= c2 -> VBlankCycles h + c2 < 2 ^ ULONG_BITS h ->
  let s1 := (Step h s c1).1 in
  let s2 := (WriteByte MMU_ReadByte h s1 m (LCDControl h) val).1.1.2 in
  let r := Step h s2 c2 in
  GETMODE r.1 = ModeReadingOAM
  /\ m_LCDControllerYCoordinate r.1 = 0
  /\ m_ModeClock r.1 = c2
  /\ requests INT40 r.2 = 0%nat
  /\ callbacks r.2 = 0%nat
  /\ m_DisplayPixels r.1 = m_DisplayPixels s.
Proof.
  intros Hh Hoff Hval Hc2 Hfit s1 s2 r.
  pose proof (vblank_cycles_range h Hh) as Hvb.
  pose proof (registers_outside h Hh) as Hout. unfold registers in Hout.
  apply Forall_cons in Hout as [(_ & Hv & Ho) _].
  assert (E1 : s1 = SETMODE (set_ModeClock (set_LCDControllerYCoordinate s 153)
                               (to_ulong h (VBlankCycles h))) ModeVBlank).
  { subst s1. unfold Step. by rewrite Hoff. }
  assert (E2 : s2 = set_LCDControl s1 val).
  { subst s2. unfold WriteByte. by rewrite Hv, Ho, Z.eqb_refl. }
  assert (Hmode : GETMODE s2 = ModeVBlank).
  { rewrite E2, E1. change (GETMODE (set_LCDControl ?x val)) with (GETMODE x).
    apply GETMODE_SETMODE. unfold ModeVBlank. lia. }
  assert (Hclock : m_ModeClock s2 = VBlankCycles h).
  { rewrite E2, E1. cbn. by apply to_ulong_small. }
  assert (Hly : m_LCDControllerYCoordinate s2 = 153) by (by rewrite E2, E1).
  assert (Hpix : m_DisplayPixels s2 = m_DisplayPixels s) by (by rewrite E2, E1).
  assert (Hon : IsLCDDisplayEnabled s2 = true) by (by rewrite E2).
  clearbody s2. clear E1 E2 s1.
  subst r. unfold Step. rewrite Hon. cbn [negb].
  set (s3 := set_ModeClock s2 (to_ulong h (m_ModeClock s2 + c2))).
  rewrite (StepMode_VBlank h s3) by exact Hmode.
  change (m_ModeClock s3) with (to_ulong h (m_ModeClock s2 + c2)).
  change (m_LCDControllerYCoordinate s3) with (m_LCDControllerYCoordinate s2).
  rewrite Hclock, Hly, (to_ulong_small h (VBlankCycles h + c2)) by lia.
  destruct (Z.leb_spec (VBlankCycles h) (VBlankCycles h + c2)); [|lia].
  replace (VBlankCycles h + c2 - VBlankCycles h) with c2 by lia.
  rewrite (to_ulong_small h c2) by lia.
  cbv zeta. cbn [m_LCDControllerYCoordinate set_LCDControllerYCoordinate].
  change (to_byte (153 + 1) =? 154) with true. cbv iota.
  match goal with
  | |- context [StepCoincidence ?st] =>
      pose proof (StepCoincidence_spec st) as (Eclk & Ely & _ & _ & Epix & Emode & _ & _ & Et);
      destruct (StepCoincidence st) as [s4 t4]
  end.
  cbn [fst snd] in *. rewrite Eclk, Ely, Epix, Emode, Et.
  split; [|split; [|split; [|split; [|split]]]].
  - change (GETMODE (set_LCDControllerYCoordinate ?x 0)) with (GETMODE x).
    apply GETMODE_SETMODE. unfold ModeReadingOAM. lia.
  - reflexivity.
  - reflexivity.
  - by destruct (_ && _ && _).
  - by destruct (_ && _ && _).
  - exact Hpix.
Qed.

End DisplaySwitch.

Lemma Step_display_restart_witness :
  header_ok DMG /\ IsLCDDisplayEnabled (sample true true 0x00 0x02 70 0 30) = false
  /\ ISBITSET 0x91 7 = true
  /\ m_LCDControllerYCoordinate
       (Step DMG (WriteByte echo_ReadByte DMG (Step DMG (sample true true 0x00 0x02 70 0 30) 4).1 tt
                    (LCDControl DMG) 0x91).1.1.2 12).1 = 0.
Proof.
  split; [exact DMG_ok|]. split; [reflexivity|]. split; [reflexivity|].
  apply (Step_display_restart echo_ReadByte DMG (sample true true 0x00 0x02 70 0 30) tt
           0x91 4 12 DMG_ok eq_refl eq_refl); cbn; lia.
Defined.

(** ** A new GPU *)

(** Property X16.
    A new GPU is well formed, whatever its memories and the upper bits of
    its status register hold; the display is off, the mode is VBlank and
    the frame is all zero.  Its scanline index, 0, does not agree with
    VBlank; the first [Step] makes no call and brings index and mode into
    step. *)
Theorem GPU_new_first_step (h : Header) (pCPU : bool) (status : Z) (vram oam : list Z)
    (cycles : Z) :
  header_ok h ->
  Z.of_nat (length vram) = 8192 -> Forall is_byte vram ->
  Z.of_nat (length oam) = 160 -> Forall is_byte oam ->
  let s := GPU_new pCPU status vram oam in
  wf h s
  /\ IsLCDDisplayEnabled s = false /\ GETMODE s = ModeVBlank
  /\ GetCurrentFrame s = replicate (Z.to_nat (160 * 144)) 0
  /\ ~ timing_inv s
  /\ timing_inv (Step h s cycles).1 /\ (Step h s cycles).2 = []
  /\ wf h (Step h s cycles).1.
Proof.
  intros Hh Hvl Hvb Hol Hob s.
  pose proof (ulong_bits_pos h Hh) as Hbits.
  assert (Hpow : 0 < 2 ^ ULONG_BITS h) by (apply Z.pow_pos_nonneg; lia).
  assert (Hmode : GETMODE s = ModeVBlank).
  { subst s. unfold GPU_new. cbv zeta.
    change (GETMODE (set_DisplayPixels ?x ?p)) with (GETMODE x).
    apply GETMODE_SETMODE. unfold ModeVBlank. lia. }
  assert (Hwf : wf h s).
  { split; cbn -[replicate Z.to_nat Z.mul];
      first [ by split | apply to_byte_range | unfold is_byte; lia
            | split; [ rewrite length_replicate; lia
                     | apply Forall_replicate; unfold is_byte; lia ] ]. }
  assert (Hstep : Step h s cycles
                  = (SETMODE (set_ModeClock (set_LCDControllerYCoordinate s 153)
                                (to_ulong h (VBlankCycles h))) ModeVBlank, [])) by reflexivity.
  split; [exact Hwf|]. split; [reflexivity|]. split; [exact Hmode|].
  split; [reflexivity|]. split; [|split; [|split; [by rewrite Hstep|]]].
  - unfold timing_inv. rewrite Hmode. cbn. lia.
  - rewrite Hstep. unfold timing_inv. cbn [fst].
    rewrite GETMODE_SETMODE by (unfold ModeVBlank; lia). cbn. lia.
  - rewrite Hstep. cbn [fst].
    destruct Hwf as [Hclock Hcontrol Hstatus Hscy Hscx Hly Hlyc Hwy Hwx Hbgp
      Hobp0 Hobp1 Hvram Hoam Hpix].
    split; cbn -[GPU_new]; first [assumption | apply to_byte_range | by apply to_ulong_range
                       | unfold is_byte; lia].
Qed.

Lemma GPU_new_first_step_witness :
  header_ok DMG
  /\ Z.of_nat (length (blank 8192)) = 8192 /\ Forall is_byte (blank 8192)
  /\ Z.of_nat (length (blank 160)) = 160 /\ Forall is_byte (blank 160)
  /\ timing_inv (Step DMG (GPU_new true 0xFF (blank 8192) (blank 160)) 4).1.
Proof.
  destruct (blank_wf 8192) as [Hvl Hvb]; [lia|].
  destruct (blank_wf 160) as [Hol Hob]; [lia|].
  split; [exact DMG_ok|]. split; [exact Hvl|]. split; [exact Hvb|].
  split; [exact Hol|]. split; [exact Hob|].
  destruct (GPU_new_first_step DMG true 0xFF (blank 8192) (blank 160) 4 DMG_ok Hvl Hvb Hol Hob)
    as (_ & _ & _ & _ & _ & Hinv & _).
  exact Hinv.
Defined.

(** ** Drawing order of the sprites *)

Lemma for_each_app (body : Z -> GPU -> GPU * list Event) (xs ys : list Z) (s : GPU) :
  for_each (xs ++ ys) body s
  = let '(s1, t1) := for_each xs body s in
    let '(s2, t2) := for_each ys body s1 in (s2, t1 ++ t2).
Proof.
  revert s. induction xs as [|x xs IH]; intros s; cbn.
  - by destruct (for_each ys body s).
  - destruct (body x s) as [s1 t1]. rewrite IH.
    destruct (for_each xs body s1) as [s2 t2].
    destruct (for_each ys body s2) as [s3 t3]. by rewrite app_assoc.
Qed.

Lemma RenderOBJSprite_length (h : Header) (i : Z) (s : GPU) :
  length (m_DisplayPixels (RenderOBJSprite h i s).1) = length (m_DisplayPixels s).
Proof.
  unfold RenderOBJSprite. destruct (_ && _); [|done].
  match goal with
  | |- context [for_each ?xs ?body s] =>
      pose proof (for_each_invariant
                    (fun s' => length (m_DisplayPixels s') = length (m_DisplayPixels s))
                    (fun _ => True) body xs s eq_refl) as Hloop;
      destruct (for_each xs body s) as [s1 t1]
  end.
  cbn [fst] in *. apply Hloop.
  intros x s' _ Hs'. split; [|by apply Forall_true].
  unfold RenderOBJPixel.
  repeat match goal with |- context [if ?b then _ else _] => destruct b end;
    cbn [fst]; try done;
    unfold write_pixel; cbn; by rewrite (proj1 (store_wf _ _ _)).
Qed.

(** Property X17.
    The sprites are drawn in the order of object memory, each over what the
    earlier ones drew.  For every entry [k]: if it paints [v] at a pixel
    whatever the framebuffer holds, and no later entry touches that pixel,
    then the scanline shows [v] there, whatever the earlier entries paint. *)
Theorem RenderOBJScanline_order (h : Header) (s : GPU) (k index v : Z) :
  0 <= k < 40 ->
  (forall p : list Z,
     length p = length (m_DisplayPixels s) ->
     load (m_DisplayPixels (RenderOBJSprite h (4 * k) (set_DisplayPixels s p)).1) index = v) ->
  (forall (later : Z) (p : list Z),
     k < later < 40 -> length p = length (m_DisplayPixels s) ->
     load (m_DisplayPixels (RenderOBJSprite h (4 * later) (set_DisplayPixels s p)).1) index
     = load p index) ->
  load (m_DisplayPixels (RenderOBJScanline h s).1) index = v.
Proof.
  intros Hk Hpaints Hlater. unfold RenderOBJScanline, sprite_offsets.
  set (scale := fun j : Z => 4 * j).
  assert (Hsplit : seqZ 0 40 = seqZ 0 k ++ [k] ++ seqZ (k + 1) (40 - k - 1)).
  { replace 40 with (k + (40 - k)) at 1 by lia. rewrite seqZ_app by lia.
    rewrite (seqZ_cons (0 + k)) by lia. cbn [app].
    repeat f_equal; lia. }
  rewrite Hsplit, !fmap_app, for_each_app. cbn [fmap list_fmap app].
  (* the entries before [k] *)
  pose proof (for_each_invariant
                (fun s' => same_but_pixels s s'
                           /\ length (m_DisplayPixels s') = length (m_DisplayPixels s))
                (fun _ => True) (RenderOBJSprite h) (scale <$> seqZ 0 k) s
                (conj (same_but_pixels_refl s) eq_refl)) as [[Hsame1 Hlen1] _].
  { intros i s' _ [Hs' Hl]. split; [|by apply Forall_true]. split.
    - eapply same_but_pixels_trans; [done | apply RenderOBJSprite_same].
    - by rewrite RenderOBJSprite_length. }
  destruct (for_each (scale <$> seqZ 0 k) (RenderOBJSprite h) s) as [s1 t1].
  cbn [fst] in Hsame1, Hlen1. cbn [for_each].
  (* entry [k] *)
  assert (Hv : load (m_DisplayPixels (RenderOBJSprite h (scale k) s1).1) index = v).
  { unfold same_but_pixels in Hsame1. rewrite Hsame1. by apply Hpaints. }
  assert (Hsame2 : same_but_pixels s (RenderOBJSprite h (scale k) s1).1)
    by (eapply same_but_pixels_trans; [done | apply RenderOBJSprite_same]).
  assert (Hlen2 : length (m_DisplayPixels (RenderOBJSprite h (scale k) s1).1)
                  = length (m_DisplayPixels s)) by (by rewrite RenderOBJSprite_length).
  destruct (RenderOBJSprite h (scale k) s1) as [s2 t2]. cbn [fst] in Hv, Hsame2, Hlen2.
  (* the entries after [k] *)
  pose proof (for_each_invariant
                (fun s' => (same_but_pixels s s'
                            /\ length (m_DisplayPixels s') = length (m_DisplayPixels s))
                           /\ load (m_DisplayPixels s') index = v)
                (fun _ => True) (RenderOBJSprite h) (scale <$> seqZ (k + 1) (40 - k - 1)) s2
                (conj (conj Hsame2 Hlen2) Hv)) as [[_ Hend] _].
  { intros i s' Hi [[Hs' Hl] Hv']. split; [|by apply Forall_true].
    apply list_elem_of_fmap in Hi as (later & -> & Hin). apply elem_of_seqZ in Hin.
    split; [split|].
    - eapply same_but_pixels_trans; [done | apply RenderOBJSprite_same].
    - by rewrite RenderOBJSprite_length.
    - unfold same_but_pixels in Hs'. rewrite Hs'. unfold scale.
      rewrite Hlater by (done || lia). done. }
  destruct (for_each (scale <$> seqZ (k + 1) (40 - k - 1)) (RenderOBJSprite h) s2)
    as [s3 t3].
  cbn [fst] in Hend. cbv beta iota zeta. cbn [fst]. exact Hend.
Qed.

(** In [two_sprite_scene] the second entry paints shade 2 in the top-left
    pixel whatever the framebuffer holds, and the entries after it are off
    the scanline. *)
Lemma second_sprite_paints (p : list Z) :
  length p = length (m_DisplayPixels two_sprite_scene) ->
  load (m_DisplayPixels (RenderOBJSprite DMG (4 * 1) (set_DisplayPixels two_sprite_scene p)).1) 0
  = 0x60.
Proof.
  intros Hp.
  assert (Hlen : Z.of_nat (length p) = 160 * 144).
  { rewrite Hp. apply blank_wf. lia. }
  clear Hp.
  assert (Hpixel : forall k s, 0 <= k < 8 -> m_LCDControllerYCoordinate s = 0 ->
            RenderOBJPixel 0x10 [0; 0x60; 0xC4; 0xEB] 0 0xFF 0x00 k s
            = (write_pixel s k 0x60, [])).
  { intros k s Hk Hly.
    assert (k = 0 \/ k = 1 \/ k = 2 \/ k = 3 \/ k = 4 \/ k = 5 \/ k = 6 \/ k = 7)
      as [-> | [-> | [-> | [-> | [-> | [-> | [-> | ->]]]]]]] by lia;
      unfold RenderOBJPixel; rewrite Hly; reflexivity. }
  unfold RenderOBJSprite.
  cbn [m_OAM set_DisplayPixels two_sprite_scene m_LCDControllerYCoordinate].
  change (load ([16; 8; 0; 0; 16; 8; 0; 16] ++ blank 152) (4 * 1)) with 16.
  change (load ([16; 8; 0; 0; 16; 8; 0; 16] ++ blank 152) (4 * 1 + 1)) with 8.
  change (load ([16; 8; 0; 0; 16; 8; 0; 16] ++ blank 152) (4 * 1 + 2)) with 0.
  change (load ([16; 8; 0; 0; 16; 8; 0; 16] ++ blank 152) (4 * 1 + 3)) with 16.
  change (OBJSize _) with false. cbv iota.
  change ((16 - 16 <=? 0) && (0 <? 16 - 16 + 8)) with true. cbv iota.
  change (RenderOBJPixel 16 _ (8 - 8) _ _)
    with (RenderOBJPixel 0x10 [0; 0x60; 0xC4; 0xEB] 0 0xFF 0x00).
  change (seqZ 0 8) with [0; 1; 2; 3; 4; 5; 6; 7].
  cbn [for_each].
  repeat (rewrite Hpixel by (first [lia | reflexivity])).
  cbn [fst]. unfold write_pixel. cbn [m_DisplayPixels set_DisplayPixels].
  rewrite !load_store_ne by lia. apply load_store. lia.
Qed.

Lemma later_sprites_hidden (later : Z) (p : list Z) :
  1 < later < 40 ->
  length p = length (m_DisplayPixels two_sprite_scene) ->
  load (m_DisplayPixels
          (RenderOBJSprite DMG (4 * later) (set_DisplayPixels two_sprite_scene p)).1) 0
  = load p 0.
Proof.
  intros Hlater _.
  assert (Hall : forallb (fun j => load (m_OAM two_sprite_scene) (4 * j) =? 0) (seqZ 2 38)
                 = true) by (vm_compute; reflexivity).
  rewrite forallb_forall in Hall.
  assert (Hin : In later (seqZ 2 38)) by (apply list_elem_of_In, elem_of_seqZ; lia).
  apply Hall, Z.eqb_eq in Hin.
  unfold RenderOBJSprite.
  cbn [m_OAM set_DisplayPixels m_LCDControllerYCoordinate].
  change (m_OAM two_sprite_scene) with ([16; 8; 0; 0; 16; 8; 0; 16] ++ blank 152) in Hin.
  cbn [two_sprite_scene m_OAM m_LCDControllerYCoordinate].
  rewrite Hin. change (OBJSize _) with false. cbv iota.
  change ((0 - 16 <=? 0) && (0 <? 0 - 16 + 8)) with false. cbv iota. reflexivity.
Qed.

(** ** The picture of the background *)

(** Position [a] of the 256-pixel background plane: its tile and its offset
    in the tile, as the source computes them with truncating division. *)
Lemma plane_position (a : Z) :
  0 <= a ->
  Z.rem (Z.quot a 8) 32 = (a mod 256) / 8 /\ Z.rem a 8 = (a mod 256) mod 8.
Proof.
  intros Ha. rewrite Z.quot_div_nonneg by lia.
  rewrite !Z.rem_mod_nonneg by (try apply Z.div_pos; lia).
  split; Z.div_mod_to_equations; lia.
Qed.

Lemma palette_entry (data lo hi : Z) :
  (lo = 0 \/ lo = 1) -> (hi = 0 \/ hi = 1) ->
  load [ load GBColors (Z.land data 0x03);
         load GBColors (Z.land (Z.shiftr data 2) 0x03);
         load GBColors (Z.land (Z.shiftr data 4) 0x03);
         load GBColors (Z.land (Z.shiftr data 6) 0x03) ] (lo + 2 * hi)
  = load GBColors (Z.land (Z.shiftr data (2 * (2 * hi + lo))) 0x03).
Proof. intros [-> | ->] [-> | ->]; cbn [Z.mul Z.add Pos.mul Pos.add]; reflexivity. Qed.

(** One round of the column loop writes the shade that video memory gives
    for its column. *)
Lemma RenderBackgroundPixel_shade (h : Header) (s s' : GPU) (x : Z) :
  is_byte (m_ScrollX s) -> is_byte (m_ScrollY s) -> is_byte (m_LCDControllerYCoordinate s) ->
  Forall is_byte (m_VRAM s) ->
  VRAM_blocked s = false -> same_but_pixels s s' -> 0 <= x < 160 ->
  let palette :=
    [ load GBColors (Z.land (m_BGPaletteData s) 0x03);
      load GBColors (Z.land (Z.shiftr (m_BGPaletteData s) 2) 0x03);
      load GBColors (Z.land (Z.shiftr (m_BGPaletteData s) 4) 0x03);
      load GBColors (Z.land (Z.shiftr (m_BGPaletteData s) 6) 0x03) ] in
  let tileNumberMap := if BGWTileMapDisplaySelect s then 0x9C00 else 0x9800 in
  let tileData := if BGWindowTileDataSelect s then 0x8000 else 0x9000 in
  let tileY := to_byte (Z.rem (Z.quot (m_LCDControllerYCoordinate s + m_ScrollY s) 8) 32) in
  let tileYOffset := to_byte (Z.rem (m_LCDControllerYCoordinate s + m_ScrollY s) 8) in
  (RenderBackgroundPixel h palette tileNumberMap tileData tileY tileYOffset x s').1
  = write_pixel s' (m_LCDControllerYCoordinate s * 160 + x) (background_shade s x).
Proof.
  intros Hscx Hscy Hly Hvram Hblk Hsame Hx palette tileNumberMap tileData tileY tileYOffset.
  unfold is_byte in Hscx, Hscy, Hly.
  destruct (plane_position (m_LCDControllerYCoordinate s + m_ScrollY s)) as [HtY HtYO]; [lia|].
  destruct (plane_position (m_ScrollX s + x)) as [HtX Hbit]; [lia|].
  set (px := (m_ScrollX s + x) mod 256) in *.
  set (py := (m_LCDControllerYCoordinate s + m_ScrollY s) mod 256) in *.
  assert (Hpx : 0 <= px < 256) by (subst px; apply Z.mod_pos_bound; lia).
  assert (Hpy : 0 <= py < 256) by (subst py; apply Z.mod_pos_bound; lia).
  assert (Hpx8 : 0 <= px / 8 < 32 /\ 0 <= px mod 8 < 8)
    by (split; Z.div_mod_to_equations; lia).
  assert (Hpy8 : 0 <= py / 8 < 32 /\ 0 <= py mod 8 < 8)
    by (split; Z.div_mod_to_equations; lia).
  subst tileY tileYOffset. rewrite HtY, HtYO.
  rewrite (to_byte_small (py / 8)), (to_byte_small (py mod 8)) by (unfold is_byte; lia).
  unfold RenderBackgroundPixel. cbn [fst].
  destruct (same_but_pixels_fields _ _ Hsame)
    as (_ & _ & _ & Ectl & _ & _ & Escx & Ely & _).
  assert (Hsel : BGWindowTileDataSelect s' = BGWindowTileDataSelect s)
    by (unfold BGWindowTileDataSelect; by rewrite Ectl).
  rewrite Escx, Ely, !Hsel, HtX, Hbit.
  rewrite (to_byte_small (px / 8)), (to_byte_small (7 - px mod 8)) by (unfold is_byte; lia).
  f_equal.
  unfold background_shade. fold px py.
  (* the entry of the tile map *)
  assert (Hmap : to_ushort (tileNumberMap + py / 8 * 32 + px / 8)
                 = 0x8000 + ((if BGWTileMapDisplaySelect s then 0x1C00 else 0x1800)
                             + 32 * (py / 8) + px / 8)).
  { subst tileNumberMap. destruct (BGWTileMapDisplaySelect s); rewrite to_ushort_small; lia. }
  rewrite Hmap.
  set (entry := (if BGWTileMapDisplaySelect s then 0x1C00 else 0x1800)
                + 32 * (py / 8) + px / 8).
  assert (Hentry : 0x1800 <= entry <= 0x1FFF).
  { subst entry. destruct (BGWTileMapDisplaySelect s); lia. }
  rewrite !(ReadByte_same h s s' _ Hsame).
  rewrite (ReadByte_VRAM h s (0x8000 + entry)) by (try apply in_VRAM_true; done || lia).
  replace (0x8000 + entry - 0x8000) with entry by lia.
  pose proof (load_byte (m_VRAM s) entry Hvram) as Hnumber.
  set (number := load (m_VRAM s) entry) in *. unfold is_byte in Hnumber.
  (* the row of the tile *)
  set (tile := if BGWindowTileDataSelect s then 16 * number
               else 0x1000 + 16 * (if number <? 128 then number else number - 256)).
  assert (Htile : 0 <= tile <= 0x17F0).
  { subst tile. destruct (BGWindowTileDataSelect s); [lia|].
    destruct (Z.ltb_spec number 128); lia. }
  assert (Hptr : to_ushort
                   ((if BGWindowTileDataSelect s
                     then to_ushort (tileData + number * 16)
                     else to_ushort (tileData + to_sbyte number * 16))
                    + to_ushort (py mod 8 * 2))
                 = 0x8000 + (tile + 2 * (py mod 8))).
  { subst tile tileData. rewrite (to_ushort_small (py mod 8 * 2)) by lia.
    unfold to_sbyte. rewrite (to_byte_small number) by done.
    destruct (BGWindowTileDataSelect s).
    - rewrite (to_ushort_small (32768 + _)) by lia. rewrite to_ushort_small; lia.
    - destruct (Z.leb_spec 128 number), (Z.ltb_spec number 128); try lia;
        rewrite (to_ushort_small (36864 + _)) by lia; rewrite to_ushort_small; lia. }
  rewrite Hptr.
  set (row := tile + 2 * (py mod 8)).
  assert (Hrow : 0 <= row <= 0x17FE) by (subst row; lia).
  rewrite (to_ushort_small (0x8000 + row + 1)) by lia.
  rewrite (ReadByte_VRAM h s (0x8000 + row)) by (try apply in_VRAM_true; done || lia).
  rewrite (ReadByte_VRAM h s (0x8000 + row + 1)) by (try apply in_VRAM_true; done || lia).
  replace (0x8000 + row - 0x8000) with row by lia.
  replace (0x8000 + row + 1 - 0x8000) with (row + 1) by lia.
  rewrite !ISBITSET_testbit by lia.
  (* the palette *)
  subst palette.
  set (b1 := Z.testbit (load (m_VRAM s) row) (7 - px mod 8)).
  set (b2 := Z.testbit (load (m_VRAM s) (row + 1)) (7 - px mod 8)).
  replace ((if b1 then 1 else 0) + (if b2 then 2 else 0)) with (Z.b2z b1 + 2 * Z.b2z b2)
    by (by destruct b1, b2).
  apply palette_entry; [destruct b1 | destruct b2]; auto.
Qed.

(** A loop that writes, in round [k], the value [f k] in column [k] of the
    current scanline leaves [f x] in every column [x] it went through. *)
Lemma paint_loop (f : Z -> Z) (body : Z -> GPU -> GPU * list Event) (s : GPU) (n : nat) :
  0 <= m_LCDControllerYCoordinate s ->
  m_LCDControllerYCoordinate s * 160 + Z.of_nat n <= Z.of_nat (length (m_DisplayPixels s)) ->
  (forall k s', 0 <= k < Z.of_nat n -> same_but_pixels s s' ->
     (body k s').1 = write_pixel s' (m_LCDControllerYCoordinate s * 160 + k) (f k)) ->
  forall x, 0 <= x < Z.of_nat n ->
    load (m_DisplayPixels (for_each (seqZ 0 (Z.of_nat n)) body s).1)
         (m_LCDControllerYCoordinate s * 160 + x) = f x.
Proof.
  intros Hly Hfit Hbody.
  set (I := fun (k : Z) (s' : GPU) =>
              same_but_pixels s s'
              /\ length (m_DisplayPixels s') = length (m_DisplayPixels s)
              /\ forall x, 0 <= x < k ->
                   load (m_DisplayPixels s') (m_LCDControllerYCoordinate s * 160 + x) = f x).
  assert (Hloop : I (0 + Z.of_nat n) (for_each (seqZ 0 (Z.of_nat n)) body s).1).
  { apply (for_each_counted I body n 0 s).
    - split; [apply same_but_pixels_refl|]. split; [done|]. intros x Hx. lia.
    - intros k s' Hk (Hsame & Hlen & Hdone). rewrite Hbody by (done || lia).
      split; [|split].
      + eapply same_but_pixels_trans; [done | apply same_but_pixels_write].
      + unfold write_pixel. cbn. by rewrite (proj1 (store_wf _ _ _)).
      + intros x Hx. unfold write_pixel. cbn [m_DisplayPixels set_DisplayPixels].
        destruct (decide (x = k)) as [->|Hne].
        * apply load_store. lia.
        * rewrite load_store_ne by lia. apply Hdone. lia. }
  destruct Hloop as (_ & _ & Hdone). intros x Hx. apply Hdone. lia.
Qed.

Lemma RenderBackgroundScanline_shades (h : Header) (s : GPU) (x : Z) :
  is_byte (m_ScrollX s) -> is_byte (m_ScrollY s) -> Forall is_byte (m_VRAM s) ->
  VRAM_blocked s = false ->
  0 <= m_LCDControllerYCoordinate s < 144 ->
  Z.of_nat (length (m_DisplayPixels s)) = 160 * 144 ->
  0 <= x < 160 ->
  load (m_DisplayPixels (RenderBackgroundScanline h s).1)
       (m_LCDControllerYCoordinate s * 160 + x)
  = if BGDisplayEnable s then background_shade s x else load GBColors 0.
Proof.
  intros Hscx Hscy Hvram Hblk Hly Hlen Hx. unfold RenderBackgroundScanline.
  destruct (BGDisplayEnable s); cbn [negb].
  - apply (paint_loop (background_shade s) _ s 160); try lia.
    intros k s' Hk Hsame.
    apply RenderBackgroundPixel_shade; try done; unfold is_byte; lia.
  - apply (paint_loop (fun _ => load GBColors 0) _ s 160); try lia.
    intros k s' Hk Hsame. cbn [fst].
    destruct (same_but_pixels_fields _ _ Hsame)
      as (_ & _ & _ & _ & _ & _ & _ & -> & _).
    reflexivity.
Qed.

(** Property X18.
    With the sprites off, a call of [Step] that ends VRAM transfer leaves in
    each column of the row of the current scanline the shade that video
    memory gives for it: the map entry under the scrolled position, the tile
    row in the selected tile data, the two bit planes and the palette; or
    shade 0 throughout when the background is off.  None of the casts of
    the renderer truncates. *)
Theorem Step_background (h : Header) (s : GPU) (cycles x : Z) :
  wf h s -> timing_inv s ->
  enters_HBlank h s cycles = true ->
  OBJDisplayEnable s = false ->
  0 <= x < 160 ->
  load (GetCurrentFrame (Step h s cycles).1) (m_LCDControllerYCoordinate s * 160 + x)
  = if BGDisplayEnable s then background_shade s x else 0xEB.
Proof.
  intros Hwf Hinv Henter Hobj Hx. unfold GetCurrentFrame.
  unfold enters_HBlank in Henter.
  apply andb_true_iff in Henter as [[Hon Hmode]%andb_true_iff Hreach].
  apply Z.eqb_eq in Hmode.
  assert (Hly : 0 <= m_LCDControllerYCoordinate s < 144).
  { unfold timing_inv in Hinv. rewrite Hmode in Hinv. cbn in Hinv. lia. }
  unfold Step. rewrite Hon. cbn [negb].
  set (s0 := set_ModeClock s (to_ulong h (m_ModeClock s + cycles))).
  rewrite (StepMode_VRAM h s0) by exact Hmode.
  change (m_ModeClock s0) with (to_ulong h (m_ModeClock s + cycles)).
  rewrite Hreach. cbv zeta.
  set (s1 := SETMODE _ ModeHBlank).
  assert (Hblk : VRAM_blocked s1 = false).
  { unfold VRAM_blocked. subst s1. rewrite GETMODE_SETMODE by (unfold ModeHBlank; lia).
    apply andb_false_r. }
  pose proof (RenderBackgroundScanline_shades h s1 x (wf_scx h s Hwf) (wf_scy h s Hwf)
                (proj2 (wf_vram h s Hwf)) Hblk Hly (proj1 (wf_pixels h s Hwf)) Hx) as Hbg.
  change (m_LCDControllerYCoordinate s1) with (m_LCDControllerYCoordinate s) in Hbg.
  change (BGDisplayEnable s1) with (BGDisplayEnable s) in Hbg.
  change (background_shade s1 x) with (background_shade s x) in Hbg.
  unfold RenderScanline.
  pose proof (RenderScanline_frame h s1) as [Hframe _]. unfold RenderScanline in Hframe.
  assert (Hsame : same_but_pixels s1 (RenderBackgroundScanline h s1).1).
  { unfold RenderBackgroundScanline. destruct (negb _).
    - apply (for_each_invariant (same_but_pixels s1) (fun _ => True));
        [apply same_but_pixels_refl|].
      intros k s' _ Hs'. split; [|by apply Forall_true].
      eapply same_but_pixels_trans; [done | apply same_but_pixels_write].
    - apply (for_each_invariant (same_but_pixels s1) (fun _ => True));
        [apply same_but_pixels_refl|].
      intros k s' _ Hs'. split; [|by apply Forall_true].
      eapply same_but_pixels_trans; [done | apply same_but_pixels_write]. }
  clear Hframe.
  destruct (RenderBackgroundScanline h s1) as [s2 t2]. cbn [fst] in *.
  assert (Hobj2 : OBJDisplayEnable s2 = false).
  { destruct (same_but_pixels_fields _ _ Hsame) as (_ & _ & _ & Ectl & _).
    unfold OBJDisplayEnable in *. by rewrite Ectl. }
  rewrite Hobj2.
  pose proof (StepCoincidence_spec s2) as (_ & _ & _ & _ & Epix & _).
  destruct (StepCoincidence s2) as [s3 t3]. cbn [fst] in *.
  rewrite Epix. exact Hbg.
Qed.

Lemma Step_background_witness :
  wf DMG (sprite_scene 0x91 0xE4 0x00) /\ timing_inv (sprite_scene 0x91 0xE4 0x00)
  /\ enters_HBlank DMG (sprite_scene 0x91 0xE4 0x00) 4 = true
  /\ OBJDisplayEnable (sprite_scene 0x91 0xE4 0x00) = false
  /\ load (GetCurrentFrame (Step DMG (sprite_scene 0x91 0xE4 0x00) 4).1) 5 = 0xC4.
Proof.
  assert (Hwf : wf DMG (sprite_scene 0x91 0xE4 0x00))
    by (apply sprite_scene_wf; unfold is_byte; lia).
  assert (Hinv : timing_inv (sprite_scene 0x91 0xE4 0x00)) by (vm_compute; split; discriminate).
  split; [exact Hwf|]. split; [exact Hinv|]. split; [reflexivity|]. split; [reflexivity|].
  assert (Hx : 0 <= 5 < 160) by lia.
  exact (Step_background DMG (sprite_scene 0x91 0xE4 0x00) 4 5 Hwf Hinv eq_refl eq_refl Hx).
Defined.

(** ** Examples *)

Lemma RenderOBJScanline_order_witness :
  0 <= 1 < 40
  /\ load (m_DisplayPixels (RenderOBJSprite DMG (4 * 0) two_sprite_scene).1) 0 = 0xC4
  /\ load (m_DisplayPixels (RenderOBJScanline DMG two_sprite_scene).1) 0 = 0x60.
Proof.
  assert (Hk : 0 <= 1 < 40) by lia.
  split; [exact Hk|]. split; [vm_compute; reflexivity|].
  exact (RenderOBJScanline_order DMG two_sprite_scene 1 0 0x60 Hk
           second_sprite_paints later_sprites_hidden).
Defined.

Lemma Step_keeps_witness :
  timing_inv (sample true true 0x80 0 143 0 200)
  /\ Z.of_nat (length (GetCurrentFrame (sample true true 0x80 0 143 0 200))) = 160 * 144
  /\ enters_HBlank DMG (sample true true 0x80 0 143 0 200) 4 = false
  /\ GetCurrentFrame (Step DMG (sample true true 0x80 0 143 0 200) 4).1
     = GetCurrentFrame (sample true true 0x80 0 143 0 200).
Proof.
  assert (Hinv : timing_inv (sample true true 0x80 0 143 0 200)).
  { unfold timing_inv. change (GETMODE _ =? ModeVBlank) with false. cbn. lia. }
  assert (Hlen : Z.of_nat (length (GetCurrentFrame (sample true true 0x80 0 143 0 200)))
                 = 160 * 144) by (apply blank_wf; lia).
  split; [exact Hinv|]. split; [exact Hlen|]. split; [reflexivity|].
  destruct (Step_keeps DMG (sample true true 0x80 0 143 0 200) 4 Hinv Hlen)
    as (_ & _ & _ & _ & _ & _ & _ & _ & _ & _ & _ & _ & _ & _ & Hpix).
  exact (Hpix eq_refl).
Defined.

Lemma WriteByte_status_low_bits_witness :
  header_ok DMG
  /\ ISBITSET (m_LCDControllerStatus
                 (WriteByte echo_ReadByte DMG (sample true true 0x80 0x03 0 0 0) tt
                    (LCDControllerStatus DMG) 0x47).1.1.2) 6
     = ISBITSET 0x47 6
  /\ GETMODE (WriteByte echo_ReadByte DMG (sample true true 0x80 0x03 0 0 0) tt
                (LCDControllerStatus DMG) 0x47).1.1.2
     = GETMODE (sample true true 0x80 0x03 0 0 0).
Proof.
  split; [exact DMG_ok|].
  destruct (WriteByte_status_low_bits echo_ReadByte DMG (sample true true 0x80 0x03 0 0 0) tt
              (LCDControllerStatus DMG) 0x47) as (Hmode & _ & Hbits).
  split; [|exact Hmode].
  apply (Hbits DMG_ok eq_refl 6). lia.
Defined.
